(** * dstack: the AWS backend facade, the hub configurators and the notebook
    provider, embedded from the Python sources.

    Python values are modelled as follows: [str] and [PathLike] as [string],
    [datetime] and integer time stamps as [Z], [Optional[T]] as [option T],
    [List[T]] as [list T], a [dict] with string keys as a [gmap string _],
    a generator of finitely many items as the list of the items it yields.
    A raised exception is the [inl] of a sum. *)

From Stdlib Require Import ZArith String Ascii List Lia Permutation Sorted.
From stdpp Require Import gmap strings list fin_maps sorting pretty.

Local Open Scope string_scope.
Local Open Scope Z_scope.

(** ** Core data types (dstack._internal.core)

    The classes of dstack._internal.core are not among the sources; the
    facade only passes their values on.  They are given here the content
    the data model of the specification (section 3) describes. *)

Module Core.

(** Modelled from the spec: [JobStatus], the labels of the job lifecycle
    (core.job is missing). *)
Inductive JobStatus : Type :=
| SUBMITTED | PENDING | RUNNING | DOWNLOADING | UPLOADING
| STOPPING | STOPPED | ABORTED | FAILED | DONE.

#[export] Instance JobStatus_eq_dec : EqDecision JobStatus.
Proof. solve_decision. Defined.

(** Modelled from the spec: a job is terminal once in STOPPED, ABORTED,
    FAILED or DONE (core.job is missing). *)
Definition is_terminal (s : JobStatus) : bool :=
  match s with
  | STOPPED | ABORTED | FAILED | DONE => true
  | _ => false
  end.

(** Modelled from the spec: [JobHead], the id, run name, status and
    submission time of a job (core.job is missing). *)
Record JobHead : Type := mkJobHead {
  job_id : string;
  run_name : string;
  status : JobStatus;
  submitted_at : Z
}.

(** Modelled from the spec: [Job], identified by (repo_id, job_id), with
    its image and commands (core.job is missing). *)
Record Job : Type := mkJob {
  job_repo_id : string;
  job_head : JobHead;
  job_image_name : string;
  job_commands : list string
}.

(** Modelled from the spec: [RunHead], the aggregate over the job heads of
    one run: its status and whether a job of it is interrupted (core.run is
    missing). *)
Record RunHead : Type := mkRunHead {
  rh_run_name : string;
  rh_status : JobStatus;
  rh_interrupted : bool;
  rh_submitted_at : Z;
  rh_job_heads : list JobHead
}.

(** Modelled from the spec: [Secret], a named value (core.secret is
    missing). *)
Record Secret : Type := mkSecret {
  secret_name : string;
  secret_value : string
}.

(** Modelled from the spec: [LogEvent], (timestamp, stream_id, message)
    (core.log_event is missing). *)
Record LogEvent : Type := mkLogEvent {
  timestamp : Z;
  stream_id : string;
  message : string
}.

(** Modelled from the spec: [Artifact], a file of a job under an artifact
    name, with its size (core.artifact is missing). *)
Record Artifact : Type := mkArtifact {
  art_job_id : string;
  art_name : string;
  art_path : string;
  art_size : Z
}.

(** Modelled from the spec: [TagHead], a named pointer to a set of
    artifact keys, with the run it comes from (core.tag is missing). *)
Record TagHead : Type := mkTagHead {
  tag_name : string;
  tag_run_name : option string;
  tag_artifact_keys : list string
}.

(** Modelled from the spec: [RemoteRepoCredentials], the stored
    credentials of a remote repository (core.repo is missing). *)
Record RemoteRepoCredentials : Type := mkRemoteRepoCredentials {
  remote_credentials : string
}.

(** Modelled from the spec: [RepoSpec] and [Repo], which name a
    repository (core.repo is missing). *)
Record RepoSpec : Type := mkRepoSpec {
  spec_repo_id : string
}.

Record Repo : Type := mkRepo {
  repo_spec : RepoSpec
}.

(** Modelled from the spec: [RepoHead], a repository with the time of its
    last run (core.repo is missing). *)
Record RepoHead : Type := mkRepoHead {
  head_repo_id : string;
  last_run_at : option Z
}.

(** Modelled from the spec: [InstanceType], what [predict_instance_type]
    chooses (core.instance is missing). *)
Record InstanceType : Type := mkInstanceType {
  instance_name : string
}.

End Core.
Export Core.

(** ** The AWS backend facade (dstack/_internal/backend/aws/__init__.py) *)

Module Aws.

(** [AWSConfig] (backend.aws.config is not among the sources): the fields
    of the backend configuration that the facade and the configurator read;
    each may be [None] ([credentials] is an optional dict). *)
Record AWSConfig : Type := mkAWSConfig {
  region_name : option string;
  bucket_name : option string;
  subnet_id : option string;
  credentials : option (gmap string string)
}.

(** [boto3.session.Session], as the arguments it was built from. *)
Record Session : Type := mkSession {
  session_region_name : option string;
  aws_access_key_id : option string;
  aws_secret_access_key : option string
}.

(** [BaseClient]: a client of one AWS service made from a session. *)
Record BaseClient : Type := mkClient {
  client_session : Session;
  client_name : string
}.

(** [AWSStorage], [AWSCompute] and [AWSSecretsManager], the three
    components, as the arguments [__init__] builds them from (the classes
    are not among the sources). *)
Record AWSStorage : Type := mkAWSStorage {
  s3_client : BaseClient;
  storage_bucket_name : option string
}.

Record AWSCompute : Type := mkAWSCompute {
  ec2_client : BaseClient;
  compute_iam_client : BaseClient;
  compute_bucket_name : option string;
  compute_region_name : option string;
  compute_subnet_id : option string
}.

Record AWSSecretsManager : Type := mkAWSSecretsManager {
  secretsmanager_client : BaseClient;
  secrets_iam_client : BaseClient;
  sts_client : BaseClient;
  secrets_bucket_name : option string
}.

(** The facade object: [self]. *)
Record AwsBackend : Type := mkAwsBackend {
  backend_config : AWSConfig;
  _session : Session;
  _storage : AWSStorage;
  _compute : AWSCompute;
  _secrets_manager : AWSSecretsManager
}.

(** The functions of the base components and of [aws.logs] that the facade
    calls, each with the arguments it is called with and, as index, the type
    of what it returns.  Their bodies are not part of the facade. *)
Inductive call : Type -> Type :=
| base_jobs_predict_job_instance (compute : AWSCompute) (job : Job)
    : call (option InstanceType)
| logs_create_log_groups_if_not_exist
    (logs_client : BaseClient) (bucket_name : option string)
    (repo_id : string) : call unit
| base_runs_create_run (storage : AWSStorage) : call string
| base_jobs_create_job (storage : AWSStorage) (job : Job) : call unit
| base_jobs_get_job (storage : AWSStorage) (repo_id job_id : string)
    : call (option Job)
| base_jobs_list_jobs (storage : AWSStorage) (repo_id run_name : string)
    : call (list Job)
| base_jobs_run_job (storage : AWSStorage) (compute : AWSCompute) (job : Job)
    (failed_to_start_job_new_status : JobStatus) : call unit
| base_jobs_stop_job (storage : AWSStorage) (compute : AWSCompute)
    (repo_id job_id : string) (abort : bool) : call unit
| base_jobs_list_job_heads (storage : AWSStorage) (repo_id : string)
    (run_name : option string) : call (list JobHead)
| base_jobs_delete_job_head (storage : AWSStorage) (repo_id job_id : string)
    : call unit
| base_runs_get_run_heads (storage : AWSStorage) (compute : AWSCompute)
    (job_heads : list JobHead) (include_request_heads : bool)
    (interrupted_job_new_status : JobStatus) : call (list RunHead)
| logs_poll_logs (storage : AWSStorage) (logs_client : BaseClient)
    (bucket_name : option string) (repo_id run_name : string)
    (start_time : Z) (end_time : option Z) (descending diagnose : bool)
    : call (list LogEvent)
| base_artifacts_list_run_artifact_files (storage : AWSStorage)
    (repo_id run_name prefix : string) (recursive : bool)
    : call (list Artifact)
| base_artifacts_download_run_artifact_files (storage : AWSStorage)
    (repo_id : string) (artifacts : list Artifact)
    (output_dir files_path : option string) : call unit
| base_artifacts_upload_job_artifact_files (storage : AWSStorage)
    (repo_id job_id artifact_name artifact_path local_path : string)
    : call unit
| base_tags_list_tag_heads (storage : AWSStorage) (repo_id : string)
    : call (list TagHead)
| base_tags_get_tag_head (storage : AWSStorage) (repo_id tag_name : string)
    : call (option TagHead)
| base_tags_create_tag_from_run (storage : AWSStorage)
    (repo_id tag_name run_name : string) (run_jobs : option (list Job))
    : call unit
| base_tags_create_tag_from_local_dirs (storage : AWSStorage) (repo : Repo)
    (hub_user_name tag_name : string) (local_dirs artifact_paths : list string)
    : call unit
| base_tags_delete_tag (storage : AWSStorage) (repo_id : string)
    (tag_head : TagHead) : call unit
| base_repos_list_repo_heads (storage : AWSStorage) : call (list RepoHead)
| base_repos_update_repo_last_run_at (storage : AWSStorage)
    (repo_spec : RepoSpec) (last_run_at : Z) : call unit
| base_repos_get_repo_credentials (secrets_manager : AWSSecretsManager)
    (repo_id : string) : call (option RemoteRepoCredentials)
| base_repos_save_repo_credentials (secrets_manager : AWSSecretsManager)
    (repo_id : string) (repo_credentials : RemoteRepoCredentials) : call unit
| base_repos_delete_repo (storage : AWSStorage) (repo_id : string) : call unit
| base_secrets_list_secret_names (storage : AWSStorage) (repo_id : string)
    : call (list string)
| base_secrets_get_secret (secrets_manager : AWSSecretsManager)
    (repo_id secret_name : string) : call (option Secret)
| base_secrets_add_secret (storage : AWSStorage)
    (secrets_manager : AWSSecretsManager) (repo_id : string) (secret : Secret)
    : call unit
| base_secrets_update_secret (storage : AWSStorage)
    (secrets_manager : AWSSecretsManager) (repo_id : string) (secret : Secret)
    : call unit
| base_secrets_delete_secret (storage : AWSStorage)
    (secrets_manager : AWSSecretsManager) (repo_id secret_name : string)
    : call unit
| storage_get_signed_download_url (storage : AWSStorage) (object_key : string)
    : call string
| storage_get_signed_upload_url (storage : AWSStorage) (object_key : string)
    : call string
| base_cache_delete_workflow_cache (storage : AWSStorage)
    (repo_id hub_user_name workflow_name : string) : call unit.

(** A facade method is a program over these calls: it returns, or performs
    a call and goes on with what the call returned. *)
Inductive prog (A : Type) : Type :=
| Ret (a : A)
| Do (R : Type) (c : call R) (k : R -> prog A).
Arguments Ret {A} a.
Arguments Do {A R} c k.

Fixpoint bind {A B : Type} (p : prog A) (f : A -> prog B) : prog B :=
  match p with
  | Ret a => f a
  | Do c k => Do c (fun r => bind (k r) f)
  end.

#[global] Instance prog_ret : MRet prog := @Ret.
#[global] Instance prog_bind : MBind prog := fun A B f p => bind p f.

(** Perform one call and return its result. *)
Definition perform {R : Type} (c : call R) : prog R := Do c Ret.

(** Exceptions of the backend (the error taxonomy). *)
Inductive Exception : Type :=
| NotFound | AlreadyExists | RunNotFound | LaunchError | PermissionError.

(** An implementation of the base components over a world [W]: what each
    call returns (or raises) and how it changes the world. *)
Definition handler (W : Type) : Type :=
  forall R : Type, call R -> W -> (Exception + R) * W.

(** Running a facade method: an exception raised by a call propagates,
    the facade has no [try]. *)
Fixpoint run {W A : Type} (h : handler W) (p : prog A) (w : W)
  : (Exception + A) * W :=
  match p with
  | Ret a => (inr a, w)
  | Do c k =>
      match h _ c w with
      | (inl e, w') => (inl e, w')
      | (inr r, w') => run h (k r) w'
      end
  end.

(** The calls a facade method performs, in order. *)
Definition event : Type := { R : Type & call R }.
Definition Event {R : Type} (c : call R) : event := existT R c.

Fixpoint trace {W A : Type} (h : handler W) (p : prog A) (w : W)
  : list event :=
  match p with
  | Ret _ => []
  | Do c k =>
      Event c ::
      match h _ c w with
      | (inl _, _) => []
      | (inr r, w') => trace h (k r) w'
      end
  end.

(** *** The methods of [AwsBackend] *)

Definition _get_client (session : Session) (client_name : string)
  : BaseClient :=
  mkClient session client_name.

(** [__init__]: the session is built from the credentials when there are
    some, and the three components from the configuration. *)
Definition __init__ (backend_config : AWSConfig) : AwsBackend :=
  let session :=
    match credentials backend_config with
    | Some creds =>
        mkSession (region_name backend_config)
                  (creds !! "access_key") (creds !! "secret_key")
    | None => mkSession (region_name backend_config) None None
    end in
  mkAwsBackend backend_config session
    (mkAWSStorage (_get_client session "s3") (bucket_name backend_config))
    (mkAWSCompute (_get_client session "ec2") (_get_client session "iam")
       (bucket_name backend_config) (region_name backend_config)
       (subnet_id backend_config))
    (mkAWSSecretsManager (_get_client session "secretsmanager")
       (_get_client session "iam") (_get_client session "sts")
       (bucket_name backend_config)).

Section Methods.
Variable self : AwsBackend.

Definition _s3_client : BaseClient := _get_client (_session self) "s3".
Definition _ec2_client : BaseClient := _get_client (_session self) "ec2".
Definition _iam_client : BaseClient := _get_client (_session self) "iam".
Definition _logs_client : BaseClient := _get_client (_session self) "logs".
Definition _secretsmanager_client : BaseClient :=
  _get_client (_session self) "secretsmanager".
Definition _sts_client : BaseClient := _get_client (_session self) "sts".

Definition predict_instance_type (job : Job) : prog (option InstanceType) :=
  perform (base_jobs_predict_job_instance (_compute self) job).

Definition create_run (repo_id : string) : prog string :=
  _ ← perform (logs_create_log_groups_if_not_exist
                 _logs_client (bucket_name (backend_config self)) repo_id);
  perform (base_runs_create_run (_storage self)).

Definition create_job (job : Job) : prog unit :=
  perform (base_jobs_create_job (_storage self) job).

Definition get_job (repo_id job_id : string) : prog (option Job) :=
  perform (base_jobs_get_job (_storage self) repo_id job_id).

Definition list_jobs (repo_id run_name : string) : prog (list Job) :=
  perform (base_jobs_list_jobs (_storage self) repo_id run_name).

Definition run_job (job : Job) (failed_to_start_job_new_status : JobStatus)
  : prog unit :=
  perform (base_jobs_run_job (_storage self) (_compute self) job
             failed_to_start_job_new_status).

Definition stop_job (repo_id : string) (abort : bool) (job_id : string)
  : prog unit :=
  perform (base_jobs_stop_job (_storage self) (_compute self)
             repo_id job_id abort).

(** [run_name] defaults to [None]. *)
Definition list_job_heads (repo_id : string) (run_name : option string)
  : prog (list JobHead) :=
  perform (base_jobs_list_job_heads (_storage self) repo_id run_name).

Definition delete_job_head (repo_id job_id : string) : prog unit :=
  perform (base_jobs_delete_job_head (_storage self) repo_id job_id).

(** The keyword parameters [include_request_heads] and
    [interrupted_job_new_status] are options here: [None] is a call that
    leaves the argument out, and the parameter then has its default,
    [True] and [JobStatus.FAILED]. *)
Definition list_run_heads (repo_id : string) (run_name : option string)
  (include_request_heads : option bool)
  (interrupted_job_new_status : option JobStatus) : prog (list RunHead) :=
  let include_request_heads := default true include_request_heads in
  let interrupted_job_new_status :=
    default FAILED interrupted_job_new_status in
  job_heads ← list_job_heads repo_id run_name;
  perform (base_runs_get_run_heads (_storage self) (_compute self)
             job_heads include_request_heads interrupted_job_new_status).

(** [end_time] defaults to [None], [descending] and [diagnose] to [False]:
    an omitted argument is [None]. *)
Definition poll_logs (repo_id run_name : string) (start_time : Z)
  (end_time : option Z) (descending diagnose : option bool)
  : prog (list LogEvent) :=
  let descending := default false descending in
  let diagnose := default false diagnose in
  perform (logs_poll_logs (_storage self) _logs_client
             (bucket_name (backend_config self)) repo_id run_name
             start_time end_time descending diagnose).

(** [recursive] defaults to [False]. *)
Definition list_run_artifact_files (repo_id run_name prefix : string)
  (recursive : option bool) : prog (list Artifact) :=
  let recursive := default false recursive in
  perform (base_artifacts_list_run_artifact_files (_storage self)
             repo_id run_name prefix recursive).

(** [files_path] defaults to [None]. *)
Definition download_run_artifact_files (repo_id run_name : string)
  (output_dir files_path : option string) : prog unit :=
  artifacts ← list_run_artifact_files repo_id run_name "" (Some true);
  perform (base_artifacts_download_run_artifact_files (_storage self)
             repo_id artifacts output_dir files_path).

Definition upload_job_artifact_files
  (repo_id job_id artifact_name artifact_path local_path : string)
  : prog unit :=
  perform (base_artifacts_upload_job_artifact_files (_storage self)
             repo_id job_id artifact_name artifact_path local_path).

Definition list_tag_heads (repo_id : string) : prog (list TagHead) :=
  perform (base_tags_list_tag_heads (_storage self) repo_id).

Definition get_tag_head (repo_id tag_name : string) : prog (option TagHead) :=
  perform (base_tags_get_tag_head (_storage self) repo_id tag_name).

Definition add_tag_from_run (repo_id tag_name run_name : string)
  (run_jobs : option (list Job)) : prog unit :=
  perform (base_tags_create_tag_from_run (_storage self)
             repo_id tag_name run_name run_jobs).

Definition add_tag_from_local_dirs (repo : Repo)
  (hub_user_name tag_name : string) (local_dirs artifact_paths : list string)
  : prog unit :=
  perform (base_tags_create_tag_from_local_dirs (_storage self) repo
             hub_user_name tag_name local_dirs artifact_paths).

Definition delete_tag_head (repo_id : string) (tag_head : TagHead)
  : prog unit :=
  perform (base_tags_delete_tag (_storage self) repo_id tag_head).

Definition list_repo_heads : prog (list RepoHead) :=
  perform (base_repos_list_repo_heads (_storage self)).

Definition update_repo_last_run_at (repo_spec : RepoSpec) (last_run_at : Z)
  : prog unit :=
  perform (base_repos_update_repo_last_run_at (_storage self)
             repo_spec last_run_at).

Definition get_repo_credentials (repo_id : string)
  : prog (option RemoteRepoCredentials) :=
  perform (base_repos_get_repo_credentials (_secrets_manager self) repo_id).

Definition save_repo_credentials (repo_id : string)
  (repo_credentials : RemoteRepoCredentials) : prog unit :=
  perform (base_repos_save_repo_credentials (_secrets_manager self)
             repo_id repo_credentials).

Definition delete_repo (repo_id : string) : prog unit :=
  perform (base_repos_delete_repo (_storage self) repo_id).

Definition list_secret_names (repo_id : string) : prog (list string) :=
  perform (base_secrets_list_secret_names (_storage self) repo_id).

(** As in the source, the third argument of the base call is [repo_id]. *)
Definition get_secret (repo_id secret_name : string) : prog (option Secret) :=
  perform (base_secrets_get_secret (_secrets_manager self) repo_id repo_id).

Definition add_secret (repo_id : string) (secret : Secret) : prog unit :=
  perform (base_secrets_add_secret (_storage self) (_secrets_manager self)
             repo_id secret).

Definition update_secret (repo_id : string) (secret : Secret) : prog unit :=
  perform (base_secrets_update_secret (_storage self) (_secrets_manager self)
             repo_id secret).

(** As in the source, the fourth argument of the base call is [repo_id]. *)
Definition delete_secret (repo_id secret_name : string) : prog unit :=
  perform (base_secrets_delete_secret (_storage self) (_secrets_manager self)
             repo_id repo_id).

Definition get_signed_download_url (object_key : string) : prog string :=
  perform (storage_get_signed_download_url (_storage self) object_key).

Definition get_signed_upload_url (object_key : string) : prog string :=
  perform (storage_get_signed_upload_url (_storage self) object_key).

Definition delete_workflow_cache
  (repo_id hub_user_name workflow_name : string) : prog unit :=
  perform (base_cache_delete_workflow_cache (_storage self)
             repo_id hub_user_name workflow_name).

End Methods.

(** The delegation of the two secret methods as the specification words
    it: every argument of the caller goes, unchanged, to the parameter of
    the base function that it names. *)
Definition get_secret_delegation (self : AwsBackend)
  (repo_id secret_name : string) : prog (option Secret) :=
  perform (base_secrets_get_secret (_secrets_manager self)
             repo_id secret_name).

Definition delete_secret_delegation (self : AwsBackend)
  (repo_id secret_name : string) : prog unit :=
  perform (base_secrets_delete_secret (_storage self) (_secrets_manager self)
             repo_id secret_name).

(** Under the handler [h] and from the world [w], the method [p] does
    what the one call [c] does: it performs [c] and nothing else, and ends
    as [c] ends (same result or exception, same world). *)
Definition delegates_to {W R : Type} (h : handler W) (w : W) (p : prog R)
  (c : call R) : Prop :=
  run h p w = h R c w /\ trace h p w = [Event c].

(** The secret name a call is given, when it is given one. *)
Definition secret_name_argument {R : Type} (c : call R) : option string :=
  match c with
  | base_secrets_get_secret _ _ secret_name => Some secret_name
  | base_secrets_delete_secret _ _ _ secret_name => Some secret_name
  | base_secrets_add_secret _ _ _ secret => Some (Core.secret_name secret)
  | base_secrets_update_secret _ _ _ secret => Some (Core.secret_name secret)
  | _ => None
  end.

End Aws.

(** ** The base components, from the specification

    The modules [backend.base.secrets], [backend.base.jobs],
    [backend.base.runs] and [backend.aws.logs] that the facade calls are not
    among the sources.  The definitions of this module follow the component
    design of the specification (sections 4.1, 4.2, 4.3, 4.6 and 4.7, and
    the collaborators and object-store layout of section 6). *)

Module BaseModel.
Import Aws.

(** Modelled from the spec: a blob of the ObjectStore (the storage class
    is missing).  The store holds bytes; a job head is kept decoded. *)
Inductive blob : Type :=
| Bytes (data : string)
| JobHeadBlob (jh : JobHead).

(** Modelled from the spec: the address of a log stream in the LogSink
    (the sink is missing): the provider's group of a bucket and repository,
    the run, and whether the stream holds backend diagnostics or the process
    output. *)
Record LogGroup : Type := mkLogGroup {
  group_bucket : option string;
  group_repo_id : string;
  group_run_name : string;
  group_diagnostic : bool
}.

#[export] Instance LogGroup_eq_dec : EqDecision LogGroup.
Proof. solve_decision. Defined.

(** Modelled from the spec: the collaborators of section 6, all missing,
    as one world: the ObjectStore (keys per bucket), the SecretVault (names
    derived from (repo_id, secret_name)), the handles Compute reports alive
    (a job's handle is its id), and the LogSink with the size of its
    pages. *)
Record World : Type := mkWorld {
  objects : gmap (option string * string) blob;
  vault : gmap (string * string) string;
  alive : gset string;
  log_records : list (LogGroup * LogEvent);
  page_size : nat
}.

(** *** ObjectStore (section 4.1) *)

(** Modelled from the spec: [put(key, bytes)] of the ObjectStore (the
    storage class is missing).  A bucket is named as the storage handle
    names it. *)
Definition os_put (bucket : option string) (key : string) (b : blob)
  (m : gmap (option string * string) blob)
  : gmap (option string * string) blob :=
  <[(bucket, key) := b]> m.

(** Modelled from the spec: [get(key)] of the ObjectStore; [NotFound] is
    [None]. *)
Definition os_get (bucket : option string) (key : string)
  (m : gmap (option string * string) blob) : option blob :=
  m !! (bucket, key).

(** Modelled from the spec: [delete(key)] of the ObjectStore. *)
Definition os_delete (bucket : option string) (key : string)
  (m : gmap (option string * string) blob)
  : gmap (option string * string) blob :=
  delete (bucket, key) m.

(** Modelled from the spec: [list(prefix)] of the ObjectStore, the keys
    ordered. *)
Definition os_list (bucket : option string) (prefix : string)
  (m : gmap (option string * string) blob) : list string :=
  merge_sort String.le
    (filter (fun k => String.prefix prefix k = true)
       (omap (fun '(b, k, _) => if decide (b = bucket) then Some k else None)
          (map_to_list m))).

(** *** SecretsManager (section 4.6) *)

(** Modelled from the spec: the prefix of the name index of a repository
    in the persisted layout, [secrets-index/<repo_id>/] (base.secrets is
    missing). *)
Definition secrets_index_prefix (repo_id : string) : string :=
  "secrets-index/" +:+ repo_id +:+ "/".

(** Modelled from the spec: the key of the index entry of a secret,
    [secrets-index/<repo_id>/<secret_name>]. *)
Definition secrets_index_key (repo_id secret_name : string) : string :=
  secrets_index_prefix repo_id +:+ secret_name.

(** Modelled from the spec: [base.secrets.get_secret], which is missing,
    reads the vault; an absent name ([NotFound]) is [None]. *)
Definition get_secret (repo_id secret_name : string) (w : World)
  : option Secret :=
  mkSecret secret_name <$> vault w !! (repo_id, secret_name).

(** Modelled from the spec: [base.secrets.add_secret], which is missing,
    fails with [AlreadyExists] when the pre-write existence check finds the
    name; else it writes the vault and, after it, the index entry. *)
Definition add_secret (bucket : option string) (repo_id : string)
  (secret : Secret) (w : World)
  : (Exception + unit) * World :=
  match os_get bucket (secrets_index_key repo_id (secret_name secret))
          (objects w) with
  | Some _ => (inl AlreadyExists, w)
  | None =>
      let v := <[(repo_id, secret_name secret) := secret_value secret]>
                 (vault w) in
      let o := os_put bucket (secrets_index_key repo_id (secret_name secret))
                 (Bytes "") (objects w) in
      (inr tt, mkWorld o v (alive w) (log_records w) (page_size w))
  end.

(** Modelled from the spec: [base.secrets.delete_secret], which is
    missing, removes the vault entry, then the index entry. *)
Definition delete_secret (bucket : option string)
  (repo_id secret_name : string) (w : World) : World :=
  let v := delete (repo_id, secret_name) (vault w) in
  let o := os_delete bucket (secrets_index_key repo_id secret_name)
             (objects w) in
  mkWorld o v (alive w) (log_records w) (page_size w).

(** Modelled from the spec: [base.secrets.list_secret_names], which is
    missing, reads the name index of the repository in the ObjectStore. *)
Definition list_secret_names (bucket : option string) (repo_id : string)
  (w : World) : list string :=
  let p := secrets_index_prefix repo_id in
  (fun k => String.substring (String.length p)
              (String.length k - String.length p) k)
    <$> os_list bucket p (objects w).

(** *** JobStore (section 4.2) *)

(** Modelled from the spec: the prefix of the job heads of a repository,
    or of one of its runs, in the persisted layout
    [job-heads/<repo_id>/<run_name>/<job_id>] (base.jobs is missing). *)
Definition job_heads_prefix (repo_id : string) (run_name : option string)
  : string :=
  match run_name with
  | Some r => "job-heads/" +:+ repo_id +:+ "/" +:+ r +:+ "/"
  | None => "job-heads/" +:+ repo_id +:+ "/"
  end.

(** Modelled from the spec: [base.jobs.list_job_heads], which is missing,
    is a pure read of the ObjectStore. *)
Definition list_job_heads (bucket : option string) (repo_id : string)
  (run_name : option string) (w : World) : list JobHead :=
  omap (fun k => match os_get bucket k (objects w) with
                 | Some (JobHeadBlob jh) => Some jh
                 | _ => None
                 end)
       (os_list bucket (job_heads_prefix repo_id run_name) (objects w)).

(** *** RunReconciler (section 4.3) *)

(** Modelled from the spec: the fixed precedence of statuses in
    [base.runs.get_run_heads], which is missing.  RUNNING dominates; then
    any other non-terminal status; then FAILED and ABORTED; then DONE and
    STOPPED. *)
Definition tier (s : JobStatus) : nat :=
  match s with
  | RUNNING => 0
  | SUBMITTED | PENDING | DOWNLOADING | UPLOADING | STOPPING => 1
  | FAILED | ABORTED => 2
  | DONE | STOPPED => 3
  end%nat.

Section Reconciler.

(** Modelled from the spec: the tie-break among statuses of one tier is a
    configurable policy (section 9): a rank, the smaller dominating. *)
Variable policy : JobStatus -> nat.

(** Modelled from the spec: [a] dominates [b] or ties with it: by tier,
    then by the policy. *)
Definition precedes (a b : JobStatus) : bool :=
  (tier a <? tier b)%nat
  || ((tier a =? tier b)%nat && (policy a <=? policy b)%nat).

(** Modelled from the spec: of two statuses, the one that dominates. *)
Definition dominant (a b : JobStatus) : JobStatus :=
  if precedes a b then a else b.

(** Modelled from the spec: the run-level status, the aggregation of the
    members' statuses by the precedence. *)
Definition aggregate (first : JobStatus) (rest : list JobStatus) : JobStatus :=
  fold_left dominant rest first.

(** Modelled from the spec: a job is interrupted when its stored status is
    non-terminal and Compute reports its resource gone; this is checked
    only if [include_request_heads] is set. *)
Definition interrupted (alive : gset string) (include_request_heads : bool)
  (jh : JobHead) : bool :=
  include_request_heads && negb (is_terminal (status jh))
  && negb (bool_decide (job_id jh ∈ alive)).

(** Modelled from the spec: the effective job head; the status of an
    interrupted job is rewritten to [interrupted_job_new_status]. *)
Definition effective (alive : gset string) (include_request_heads : bool)
  (interrupted_job_new_status : JobStatus) (jh : JobHead) : JobHead :=
  if interrupted alive include_request_heads jh
  then mkJobHead (job_id jh) (run_name jh) interrupted_job_new_status
         (submitted_at jh)
  else jh.

(** Modelled from the spec: the members' statuses after the rewriting of
    the interrupted jobs. *)
Definition effective_statuses (alive : gset string)
  (include_request_heads : bool) (interrupted_job_new_status : JobStatus)
  (job_heads : list JobHead) : list JobStatus :=
  (fun jh => status (effective alive include_request_heads
                       interrupted_job_new_status jh)) <$> job_heads.

(** Modelled from the spec: the grouping by run name; the run names of
    the job heads, each once, in order of appearance. *)
Fixpoint run_names (seen : list string) (job_heads : list JobHead)
  : list string :=
  match job_heads with
  | [] => []
  | jh :: rest =>
      if bool_decide (run_name jh ∈ seen) then run_names seen rest
      else run_name jh :: run_names (run_name jh :: seen) rest
  end.

(** Modelled from the spec: the [RunHead] of one group.  The spec does not
    say which submission time a run has; here it is that of its job
    submitted first. *)
Definition run_head (alive : gset string) (include_request_heads : bool)
  (interrupted_job_new_status : JobStatus) (name : string)
  (group : list JobHead) : option RunHead :=
  match effective alive include_request_heads interrupted_job_new_status
          <$> group with
  | [] => None
  | jh :: rest =>
      Some (mkRunHead name
              (aggregate (status jh) (status <$> rest))
              (existsb (interrupted alive include_request_heads) group)
              (fold_left Z.min (submitted_at <$> rest) (submitted_at jh))
              (jh :: rest))
  end.

(** Modelled from the spec: the order of the returned run heads, most
    recent first. *)
Definition later (a b : RunHead) : Prop :=
  rh_submitted_at b <= rh_submitted_at a.

#[global] Instance later_dec : RelDecision later.
Proof. intros a b. unfold later. apply _. Defined.

(** Modelled from the spec: [base.runs.get_run_heads], which is missing,
    groups the job heads by run name, rewrites the interrupted ones,
    aggregates each group and returns the run heads sorted by submission
    time, descending. *)
Definition get_run_heads (alive : gset string) (job_heads : list JobHead)
  (include_request_heads : bool) (interrupted_job_new_status : JobStatus)
  : list RunHead :=
  merge_sort later
    (omap (fun name =>
             run_head alive include_request_heads interrupted_job_new_status
               name
               (filter (fun jh => run_name jh = name) job_heads))
          (run_names [] job_heads)).

End Reconciler.

(** A policy for the examples: among the statuses of one tier, the one
    declared first dominates. *)
Definition declaration_order (s : JobStatus) : nat :=
  match s with
  | SUBMITTED => 0 | PENDING => 1 | RUNNING => 2 | DOWNLOADING => 3
  | UPLOADING => 4 | STOPPING => 5 | STOPPED => 6 | ABORTED => 7
  | FAILED => 8 | DONE => 9
  end%nat.

(** *** LogReader (section 4.7) *)

(** Modelled from the spec: the time range of [aws.logs.poll_logs], which
    is missing: [start_time] included and [end_time], when given,
    excluded. *)
Definition in_range (start_time : Z) (end_time : option Z) (e : LogEvent)
  : bool :=
  (start_time <=? timestamp e)
  && match end_time with
     | Some t => timestamp e <? t
     | None => true
     end.

(** Modelled from the spec: the events the LogSink holds for a group, as
    they were put in. *)
Definition stream_events (w : World) (group : LogGroup) : list LogEvent :=
  omap (fun '(g, e) => if decide (g = group) then Some e else None)
    (log_records w).

(** Modelled from the spec: the events of a group within a range. *)
Definition matching (w : World) (group : LogGroup) (start_time : Z)
  (end_time : option Z) : list LogEvent :=
  filter (fun e => in_range start_time end_time e = true)
    (stream_events w group).

(** Modelled from the spec: [LogSink.query(group, time_range, token)]
    returns one page of the events of the group in the range, and the token
    of the next page when there is one.  A token is the number of events
    already returned. *)
Definition query (w : World) (group : LogGroup) (start_time : Z)
  (end_time : option Z) (token : option nat)
  : list LogEvent * option nat :=
  let matching := matching w group start_time end_time in
  let off := default 0%nat token in
  let page := take (page_size w) (drop off matching) in
  (page,
   if (off + page_size w <? length matching)%nat
   then Some (off + page_size w)%nat else None).

(** Modelled from the spec: the continuation tokens are followed until
    the sink gives none.  [fuel] bounds the number of pages read. *)
Fixpoint follow (fuel : nat) (q : option nat -> list LogEvent * option nat)
  (token : option nat) : list LogEvent :=
  match fuel with
  | O => []
  | S fuel' =>
      let '(events, next) := q token in
      match next with
      | None => events
      | Some t => (events ++ follow fuel' q (Some t))%list
      end
  end.

(** Modelled from the spec: the ascending and the descending order of
    the yielded events, by time stamp. *)
Definition earlier (a b : LogEvent) : Prop := timestamp a <= timestamp b.

Definition not_earlier (a b : LogEvent) : Prop := timestamp b <= timestamp a.

#[global] Instance earlier_dec : RelDecision earlier.
Proof. intros a b. unfold earlier. apply _. Defined.
#[global] Instance not_earlier_dec : RelDecision not_earlier.
Proof. intros a b. unfold not_earlier. apply _. Defined.

(** Modelled from the spec: [aws.logs.poll_logs], which is missing, reads
    every page of the run's stream (and of its diagnostic stream when
    [diagnose] is set) and yields the events in timestamp order, ascending
    unless [descending]. *)
Definition poll_logs (w : World) (bucket_name : option string)
  (repo_id run_name : string) (start_time : Z) (end_time : option Z)
  (descending diagnose : bool)
  : list LogEvent :=
  let read diagnostic :=
    follow (S (length (log_records w)))
      (query w (mkLogGroup bucket_name repo_id run_name diagnostic)
         start_time end_time)
      None in
  let events := (read false ++ (if diagnose then read true else []))%list in
  if descending then merge_sort not_earlier events
  else merge_sort earlier events.

(** *** The base components as a handler of the facade's calls *)

Section Handler.
Variable policy : JobStatus -> nat.

(** What the specification does not describe closely enough to model (the
    other calls) is left to an arbitrary handler. *)
Variable other : handler World.

(** Modelled from the spec: the missing base functions, each call given
    the meaning defined above. *)
Definition base : handler World :=
  fun R c =>
    match c in call R0 return World -> (Exception + R0) * World with
    | base_secrets_list_secret_names storage repo_id => fun w =>
        (inr (list_secret_names (storage_bucket_name storage) repo_id w), w)
    | base_secrets_get_secret _ repo_id secret_name => fun w =>
        (inr (get_secret repo_id secret_name w), w)
    | base_secrets_add_secret storage _ repo_id secret => fun w =>
        add_secret (storage_bucket_name storage) repo_id secret w
    | base_secrets_delete_secret storage _ repo_id secret_name => fun w =>
        (inr tt,
         delete_secret (storage_bucket_name storage) repo_id secret_name w)
    | base_jobs_list_job_heads storage repo_id run_name => fun w =>
        (inr (list_job_heads (storage_bucket_name storage) repo_id run_name w),
         w)
    | base_runs_get_run_heads _ _ job_heads include_request_heads
        interrupted_job_new_status => fun w =>
        (inr (get_run_heads policy (alive w) job_heads include_request_heads
                interrupted_job_new_status), w)
    | logs_poll_logs _ _ bucket_name repo_id run_name start_time end_time
        descending diagnose => fun w =>
        (inr (poll_logs w bucket_name repo_id run_name start_time end_time
                descending diagnose), w)
    | c' => other _ c'
    end.

End Handler.

(** For the examples: a handler under which every call that is not
    modelled raises, and a world whose sink holds, in pages of two, three
    events of the run "run" (put in out of order) and one of another
    run. *)
Definition unmodelled : handler World :=
  fun R _ w => (inl NotFound, w).

Definition sample_group (run_name : string) : LogGroup :=
  mkLogGroup (Some "bucket") "repo" run_name false.

Definition sample_world : World :=
  mkWorld ∅ ∅ ∅
    [ (sample_group "run", mkLogEvent 20 "job-1" "second");
      (sample_group "other-run", mkLogEvent 15 "job-9" "elsewhere");
      (sample_group "run", mkLogEvent 30 "job-1" "third");
      (sample_group "run", mkLogEvent 10 "job-1" "first") ]
    2.

End BaseModel.

(** ** Python strings *)

Module Py.

(** [s.replace(old, new)] for a non-empty [old]: the occurrences of [old]
    are found from left to right, without overlap, each one replaced by
    [new].  [skip] counts the characters of a found occurrence that are
    still to be dropped. *)
Fixpoint replace_from (old new : string) (skip : nat) (s : string) : string :=
  match s with
  | EmptyString => EmptyString
  | String c s' =>
      match skip with
      | S k => replace_from old new k s'
      | O =>
          if String.prefix old s
          then new +:+ replace_from old new (String.length old - 1) s'
          else String c (replace_from old new 0 s')
      end
  end.

(** With an empty [old], [new] is put before every character and at the
    end. *)
Fixpoint intersperse (new s : string) : string :=
  match s with
  | EmptyString => new
  | String c s' => new +:+ String c (intersperse new s')
  end.

Definition replace (old new s : string) : string :=
  match old with
  | EmptyString => intersperse new s
  | String _ _ => replace_from old new 0 s
  end.

(** [sub in s]. *)
Fixpoint contains (sub s : string) : bool :=
  String.prefix sub s
  || match s with
     | EmptyString => false
     | String _ s' => contains sub s'
     end.

(** [s.lower()] on ASCII letters. *)
Definition lower_ascii (c : ascii) : ascii :=
  let n := nat_of_ascii c in
  if ((65 <=? n) && (n <=? 90))%nat then ascii_of_nat (n + 32) else c.

Fixpoint lower (s : string) : string :=
  match s with
  | EmptyString => EmptyString
  | String c s' => String (lower_ascii c) (lower s')
  end.

(** [str(x)], as an f-string formats it, of an optional string. *)
Definition str (x : option string) : string := default "None" x.

(** The double quote, for the texts that hold one. *)
Definition dquote : string := String (ascii_of_nat 34) EmptyString.

End Py.

(** ** The hub: configuration errors
    (dstack/hub/services/backends/base.py) *)

Module Hub.

(** [BackendConfigError]: the attributes set by [__init__]. *)
Record BackendConfigError : Type := mkBackendConfigError {
  message : string;
  code : string;
  fields : list (list string)
}.

(** [BackendConfigError(message="", code="invalid_config", fields=None)]:
    an argument left out is [None] here and takes its default; [fields]
    left out (or [None]) becomes the empty list. *)
Definition BackendConfigError_init (message code : option string)
  (fields : option (list (list string))) : BackendConfigError :=
  mkBackendConfigError
    (default EmptyString message)
    (default "invalid_config" code)
    (match fields with
     | Some fs => fs
     | None => []
     end).

(** What a UI reads off the error: its code and its field paths. *)
Definition error_shape (e : BackendConfigError)
  : string * list (list string) :=
  (code e, fields e).

(** [botocore.exceptions.ClientError]: the [Code] of the [Error] of its
    response, when the response has one. *)
Record ClientError : Type := mkClientError {
  error_code : option string
}.

(** What a call through a boto3 client raises: a [ClientError], the answer
    of the service, or another exception of botocore (no credentials, no
    region, no connection, ...), named by a text. *)
Inductive BotoError : Type :=
| BotoClientError (e : ClientError)
| BotoOtherError (what : string).

(** What a configurator raises. *)
Inductive Raised : Type :=
| RaiseBackendConfigError (e : BackendConfigError)
| RaiseClientError (e : ClientError)
| RaiseHttpError (status_code : Z)
| RaiseKeyError (key : string)
| RaiseIndexError
| RaiseOther (what : string).

(** [ProjectElementValue], [ProjectElement] and the bucket and subnet
    variants of dstack._internal.hub.models. *)
Record ProjectElementValue : Type := mkProjectElementValue {
  pev_value : string;
  pev_label : string
}.

Record ProjectElement : Type := mkProjectElement {
  selected : option string;
  values : list ProjectElementValue
}.

Record AWSBucketProjectElementValue : Type := mkAWSBucketProjectElementValue {
  bucket_value_name : string;
  bucket_value_created : string;
  bucket_value_region : option string
}.

Record AWSBucketProjectElement : Type := mkAWSBucketProjectElement {
  bucket_selected : option string;
  bucket_values : list AWSBucketProjectElementValue
}.

Record AWSProjectValues : Type := mkAWSProjectValues {
  default_credentials : bool;
  pv_region_name : option ProjectElement;
  pv_s3_bucket_name : option AWSBucketProjectElement;
  pv_ec2_subnet_id : option ProjectElement
}.

End Hub.

(** ** The AWS configurator
    (dstack/_internal/hub/services/backends/aws/configurator.py) *)

Module AWSConfigurator.
Import Hub.
Export Aws (AWSConfig, mkAWSConfig, Session, mkSession).

#[export] Instance raised_ret : MRet (sum Raised) := fun A a => inr a.
#[export] Instance raised_bind : MBind (sum Raised) :=
  fun A B f m =>
    match m with
    | inl e => inl e
    | inr a => f a
    end.

Definition raise {A : Type} (e : Raised) : Raised + A := inl e.

Definition regions : list (string * string) :=
  [ ("US East, N. Virginia", "us-east-1");
    ("US East, Ohio", "us-east-2");
    ("US West, N. California", "us-west-1");
    ("US West, Oregon", "us-west-2");
    ("Asia Pacific, Singapore", "ap-southeast-1");
    ("Canada, Central", "ca-central-1");
    ("Europe, Frankfurt", "eu-central-1");
    ("Europe, Ireland", "eu-west-1");
    ("Europe, London", "eu-west-2");
    ("Europe, Paris", "eu-west-3");
    ("Europe, Stockholm", "eu-north-1") ].

(** [config_data]: the dict given to [configure_project]; its
    ["credentials"] entry, when present, is a dict. *)
Record ConfigData : Type := mkConfigData {
  config_items : gmap string string;
  config_credentials : option (gmap string string)
}.

(** An S3 bucket as [list_buckets] reports it. *)
Record Bucket : Type := mkBucket {
  Name : string;
  CreationDate : Z
}.

(** What is outside the configurator: [AWSConfig.deserialize], the region
    that the environment gives to a session built without one, the STS, S3
    and EC2 services as seen through a session (making the client and
    calling it), and the formatting of a creation date. *)
Record Cloud : Type := mkCloud {
  deserialize : ConfigData -> AWSConfig;
  default_region_name : option string;
  get_caller_identity : Session -> BotoError + unit;
  list_buckets : Session -> BotoError + list Bucket;
  head_bucket : Session -> string -> BotoError + string;
  describe_subnets : Session -> BotoError + list string;
  strftime : Z -> string
}.

Section Configurator.
Variable cloud : Cloud.

(** [Session(region_name=..., aws_access_key_id=...,
    aws_secret_access_key=...)]: the [region_name] of a session built
    without a region is the one of the environment, if it has one. *)
Definition Session_init (region_name aws_access_key_id
  aws_secret_access_key : option string) : Session :=
  mkSession
    (match region_name with
     | Some r => Some r
     | None => default_region_name cloud
     end)
    aws_access_key_id aws_secret_access_key.

(** A call of a service outside a [try]: what it raises is not caught. *)
Definition client_call {A : Type} (r : BotoError + A) : Raised + A :=
  match r with
  | inl (BotoClientError e) => raise (RaiseClientError e)
  | inl (BotoOtherError what) => raise (RaiseOther what)
  | inr a => inr a
  end.

(** [d[key]]. *)
Definition item (d : gmap string string) (key : string) : Raised + string :=
  match d !! key with
  | Some v => inr v
  | None => raise (RaiseKeyError key)
  end.

(** Only a [ClientError] is caught: any other exception of the client
    or of its call leaves the method. *)
Definition _valid_credentials (session : Session) : Raised + bool :=
  match get_caller_identity cloud session with
  | inl (BotoClientError _) => inr false
  | inl (BotoOtherError what) => raise (RaiseOther what)
  | inr _ => inr true
  end.

Definition _raise_invalid_credentials_error {A : Type}
  (fields : option (list (list string))) : Raised + A :=
  raise (RaiseBackendConfigError
           (BackendConfigError_init (Some "Invalid credentials")
              (Some "invalid_credentials") fields)).

Definition _get_hub_regions (default_region : option string) : ProjectElement :=
  mkProjectElement default_region
    ((fun r => mkProjectElementValue r.2 r.1) <$> regions).

Definition _validate_hub_bucket (session : Session) (region : option string)
  (bucket_name : string) : Raised + unit :=
  match head_bucket cloud session bucket_name with
  | inr bucket_region =>
      if bool_decide (Some (Py.lower bucket_region) ≠ region)
      then raise (RaiseBackendConfigError
                    (BackendConfigError_init
                       (Some "The bucket belongs to another AWS region")
                       (Some "invalid_bucket") (Some [["s3_bucket_name"]])))
      else inr tt
  | inl (BotoClientError e) =>
      if bool_decide (error_code e = Some "404" \/ error_code e = Some "403")
      then raise (RaiseBackendConfigError
                    (BackendConfigError_init
                       (Some ("The bucket " +:+ bucket_name
                              +:+ " does not exist"))
                       (Some "invalid_bucket") (Some [["s3_bucket_name"]])))
      else raise (RaiseClientError e)
  | inl (BotoOtherError what) => raise (RaiseOther what)
  end.

Definition _get_hub_buckets (session : Session) (region : option string)
  (default_bucket : option string) : Raised + AWSBucketProjectElement :=
  _ ← match default_bucket with
      | Some b => _validate_hub_bucket session region b
      | None => inr tt
      end;
  buckets ← client_call (list_buckets cloud session);
  mret (mkAWSBucketProjectElement default_bucket
          ((fun bucket =>
              mkAWSBucketProjectElementValue (Name bucket)
                (strftime cloud (CreationDate bucket)) region)
           <$> buckets)).

Definition _get_hub_subnet (session : Session) (default_subnet : option string)
  : Raised + ProjectElement :=
  subnets ← client_call (describe_subnets cloud session);
  mret (mkProjectElement default_subnet
          ((fun subnet => mkProjectElementValue subnet subnet) <$> subnets)).

Definition configure_project (config_data : ConfigData)
  : Raised + AWSProjectValues :=
  let config := deserialize cloud config_data in
  match Aws.region_name config with
  | Some r =>
      if bool_decide (r ∉ regions.*2)
      then raise (RaiseBackendConfigError
                    (BackendConfigError_init
                       (Some ("Invalid AWS region " +:+ r)) None None))
      else inr tt
  | None => inr tt
  end ≫= fun _ =>
  let session := Session_init None None None in
  let session :=
    match Aws.session_region_name session with
    | None => Session_init (Aws.region_name config) None None
    | Some _ => session
    end in
  default_credentials ← _valid_credentials session;
  match config_credentials config_data with
  | None => mret (mkAWSProjectValues default_credentials None None None)
  | Some credentials_data =>
      type ← item credentials_data "type";
      session ←
        (if bool_decide (type = "access_key")
         then
           access_key ← item credentials_data "access_key";
           secret_key ← item credentials_data "secret_key";
           let session :=
             Session_init (Aws.region_name config)
               (Some access_key) (Some secret_key) in
           valid ← _valid_credentials session;
           if negb valid
           then _raise_invalid_credentials_error
                  (Some [["credentials"; "access_key"];
                         ["credentials"; "secret_key"]])
           else mret session
         else if negb default_credentials
         then _raise_invalid_credentials_error (Some [["credentials"]])
         else mret session);
      let region_name :=
        _get_hub_regions (Aws.session_region_name session) in
      s3_bucket_name ←
        _get_hub_buckets session (Aws.region_name config)
          (Aws.bucket_name config);
      ec2_subnet_id ← _get_hub_subnet session (Aws.subnet_id config);
      mret (mkAWSProjectValues default_credentials (Some region_name)
              (Some s3_bucket_name) (Some ec2_subnet_id))
  end.

End Configurator.

(** The configuration errors of [configure_project], by code and field
    paths. *)
Definition error_shapes : list (string * list (list string)) :=
  [ ("invalid_config", []);
    ("invalid_credentials",
     [["credentials"; "access_key"]; ["credentials"; "secret_key"]]);
    ("invalid_credentials", [["credentials"]]);
    ("invalid_bucket", [["s3_bucket_name"]]) ].

(** A cloud for the examples: the configuration is read from the keys
    [region_name], [s3_bucket_name] and [ec2_subnet_id]; no default region,
    every credential valid, no bucket and no subnet. *)
Definition sample_cloud : Cloud :=
  mkCloud
    (fun config_data =>
       mkAWSConfig (config_items config_data !! "region_name")
         (config_items config_data !! "s3_bucket_name")
         (config_items config_data !! "ec2_subnet_id")
         (config_credentials config_data))
    None
    (fun _ => inr tt)
    (fun _ => inr [])
    (fun _ _ => inr "us-east-1")
    (fun _ => inr [])
    (fun _ => "01.01.2023 00:00:00").

(** *** [create_config_auth_data_from_project_config] *)

(** [AWSProjectCreds]: access-key credentials or the default ones. *)
Inductive AWSProjectCreds : Type :=
| AccessKeyCreds (access_key secret_key : string)
| DefaultCreds.

(** [AWSProjectConfigWithCreds]; [AWSProjectConfig] is the same without
    the credentials. *)
Record AWSProjectConfigWithCreds : Type := mkAWSProjectConfigWithCreds {
  pc_region_name : string;
  pc_region_name_title : string;
  pc_s3_bucket_name : string;
  pc_ec2_subnet_id : option string;
  pc_credentials : AWSProjectCreds
}.

(** [AWSProjectConfig.parse_obj(project_config).dict()]: the fields of
    [AWSProjectConfig], a [None] field being a [None] entry. *)
Definition project_config_dict (project_config : AWSProjectConfigWithCreds)
  : gmap string (option string) :=
  {[ "region_name" := Some (pc_region_name project_config);
     "region_name_title" := Some (pc_region_name_title project_config);
     "s3_bucket_name" := Some (pc_s3_bucket_name project_config);
     "ec2_subnet_id" := pc_ec2_subnet_id project_config ]}.

(** [project_config.credentials.__root__.dict()]. *)
Definition credentials_dict (creds : AWSProjectCreds) : gmap string string :=
  match creds with
  | AccessKeyCreds access_key secret_key =>
      {[ "type" := "access_key";
         "access_key" := access_key;
         "secret_key" := secret_key ]}
  | DefaultCreds => {[ "type" := "default" ]}
  end.

(** The method assigns the stripped name to the attribute of the object
    it was given, then builds the two dicts from that object. *)
Definition create_config_auth_data_from_project_config
  (project_config : AWSProjectConfigWithCreds)
  : gmap string (option string) * gmap string string :=
  let project_config :=
    mkAWSProjectConfigWithCreds
      (pc_region_name project_config)
      (pc_region_name_title project_config)
      (Py.replace "s3://" "" (pc_s3_bucket_name project_config))
      (pc_ec2_subnet_id project_config)
      (pc_credentials project_config) in
  let config := project_config_dict project_config in
  let auth := credentials_dict (pc_credentials project_config) in
  (config, auth).

(** *** [get_project_config_from_project] *)

(** [Project] of hub.db.models (not among the sources): its [config] and
    [auth] hold JSON texts; they are here the dicts that [json.loads] makes
    of them, a JSON [null] being [None]. *)
Record Project : Type := mkProject {
  config : gmap string (option string);
  auth : gmap string string
}.

(** [AWSProjectConfig]: [AWSProjectConfigWithCreds] without the
    credentials. *)
Record AWSProjectConfig : Type := mkAWSProjectConfig {
  c_region_name : string;
  c_region_name_title : string;
  c_s3_bucket_name : string;
  c_ec2_subnet_id : option string
}.

(** What [get_project_config_from_project] returns: one of the two. *)
Inductive AnyAWSProjectConfig : Type :=
| WithoutCreds (project_config : AWSProjectConfig)
| WithCreds (project_config : AWSProjectConfigWithCreds).

Section ProjectConfig.

(** [AWSProjectCreds.parse_obj], of hub.models (not among the sources). *)
Variable parse_obj : gmap string string -> Raised + AWSProjectCreds.

(** [d[key]] in a dict whose values may be [None]. *)
Definition json_item (d : gmap string (option string)) (key : string)
  : Raised + option string :=
  match d !! key with
  | Some v => inr v
  | None => raise (RaiseKeyError key)
  end.

(** A field declared [str] does not take [None]: the model raises its
    validation error. *)
Definition required (v : option string) : Raised + string :=
  match v with
  | Some x => inr x
  | None => raise (RaiseOther "ValidationError")
  end.

Definition get_project_config_from_project (project : Project)
  (include_creds : bool) : Raised + AnyAWSProjectConfig :=
  let json_config := config project in
  region_name ← json_item json_config "region_name";
  s3_bucket_name ← json_item json_config "s3_bucket_name";
  ec2_subnet_id ← json_item json_config "ec2_subnet_id";
  if include_creds
  then
    let json_auth := auth project in
    credentials ← parse_obj json_auth;
    region ← required region_name;
    bucket ← required s3_bucket_name;
    mret (WithCreds (mkAWSProjectConfigWithCreds region region bucket
                       ec2_subnet_id credentials))
  else
    region ← required region_name;
    bucket ← required s3_bucket_name;
    mret (WithoutCreds (mkAWSProjectConfig region region bucket
                          ec2_subnet_id)).

End ProjectConfig.

(** For the examples: a parser of the credentials that reads back what
    [credentials_dict] writes. *)
Definition sample_parse_obj (d : gmap string string)
  : Raised + AWSProjectCreds :=
  match d !! "type" with
  | Some "default" => inr DefaultCreds
  | Some "access_key" =>
      match d !! "access_key", d !! "secret_key" with
      | Some access_key, Some secret_key =>
          inr (AccessKeyCreds access_key secret_key)
      | _, _ => raise (RaiseOther "ValidationError")
      end
  | _ => raise (RaiseOther "ValidationError")
  end.

End AWSConfigurator.

(** ** The GCP configurator
    (dstack/_internal/hub/services/backends/gcp/configurator.py) *)

Module GCPConfigurator.
Import Hub.

Definition DEFAULT_GEOGRAPHIC_AREA : string := "North America".

(** One entry of [GCP_LOCATIONS]. *)
Record Location : Type := mkLocation {
  name : string;
  location_regions : list string;
  default_region : string;
  default_zone : string
}.

Definition GCP_LOCATIONS : list Location :=
  [ mkLocation "North America"
      [ "northamerica-northeast1"; "northamerica-northeast2"; "us-central1";
        "us-east1"; "us-east4"; "us-east5"; "us-south1"; "us-west1";
        "us-west2"; "us-west3"; "us-west4" ]
      "us-west1" "us-west1-b";
    mkLocation "South America"
      [ "southamerica-east1"; "southamerica-west1" ]
      "southamerica-east1" "southamerica-east1-b";
    mkLocation "Europe"
      [ "europe-central2"; "europe-north1"; "europe-southwest1";
        "europe-west1"; "europe-west2"; "europe-west3"; "europe-west4";
        "europe-west6"; "europe-west8"; "europe-west9" ]
      "europe-west4" "europe-west4-a";
    mkLocation "Asia"
      [ "asia-east1"; "asia-east2"; "asia-northeast1"; "asia-northeast2";
        "asia-northeast3"; "asia-south1"; "asia-south2"; "asia-southeast1";
        "asia-southeast2" ]
      "asia-southeast1" "asia-southeast1-b";
    mkLocation "Middle East"
      [ "me-west1" ]
      "me-west1" "me-west1-b";
    mkLocation "Australia"
      [ "australia-southeast1"; "australia-southeast2" ]
      "australia-southeast1" "australia-southeast1-c" ].

(** Python's [sorted]: a stable sort, here by insertion.  [le x y] is
    [key(x) <= key(y)]. *)
Section Sorted.
Context {A : Type} (le : A -> A -> bool).

Fixpoint insert_sorted (x : A) (l : list A) : list A :=
  match l with
  | [] => [x]
  | y :: l' => if le x y then x :: y :: l' else y :: insert_sorted x l'
  end.

Definition sorted (l : list A) : list A := foldr insert_sorted [] l.

End Sorted.

(** The order of the keys [(name != preferred, name)]: [False] before
    [True], then the names in string order. *)
Definition preferred_first (preferred a b : string) : bool :=
  let ka := negb (bool_decide (a = preferred)) in
  let kb := negb (bool_decide (b = preferred)) in
  match ka, kb with
  | false, true => true
  | true, false => false
  | _, _ => String.leb a b
  end.

(** The models of the hub and of the Google clients that the configurator
    reads. *)
Record GCPVPCSubnetProjectElementValue : Type :=
  mkGCPVPCSubnetProjectElementValue {
    vpc : string;
    subnet : string;
    vpc_label : string
  }.

Record GCPVPCSubnetProjectElement : Type := mkGCPVPCSubnetProjectElement {
  vpc_selected : string;
  vpc_values : list GCPVPCSubnetProjectElementValue
}.

Record GCPProjectValues : Type := mkGCPProjectValues {
  default_credentials : bool;
  area : option ProjectElement;
  region : option ProjectElement;
  zone : option ProjectElement;
  bucket_name : option ProjectElement;
  vpc_subnet : option GCPVPCSubnetProjectElement
}.

Record Region : Type := mkRegion {
  region_name : string;
  zones : list string
}.

Record GcsBucket : Type := mkGcsBucket {
  gcs_name : string;
  gcs_location : string
}.

Record Network : Type := mkNetwork {
  network_name : string;
  subnetworks : list string
}.

(** One binding of an IAM policy, and the policy. *)
Record Binding : Type := mkBinding {
  role : string;
  members : list string
}.

(** The policy dict: its ["bindings"] entry may be missing. *)
Record Policy : Type := mkPolicy {
  bindings : option (list Binding)
}.

(** How [gcp_auth.create_service_account_key] fails. *)
Inductive KeyCreationError : Type :=
| NotEnoughPermissionError
| OtherKeyCreationError (what : string).

(** [config_data], as for AWS. *)
Record ConfigData : Type := mkConfigData {
  config_items : gmap string string;
  config_credentials : option (gmap string string)
}.

(** What is outside the configurator.  [Credentials] stands for the
    credentials objects of google.auth.  A service that fails raises an
    exception named by a text, the IAM and resource-manager calls an
    [HttpError] with its status code. *)
Record Cloud : Type := mkCloud {
  Credentials : Type;
  auth_default : option (Credentials * string);
  from_service_account_info : string -> string + (Credentials * string);
  storage_list_buckets_one : Credentials -> string + unit;
  storage_list_buckets : Credentials -> string + list GcsBucket;
  regions_list : Credentials -> string -> string + list Region;
  networks_list : Credentials -> string -> string + list Network;
  get_resource_name : string -> string;
  get_subnet_region : string -> string;
  get_subnet_name : string -> string;
  get_service_account_email : string -> string -> string;
  repr : string -> string;
  service_accounts_create :
    Credentials -> string -> string -> string -> Z + string;
  get_iam_policy : Credentials -> string -> Z + Policy;
  set_iam_policy : Credentials -> string -> Policy -> Z + unit;
  create_service_account_key :
    Credentials -> string -> string -> KeyCreationError + unit
}.

Section Configurator.
Variable cloud : Cloud.

(** [self]: the attributes [credentials] and [project_id], which no
    method has set at first. *)
Record Self : Type := mkSelf {
  credentials : option (Credentials cloud);
  project_id : option string
}.

(** A method runs on [self], may assign its attributes, and returns or
    raises. *)
Definition M (A : Type) : Type := Self -> (Raised + A) * Self.

#[export] Instance M_ret : MRet M := fun A a self => (inr a, self).
#[export] Instance M_bind : MBind M :=
  fun A B f m self =>
    match m self with
    | (inl e, self') => (inl e, self')
    | (inr a, self') => f a self'
    end.

Definition raise {A : Type} (e : Raised) : M A := fun self => (inl e, self).

(** A call of a service outside: its failure is an exception the
    configurator does not name. *)
Definition external {A : Type} (r : string + A) : M A :=
  match r with
  | inl what => raise (RaiseOther what)
  | inr a => mret a
  end.

(** Reading an attribute that was never assigned is an AttributeError. *)
Definition self_credentials : M (Credentials cloud) :=
  fun self =>
    match credentials self with
    | Some c => (inr c, self)
    | None => (inl (RaiseOther "AttributeError"), self)
    end.

Definition self_project_id : M string :=
  fun self =>
    match project_id self with
    | Some p => (inr p, self)
    | None => (inl (RaiseOther "AttributeError"), self)
    end.

(** [self.credentials, self.project_id = c, p]. *)
Definition assign (c : Credentials cloud) (p : string) : M unit :=
  fun _ => (inr tt, mkSelf (Some c) (Some p)).

(** [try: body  except Exception: handler]. *)
Definition try_except {A : Type} (body : M A) (handler : Raised -> M A)
  : M A :=
  fun self =>
    match body self with
    | (inl e, self') => handler e self'
    | (inr a, self') => (inr a, self')
    end.

(** [d[key]]. *)
Definition item (d : gmap string string) (key : string) : M string :=
  match d !! key with
  | Some v => mret v
  | None => raise (RaiseKeyError key)
  end.

Definition _raise_invalid_credentials_error {A : Type}
  (fields : option (list (list string))) : M A :=
  raise (RaiseBackendConfigError
           (BackendConfigError_init (Some "Invalid credentials")
              (Some "invalid_credentials") fields)).

Definition _auth (credentials_data : gmap string string) : M unit :=
  type ← item credentials_data "type";
  if bool_decide (type = "service_account")
  then
    data ← item credentials_data "data";
    cp ← external (from_service_account_info cloud data);
    assign cp.1 cp.2
  else
    match auth_default cloud with
    | Some cp => assign cp.1 cp.2
    | None => raise (RaiseOther "DefaultCredentialsError")
    end.

Definition element_of (selected : string) (names : list string)
  : ProjectElement :=
  mkProjectElement (Some selected)
    ((fun n => mkProjectElementValue n n) <$> names).

Definition _get_hub_geographic_area (default_area : option string)
  : M ProjectElement :=
  let area_names := sorted String.leb (name <$> GCP_LOCATIONS) in
  let default_area := default DEFAULT_GEOGRAPHIC_AREA default_area in
  if bool_decide (default_area ∉ area_names)
  then raise (RaiseBackendConfigError
                (BackendConfigError_init
                   (Some ("Invalid GCP area " +:+ default_area)) None None))
  else mret (element_of default_area area_names).

Definition _get_location (area : option string) : option Location :=
  List.find (fun location => bool_decide (Some (name location) = area))
    GCP_LOCATIONS.

(** [{r.name: r for r in regions}]: a later region of the same name
    replaces an earlier one. *)
Definition regions_by_name (regions : list Region) : gmap string Region :=
  list_to_map ((fun r => (region_name r, r)) <$> reverse regions).

Definition _get_hub_region (location : Location)
  (default_region_arg : option string)
  : M (ProjectElement * gmap string Region) :=
  c ← self_credentials;
  p ← self_project_id;
  regions ← external (regions_list cloud c p);
  let region_names :=
    sorted (preferred_first (default_region location))
      (filter (fun n => n ∈ location_regions location)
         (region_name <$> regions)) in
  default_region ←
    match default_region_arg with
    | Some r => mret r
    | None =>
        match region_names with
        | r :: _ => mret r
        | [] => raise RaiseIndexError
        end
    end;
  if bool_decide (default_region ∉ region_names)
  then raise (RaiseBackendConfigError
                (BackendConfigError_init
                   (Some ("Invalid GCP region " +:+ default_region
                          +:+ " in area " +:+ name location)) None None))
  else mret (element_of default_region region_names, regions_by_name regions).

Definition _get_hub_zone (location : Location) (region : option Region)
  (default_zone_arg : option string) : M ProjectElement :=
  region ← match region with
           | Some r => mret r
           | None => raise (RaiseOther "AttributeError")
           end;
  let zone_names :=
    sorted (preferred_first (default_zone location))
      (get_resource_name cloud <$> zones region) in
  default_zone ←
    match default_zone_arg with
    | Some z => mret z
    | None =>
        match zone_names with
        | z :: _ => mret z
        | [] => raise RaiseIndexError
        end
    end;
  if bool_decide (default_zone ∉ zone_names)
  then raise (RaiseBackendConfigError
                (BackendConfigError_init
                   (Some ("Invalid GCP zone " +:+ default_zone
                          +:+ " in region " +:+ region_name region))
                   None None))
  else mret (element_of default_zone zone_names).

Definition _get_hub_buckets (region default_bucket : option string)
  : M ProjectElement :=
  c ← self_credentials;
  buckets ← external (storage_list_buckets cloud c);
  let bucket_names :=
    gcs_name <$>
      filter (fun b => Some (Py.lower (gcs_location b)) = region) buckets in
  match default_bucket with
  | Some b =>
      if bool_decide (b ∉ bucket_names)
      then raise (RaiseBackendConfigError
                    (BackendConfigError_init
                       (Some ("Invalid bucket " +:+ b +:+ " for region "
                              +:+ Py.str region))
                       (Some "invalid_bucket") (Some [["bucket_name"]])))
      else mret tt
  | None => mret tt
  end ≫= fun _ =>
  mret (mkProjectElement default_bucket
          ((fun n => mkProjectElementValue n n) <$> bucket_names)).

Definition no_preference_vpc_subnet : string * string :=
  ("default", "default").

(** The key [t != no_preference_vpc_subnet] of the sort: the pair of no
    preference first. *)
Definition no_preference_first (a b : string * string) : bool :=
  bool_decide (a = no_preference_vpc_subnet)
  || negb (bool_decide (b = no_preference_vpc_subnet)).

Definition _get_hub_vpc_subnet
  (region default_vpc default_subnet : option string)
  : M GCPVPCSubnetProjectElement :=
  let default_vpc := default "default" default_vpc in
  let default_subnet := default "default" default_subnet in
  c ← self_credentials;
  p ← self_project_id;
  networks ← external (networks_list cloud c p);
  let vpc_subnet_list :=
    network ← networks;
    subnet ← subnetworks network;
    if bool_decide (Some (get_subnet_region cloud subnet) ≠ region) then []
    else [(network_name network, get_subnet_name cloud subnet)] in
  if bool_decide ((default_vpc, default_subnet) ∉ vpc_subnet_list)
  then raise (RaiseBackendConfigError
                (BackendConfigError_init
                   (Some ("Invalid VPC subnet (" +:+ repr cloud default_vpc
                          +:+ ", " +:+ repr cloud default_subnet +:+ ")"))
                   None None))
  else
    let selected :=
      if bool_decide
           ((default_vpc, default_subnet) ≠ no_preference_vpc_subnet)
      then default_subnet +:+ " (" +:+ default_vpc +:+ ")"
      else "No preference (default)" in
    let vpc_subnet_list := sorted no_preference_first vpc_subnet_list in
    mret (mkGCPVPCSubnetProjectElement selected
            ((fun '(vpc, subnet) =>
                mkGCPVPCSubnetProjectElementValue vpc subnet
                  (if bool_decide ((subnet, vpc) ≠ no_preference_vpc_subnet)
                   then subnet +:+ " (" +:+ vpc +:+ ")"
                   else "No preference (default)"))
             <$> vpc_subnet_list)).

Definition configure_project (config_data : ConfigData)
  : M GCPProjectValues :=
  default_credentials ←
    match auth_default cloud with
    | Some cp => _ ← assign cp.1 cp.2; mret true
    | None => mret false
    end;
  match config_credentials config_data with
  | None =>
      mret (mkGCPProjectValues default_credentials None None None None None)
  | Some credentials_data =>
      type ← item credentials_data "type";
      _ ← (if bool_decide (type = "service_account")
           then
             try_except
               (_ ← _auth credentials_data;
                c ← self_credentials;
                external (storage_list_buckets_one cloud c))
               (fun _ =>
                  _raise_invalid_credentials_error
                    (Some [["credentials"; "data"]]))
           else if negb default_credentials
           then _raise_invalid_credentials_error (Some [["credentials"]])
           else mret tt);
      area ← _get_hub_geographic_area (config_items config_data !! "area");
      (* [location] is not [None] here, the area being one of the names;
         a subscript of [None] would be a TypeError. *)
      location ← match _get_location (selected area) with
                 | Some location => mret location
                 | None => raise (RaiseOther "TypeError")
                 end;
      region_regions ←
        _get_hub_region location (config_items config_data !! "region");
      let region := region_regions.1 in
      let regions := region_regions.2 in
      zone ←
        _get_hub_zone location (selected region ≫= fun n => regions !! n)
          (config_items config_data !! "zone");
      bucket_name ←
        _get_hub_buckets (selected region)
          (config_items config_data !! "bucket_name");
      vpc_subnet ←
        _get_hub_vpc_subnet (selected region)
          (config_items config_data !! "vpc")
          (config_items config_data !! "subnet");
      mret (mkGCPProjectValues default_credentials (Some area) (Some region)
              (Some zone) (Some bucket_name) (Some vpc_subnet))
  end.

(** *** Service account of the default credentials *)

Definition not_enough_permissions {A : Type} (role_name : string) : M A :=
  raise (RaiseBackendConfigError
           (BackendConfigError_init
              (Some ("Not enough permissions. Default credentials must have "
                     +:+ role_name +:+ " role."))
              (Some "not_enough_permissions") None)).

Definition _get_or_create_service_account (name : string) : M string :=
  c ← self_credentials;
  p ← self_project_id;
  match service_accounts_create cloud c ("projects/" +:+ p) name name with
  | inr email => mret email
  | inl status_code =>
      if bool_decide (status_code = 409)
      then mret (get_service_account_email cloud p name)
      else if bool_decide (status_code = 403)
      then not_enough_permissions "Service Account Admin"
      else raise (RaiseHttpError status_code)
  end.

Definition _get_service_account_roles : list string :=
  [ "roles/compute.admin";
    "roles/logging.admin";
    "roles/secretmanager.admin";
    "roles/storage.admin";
    "roles/iam.serviceAccountUser" ].

(** The bindings are appended to the list [policy["bindings"]]; without
    that entry the first append is a KeyError (there are roles). *)
Definition _add_roles_to_policy (policy : Policy)
  (service_account_email : string) (roles : list string) : M Policy :=
  let member := "serviceAccount:" +:+ service_account_email in
  match roles, bindings policy with
  | [], _ => mret policy
  | _ :: _, None => raise (RaiseKeyError "bindings")
  | _ :: _, Some bs =>
      let added := (fun role => mkBinding role [member]) <$> roles in
      mret (mkPolicy (Some (bs ++ added)%list))
  end.

(** An [HttpError] of the two policy calls with status 403 becomes a
    configuration error, any other one is raised again. *)
Definition policy_call {A : Type} (r : Z + A) : M A :=
  match r with
  | inr a => mret a
  | inl status_code =>
      if bool_decide (status_code = 403)
      then not_enough_permissions "Security Admin"
      else raise (RaiseHttpError status_code)
  end.

Definition _grant_roles_to_service_account (service_account_email : string)
  : M unit :=
  c ← self_credentials;
  p ← self_project_id;
  policy ← policy_call (get_iam_policy cloud c p);
  policy ← _add_roles_to_policy policy service_account_email
             _get_service_account_roles;
  policy_call (set_iam_policy cloud c p policy).

Definition _check_if_can_create_service_account_key
  (service_account_email : string) : M unit :=
  c ← self_credentials;
  p ← self_project_id;
  match create_service_account_key cloud c p service_account_email with
  | inr _ => mret tt
  | inl NotEnoughPermissionError =>
      not_enough_permissions "Service Account Key Admin"
  | inl (OtherKeyCreationError what) => raise (RaiseOther what)
  end.

(** [GCPProjectCreds]: the data of a service account, or the default
    credentials. *)
Inductive GCPProjectCreds : Type :=
| ServiceAccountCreds (data : string)
| DefaultCreds.

(** [GCPProjectConfigWithCreds]; [GCPProjectConfig] is the same without
    the credentials. *)
Record GCPProjectConfigWithCreds : Type := mkGCPProjectConfigWithCreds {
  pc_credentials : GCPProjectCreds;
  pc_area : string;
  pc_region : string;
  pc_zone : string;
  pc_bucket_name : string;
  pc_vpc : string;
  pc_subnet : string
}.

(** [GCPProjectConfig.parse_obj(project_config).dict()]. *)
Definition project_config_dict (project_config : GCPProjectConfigWithCreds)
  : gmap string string :=
  {[ "area" := pc_area project_config;
     "region" := pc_region project_config;
     "zone" := pc_zone project_config;
     "bucket_name" := pc_bucket_name project_config;
     "vpc" := pc_vpc project_config;
     "subnet" := pc_subnet project_config ]}.

(** [project_config.credentials.__root__.dict()]. *)
Definition credentials_dict (creds : GCPProjectCreds) : gmap string string :=
  match creds with
  | ServiceAccountCreds data =>
      {[ "type" := "service_account"; "data" := data ]}
  | DefaultCreds => {[ "type" := "default" ]}
  end.

Definition create_config_auth_data_from_project_config
  (project_config : GCPProjectConfigWithCreds)
  : M (gmap string string * gmap string string) :=
  let config_data := project_config_dict project_config in
  let auth_data := credentials_dict (pc_credentials project_config) in
  match pc_credentials project_config with
  | DefaultCreds =>
      _ ← _auth auth_data;
      service_account_email ←
        _get_or_create_service_account
          (pc_bucket_name project_config +:+ "-sa");
      _ ← _grant_roles_to_service_account service_account_email;
      _ ← _check_if_can_create_service_account_key service_account_email;
      mret (config_data,
            <["service_account_email" := service_account_email]> auth_data)
  | ServiceAccountCreds _ => mret (config_data, auth_data)
  end.

(** The method [m] raises only exceptions that satisfy [P]. *)
Definition raises_only {A : Type} (P : Raised -> Prop) (m : M A) : Prop :=
  forall (self : Self) (e : Raised) (self' : Self),
    m self = (inl e, self') -> P e.

End Configurator.

(** The configuration errors of [configure_project], by code and field
    paths. *)
Definition error_shapes : list (string * list (list string)) :=
  [ ("invalid_config", []);
    ("invalid_credentials", [["credentials"; "data"]]);
    ("invalid_credentials", [["credentials"]]);
    ("invalid_bucket", [["bucket_name"]]) ].

Definition error_ok (r : Raised) : Prop :=
  match r with
  | RaiseBackendConfigError e => error_shape e ∈ error_shapes
  | _ => True
  end.

(** The exceptions of a configuration that cannot be completed: a
    configuration error, the missing key ["type"] of the credentials, or
    the IndexError of an empty list of names. *)
Definition configuration_failure (r : Raised) : Prop :=
  match r with
  | RaiseBackendConfigError _ => True
  | RaiseKeyError key => key = "type"
  | RaiseIndexError => True
  | _ => False
  end.

(** A cloud for the examples: default credentials of the project
    "my-project", one region with one zone, one network with the default
    subnet, no bucket; [create] is what the IAM answers to the creation of
    a service account. *)
Definition sample_cloud (create : Z + string) : Cloud :=
  mkCloud string
    (Some ("default-credentials", "my-project"))
    (fun data => inr (data, "my-project"))
    (fun _ => inr tt)
    (fun _ => inr [])
    (fun _ _ => inr [mkRegion "us-west1" ["us-west1-b"]])
    (fun _ _ => inr [mkNetwork "default" ["default"]])
    (fun z => z)
    (fun _ => "us-west1")
    (fun subnet => subnet)
    (fun project_id name =>
       name +:+ "@" +:+ project_id +:+ ".iam.gserviceaccount.com")
    (fun s => "'" +:+ s +:+ "'")
    (fun _ _ _ _ => create)
    (fun _ _ => inr (mkPolicy (Some [])))
    (fun _ _ _ => inr tt)
    (fun _ _ _ => inr tt).

(** For the examples: the cloud above, with the bucket "my-bucket" in
    Europe. *)
Definition sample_bucket_cloud : Cloud :=
  let cloud := sample_cloud (inl 409) in
  mkCloud string
    (auth_default cloud)
    (from_service_account_info cloud)
    (storage_list_buckets_one cloud)
    (fun _ => inr [mkGcsBucket "my-bucket" "EUROPE-WEST4"])
    (regions_list cloud)
    (networks_list cloud)
    (get_resource_name cloud)
    (get_subnet_region cloud)
    (get_subnet_name cloud)
    (get_service_account_email cloud)
    (repr cloud)
    (service_accounts_create cloud)
    (get_iam_policy cloud)
    (set_iam_policy cloud)
    (create_service_account_key cloud).

(** For the examples: a location with two regions. *)
Definition sample_location : Location :=
  mkLocation "North America" ["us-central1"; "us-west1"]
    "us-west1" "us-west1-b".

(** *** [get_project_config_from_project] *)

(** [Project] of hub.db.models (not among the sources): its [config] and
    [auth] hold JSON texts; they are here the dicts that [json.loads] makes
    of them, a JSON [null] being [None]. *)
Record Project : Type := mkProject {
  config : gmap string (option string);
  auth : gmap string string
}.

(** [GCPProjectConfig]: [GCPProjectConfigWithCreds] without the
    credentials. *)
Record GCPProjectConfig : Type := mkGCPProjectConfig {
  c_area : string;
  c_region : string;
  c_zone : string;
  c_bucket_name : string;
  c_vpc : string;
  c_subnet : string
}.

(** What [get_project_config_from_project] returns: one of the two. *)
Inductive AnyGCPProjectConfig : Type :=
| WithoutCreds (project_config : GCPProjectConfig)
| WithCreds (project_config : GCPProjectConfigWithCreds).

Section ProjectConfig.

(** [GCPProjectCreds.parse_obj], of hub.models (not among the sources). *)
Variable parse_obj : gmap string string -> Raised + GCPProjectCreds.

#[local] Instance raised_ret : MRet (sum Raised) := fun A a => inr a.
#[local] Instance raised_bind : MBind (sum Raised) :=
  fun A B f m =>
    match m with
    | inl e => inl e
    | inr a => f a
    end.

(** [d[key]] in a dict whose values may be [None]. *)
Definition json_item (d : gmap string (option string)) (key : string)
  : Raised + option string :=
  match d !! key with
  | Some v => inr v
  | None => inl (RaiseKeyError key)
  end.

(** A field declared [str] does not take [None]: the model raises its
    validation error. *)
Definition required (v : option string) : Raised + string :=
  match v with
  | Some x => inr x
  | None => inl (RaiseOther "ValidationError")
  end.

(** The method reads no attribute of [self]. *)
Definition get_project_config_from_project (project : Project)
  (include_creds : bool) : Raised + AnyGCPProjectConfig :=
  let json_config := config project in
  area ← json_item json_config "area";
  region ← json_item json_config "region";
  zone ← json_item json_config "zone";
  bucket_name ← json_item json_config "bucket_name";
  vpc ← json_item json_config "vpc";
  subnet ← json_item json_config "subnet";
  if include_creds
  then
    let json_auth := auth project in
    credentials ← parse_obj json_auth;
    area ← required area;
    region ← required region;
    zone ← required zone;
    bucket_name ← required bucket_name;
    vpc ← required vpc;
    subnet ← required subnet;
    mret (WithCreds (mkGCPProjectConfigWithCreds credentials area region
                       zone bucket_name vpc subnet))
  else
    area ← required area;
    region ← required region;
    zone ← required zone;
    bucket_name ← required bucket_name;
    vpc ← required vpc;
    subnet ← required subnet;
    mret (WithoutCreds (mkGCPProjectConfig area region zone bucket_name
                          vpc subnet)).

End ProjectConfig.

(** *** [get_backend_config_from_hub_config_data] *)

(** The dict [data] that the method builds for [GCPConfig.deserialize]. *)
Record BackendData : Type := mkBackendData {
  bd_backend : string;
  bd_credentials : gmap string string;
  bd_project : string;
  bd_region : option string;
  bd_zone : option string;
  bd_bucket : option string;
  bd_vpc : option string;
  bd_subnet : option string
}.

Section BackendConfig.
Variable cloud : Cloud.

(** [GCPConfig] and its [deserialize], of backend.gcp.config (not among
    the sources). *)
Variable GCPConfig : Type.
Variable deserialize : BackendData -> Raised + GCPConfig.

(** [d[key]] in a dict whose values may be [None]. *)
Definition config_item (d : gmap string (option string)) (key : string)
  : M cloud (option string) :=
  match d !! key with
  | Some v => mret v
  | None => raise cloud (RaiseKeyError key)
  end.

Definition get_backend_config_from_hub_config_data (project_name : string)
  (config_data : gmap string (option string))
  (auth_data : gmap string string) : M cloud GCPConfig :=
  _ ← _auth cloud auth_data;
  project ← self_project_id cloud;
  region ← config_item config_data "region";
  zone ← config_item config_data "zone";
  bucket ← config_item config_data "bucket_name";
  vpc ← config_item config_data "vpc";
  subnet ← config_item config_data "subnet";
  let data :=
    mkBackendData "gcp" auth_data project region zone bucket vpc subnet in
  ((fun self => (deserialize data, self)) : M cloud GCPConfig).

End BackendConfig.

(** For the examples: a parser of the credentials that reads the type
    and, for a service account, its data. *)
Definition sample_parse_obj (d : gmap string string)
  : Raised + GCPProjectCreds :=
  match d !! "type" with
  | Some "default" => inr DefaultCreds
  | Some "service_account" =>
      match d !! "data" with
      | Some data => inr (ServiceAccountCreds data)
      | None => inl (RaiseOther "ValidationError")
      end
  | _ => inl (RaiseOther "ValidationError")
  end.

End GCPConfigurator.


(** ** The notebook provider
    (dstack/_internal/providers/notebook/main.py) *)

Module Notebook.

(** [PortMapping], [AppSpec], [ArtifactSpec], [Requirements] and [JobSpec]
    of dstack._internal.core, with the fields the provider gives them. *)
Record PortMapping : Type := mkPortMapping {
  pm_port : Z;
  pm_map_to_port : option Z
}.

Record AppSpec : Type := mkAppSpec {
  port : Z;
  map_to_port : option Z;
  app_name : string;
  url_query_params : option (gmap string string)
}.

Record ArtifactSpec : Type := mkArtifactSpec {
  artifact_path : string;
  mount : bool
}.

Record Requirements : Type := mkRequirements {
  req_cpus : option Z;
  req_memory_mib : option Z;
  gpus : option Z
}.

Record JobSpec : Type := mkJobSpec {
  image_name : option string;
  commands : list string;
  entrypoint : list string;
  run_env : gmap string string;
  working_dir : option string;
  artifact_specs : option (list ArtifactSpec);
  requirements : option Requirements;
  app_specs : list AppSpec;
  build_commands : list string
}.

(** [self]: the attributes of [NotebookProvider] and those it has from
    [Provider] ([ports], [commands], [build_commands], [ssh_key_pub]). *)
Record NotebookProvider : Type := mkNotebookProvider {
  provider_name : string;
  python : option string;
  version : option string;
  env : option (gmap string string);
  self_artifact_specs : option (list ArtifactSpec);
  self_working_dir : option string;
  resources : option Requirements;
  self_image_name : option string;
  home_dir : string;
  openssh_server : bool;
  ports : list PortMapping;
  self_commands : list string;
  self_build_commands : list string;
  ssh_key_pub : option string
}.

Definition notebook_port : Z := 10000.

(** What the provider calls and is defined elsewhere: the functions of
    [providers.ports], the [OpenSSHExtension] (its [patch_] methods change
    the list they are given: here they return the list as changed) and
    [Provider._extend_commands_with_env]. *)
Record Helpers : Type := mkHelpers {
  filter_reserved_ports : list PortMapping -> list PortMapping;
  get_map_to_port : list PortMapping -> Z -> option Z;
  OpenSSHExtension_port : Z;
  OpenSSHExtension_patch_apps : list AppSpec -> option Z -> list AppSpec;
  OpenSSHExtension_patch_commands :
    list string -> option string -> list string;
  _extend_commands_with_env :
    list string -> gmap string string -> list string
}.

Section Provider.
Variable helpers : Helpers.
Variable self : NotebookProvider.

Definition _setup : list string :=
  let commands :=
    [ "conda install psutil -y";
      "pip install jupyter" +:+
        match version self with
        | Some v => if bool_decide (v = EmptyString) then EmptyString
                    else "==" +:+ v
        | None => EmptyString
        end;
      "mkdir -p /root/.jupyter";
      "echo " +:+ Py.dquote +:+ "c.NotebookApp.allow_root = True"
        +:+ Py.dquote +:+ " > /root/.jupyter/jupyter_notebook_config.py";
      "echo " +:+ Py.dquote +:+ "c.NotebookApp.allow_origin = '*'"
        +:+ Py.dquote +:+ " >> /root/.jupyter/jupyter_notebook_config.py";
      "echo " +:+ Py.dquote +:+ "c.NotebookApp.open_browser = False"
        +:+ Py.dquote +:+ " >> /root/.jupyter/jupyter_notebook_config.py";
      "echo " +:+ Py.dquote +:+ "c.NotebookApp.ip = '0.0.0.0'"
        +:+ Py.dquote +:+ " >> /root/.jupyter/jupyter_notebook_config.py" ] in
  (commands ++ self_build_commands self)%list.

Definition _commands : list string :=
  let commands := [] in
  let commands :=
    match env self with
    | Some e =>
        if bool_decide (e = ∅) then commands
        else _extend_commands_with_env helpers commands e
    | None => commands
    end in
  let commands :=
    if openssh_server self
    then OpenSSHExtension_patch_commands helpers commands (ssh_key_pub self)
    else commands in
  (commands ++ self_commands self
   ++ [ "echo " +:+ Py.dquote +:+ "c.NotebookApp.port = "
          +:+ pretty notebook_port +:+ Py.dquote
          +:+ " >> /root/.jupyter/jupyter_notebook_config.py";
        "echo " +:+ Py.dquote +:+ "c.NotebookApp.token = '$TOKEN'"
          +:+ Py.dquote +:+ " >> /root/.jupyter/jupyter_notebook_config.py" ]
   ++ [ "jupyter notebook" ])%list.

(** [token] is what [uuid.uuid4().hex] returns in this call. *)
Definition create_job_specs (token : string) : list JobSpec :=
  let env : gmap string string := <["TOKEN" := token]> ∅ in
  let apps :=
    imap (fun i pm =>
            mkAppSpec (pm_port pm) (pm_map_to_port pm)
              ("notebook" +:+ pretty (S i)) None)
         (filter_reserved_ports helpers (ports self)) in
  let apps :=
    (apps ++
     [ mkAppSpec notebook_port
         (get_map_to_port helpers (ports self) notebook_port)
         "notebook"
         (Some {[ "token" := token ]}) ])%list in
  let apps :=
    if openssh_server self
    then OpenSSHExtension_patch_apps helpers apps
           (get_map_to_port helpers (ports self)
              (OpenSSHExtension_port helpers))
    else apps in
  [ mkJobSpec (self_image_name self) _commands
      [ "/bin/bash"; "-i"; "-c" ] env (self_working_dir self)
      (self_artifact_specs self) (resources self) apps _setup ].

End Provider.

(** Helpers for the examples: no port is reserved, a port maps to what its
    mapping says, the OpenSSH extension adds its app on port 10022 and its
    commands in front, the environment is not exported. *)
Definition sample_helpers : Helpers :=
  mkHelpers
    (fun ports => ports)
    (fun ports port =>
       List.find (fun pm => bool_decide (pm_port pm = port)) ports
       ≫= pm_map_to_port)
    10022
    (fun apps map_to_port =>
       (apps ++ [mkAppSpec 10022 map_to_port "openssh-server" None])%list)
    (fun commands _ => ("/usr/sbin/sshd" :: commands)%list)
    (fun commands _ => commands).

Definition sample_provider : NotebookProvider :=
  mkNotebookProvider "notebook" (Some "3.10") None None None None None
    (Some "dstackai/miniforge:py3.10-20230101") "/root" true
    [mkPortMapping 3000 None] [] [] None.

End Notebook.

(** * Theorems *)

(** ** The facade *)

Section FacadeFacts.
Import Aws.
Context {W : Type} (h : handler W).

(** Running a single call is what the handler does for it. *)
Lemma run_perform {R : Type} (c : call R) (w : W) :
  run h (perform c) w = h R c w.
Proof.
  unfold perform. simpl. destruct (h R c w) as [[e | r] w']; reflexivity.
Qed.

Lemma trace_perform {R : Type} (c : call R) (w : W) :
  trace h (perform c) w = [Event c].
Proof.
  unfold perform. simpl. destruct (h R c w) as [[e | r] w']; reflexivity.
Qed.

(** Running [p] and then [f] on its result. *)
Lemma run_bind {A B : Type} (p : prog A) (f : A -> prog B) (w : W) :
  run h (p ≫= f) w =
  match run h p w with
  | (inl e, w') => (inl e, w')
  | (inr a, w') => run h (f a) w'
  end.
Proof.
  revert w. induction p as [a | R c k IH]; intros w.
  - reflexivity.
  - change (Do c k ≫= f) with (Do c (fun r => k r ≫= f)). simpl.
    destruct (h R c w) as [[e | r] w']; [reflexivity | apply IH].
Qed.

Lemma trace_bind {A B : Type} (p : prog A) (f : A -> prog B) (w : W) :
  trace h (p ≫= f) w =
  (trace h p w ++
   match run h p w with
   | (inl _, _) => []
   | (inr a, w') => trace h (f a) w'
   end)%list.
Proof.
  revert w. induction p as [a | R c k IH]; intros w.
  - reflexivity.
  - change (Do c k ≫= f) with (Do c (fun r => k r ≫= f)). simpl.
    destruct (h R c w) as [[e | r] w']; [reflexivity | ].
    f_equal. apply IH.
Qed.

End FacadeFacts.

(** C3. Called with the optional arguments left out, [list_run_heads]
    gives the reconciler [include_request_heads = True] and
    [interrupted_job_new_status = FAILED], and the job heads are exactly
    those [list_job_heads] returned for the same [repo_id] and [run_name]:
    whatever the base components do, the result and the final world are
    those of [base_runs.get_run_heads] on these arguments, and the calls
    performed are these two, in this order. *)
Theorem list_run_heads_defaults :
  forall (W : Type) (h : Aws.handler W) (self : Aws.AwsBackend)
         (repo_id : string) (run_name : option string) (w : W),
    Aws.run h (Aws.list_job_heads self repo_id run_name) w =
      h _ (Aws.base_jobs_list_job_heads (Aws._storage self) repo_id run_name) w
    /\ Aws.run h (Aws.list_run_heads self repo_id run_name None None) w =
       match Aws.run h (Aws.list_job_heads self repo_id run_name) w with
       | (inl e, w') => (inl e, w')
       | (inr job_heads, w') =>
           h _ (Aws.base_runs_get_run_heads (Aws._storage self)
                  (Aws._compute self) job_heads true FAILED) w'
       end
    /\ Aws.trace h (Aws.list_run_heads self repo_id run_name None None) w =
       Aws.Event (Aws.base_jobs_list_job_heads (Aws._storage self)
                    repo_id run_name) ::
       match Aws.run h (Aws.list_job_heads self repo_id run_name) w with
       | (inl _, _) => []
       | (inr job_heads, _) =>
           [Aws.Event (Aws.base_runs_get_run_heads (Aws._storage self)
                         (Aws._compute self) job_heads true FAILED)]
       end.
Proof.
  intros W h self repo_id run_name w.
  split; [apply run_perform | ].
  unfold Aws.list_run_heads. simpl default.
  rewrite run_bind, trace_bind.
  unfold Aws.list_job_heads at 3. rewrite trace_perform.
  destruct (Aws.run h (Aws.list_job_heads self repo_id run_name) w)
    as [[e | job_heads] w'].
  - split; reflexivity.
  - rewrite run_perform, trace_perform. split; reflexivity.
Qed.

(** C7. [download_run_artifact_files] first lists the artifact files of
    the run with the empty prefix and [recursive = True], whatever
    [files_path] is, and then downloads exactly the list it obtained,
    passing [output_dir] and [files_path] on to the download. *)
Theorem download_lists_all_then_downloads :
  forall (W : Type) (h : Aws.handler W) (self : Aws.AwsBackend)
         (repo_id run_name : string) (output_dir files_path : option string)
         (w : W),
    let listing :=
      Aws.base_artifacts_list_run_artifact_files (Aws._storage self)
        repo_id run_name "" true in
    Aws.run h (Aws.download_run_artifact_files self repo_id run_name
                 output_dir files_path) w =
      match h _ listing w with
      | (inl e, w') => (inl e, w')
      | (inr artifacts, w') =>
          h _ (Aws.base_artifacts_download_run_artifact_files
                 (Aws._storage self) repo_id artifacts output_dir files_path)
            w'
      end
    /\ Aws.trace h (Aws.download_run_artifact_files self repo_id run_name
                      output_dir files_path) w =
       Aws.Event listing ::
       match h _ listing w with
       | (inl _, _) => []
       | (inr artifacts, _) =>
           [Aws.Event (Aws.base_artifacts_download_run_artifact_files
                         (Aws._storage self) repo_id artifacts output_dir
                         files_path)]
       end.
Proof.
  intros W h self repo_id run_name output_dir files_path w listing.
  unfold Aws.download_run_artifact_files.
  rewrite run_bind, trace_bind.
  unfold Aws.list_run_artifact_files. simpl default.
  rewrite run_perform, trace_perform. fold listing.
  destruct (h _ listing w) as [[e | artifacts] w'].
  - split; reflexivity.
  - rewrite run_perform, trace_perform. split; reflexivity.
Qed.

(** ** Secrets through the facade *)

(** In the base components, a secret that was added is read back, and a
    deleted one is gone. *)
Lemma base_add_then_get (bucket : option string) (repo_id : string)
  (secret : Secret) (w w' : BaseModel.World) :
  BaseModel.add_secret bucket repo_id secret w = (inr tt, w') ->
  BaseModel.get_secret repo_id (secret_name secret) w' = Some secret.
Proof.
  unfold BaseModel.add_secret, BaseModel.get_secret.
  destruct (BaseModel.os_get _ _ _); [discriminate | ].
  intros [= <-]. simpl. rewrite lookup_insert_eq. simpl.
  destruct secret; reflexivity.
Qed.

Lemma base_delete_then_get (bucket : option string)
  (repo_id secret_name : string) (w : BaseModel.World) :
  BaseModel.get_secret repo_id secret_name
    (BaseModel.delete_secret bucket repo_id secret_name w) = None.
Proof.
  unfold BaseModel.delete_secret, BaseModel.get_secret. simpl.
  rewrite lookup_delete_eq. reflexivity.
Qed.

(** The facade's [get_secret] does not depend on the name it is asked
    for. *)
Lemma get_secret_ignores_name (self : Aws.AwsBackend)
  (repo_id name1 name2 : string) :
  Aws.get_secret self repo_id name1 = Aws.get_secret self repo_id name2.
Proof. reflexivity. Qed.

(** With the delegation the specification describes, the lifecycle holds:
    a secret added under a new name is read back, and a deleted one is
    gone. *)
Lemma delegated_secret_lifecycle (policy : JobStatus -> nat)
  (other : Aws.handler BaseModel.World) (self : Aws.AwsBackend)
  (repo_id : string) (secret : Secret) (w : BaseModel.World) :
  BaseModel.os_get (Aws.storage_bucket_name (Aws._storage self))
    (BaseModel.secrets_index_key repo_id (secret_name secret))
    (BaseModel.objects w) = None ->
  (Aws.run (BaseModel.base policy other)
     (_ ← Aws.add_secret self repo_id secret;
      Aws.get_secret_delegation self repo_id (secret_name secret)) w).1
  = inr (Some secret)
  /\ (Aws.run (BaseModel.base policy other)
        (_ ← Aws.delete_secret_delegation self repo_id (secret_name secret);
         Aws.get_secret_delegation self repo_id (secret_name secret)) w).1
     = inr None.
Proof.
  intros Hnew. split.
  - rewrite run_bind. unfold Aws.add_secret. rewrite run_perform.
    cbn [BaseModel.base].
    destruct (BaseModel.add_secret _ repo_id secret w) as [[e | []] w'] eqn:E.
    + unfold BaseModel.add_secret in E. rewrite Hnew in E. discriminate E.
    + unfold Aws.get_secret_delegation. rewrite run_perform.
      cbn [BaseModel.base fst].
      rewrite (base_add_then_get _ _ _ _ _ E). reflexivity.
  - rewrite run_bind. unfold Aws.delete_secret_delegation.
    rewrite run_perform. cbn [BaseModel.base].
    unfold Aws.get_secret_delegation. rewrite run_perform.
    cbn [BaseModel.base fst].
    rewrite base_delete_then_get. reflexivity.
Qed.

(** C1 (at a failing input). On the backend of bucket "bucket", starting
    from an empty store and vault: after [add_secret("repo", secret)] with
    the secret named "name" of value "value", [get_secret("repo", "name")]
    returns [None], although the vault holds the value under that name; and
    after [delete_secret("repo", "name")] the name is still listed by
    [list_secret_names("repo")] and the value still in the vault. *)
Theorem facade_secret_lifecycle_at_repo_name :
  forall (policy : JobStatus -> nat) (other : Aws.handler BaseModel.World),
    let self :=
      Aws.__init__
        (Aws.mkAWSConfig (Some "us-east-1") (Some "bucket") None None) in
    let w0 := BaseModel.mkWorld ∅ ∅ ∅ [] 10 in
    let secret := mkSecret "name" "value" in
    let h := BaseModel.base policy other in
    (Aws.run h (_ ← Aws.add_secret self "repo" secret;
                Aws.get_secret self "repo" "name") w0).1 = inr None
    /\ BaseModel.get_secret "repo" "name"
         (Aws.run h (Aws.add_secret self "repo" secret) w0).2 = Some secret
    /\ (Aws.run h (_ ← Aws.add_secret self "repo" secret;
                   _ ← Aws.delete_secret self "repo" "name";
                   Aws.list_secret_names self "repo") w0).1 = inr ["name"]
    /\ BaseModel.get_secret "repo" "name"
         (Aws.run h (_ ← Aws.add_secret self "repo" secret;
                     Aws.delete_secret self "repo" "name") w0).2
       = Some secret.
Proof.
  intros policy other self w0 secret h.
  repeat split; vm_compute; reflexivity.
Qed.

(** The single-call methods other than the two secret methods above
    perform one call, which is given every argument of the caller in the
    position of its name. *)
Lemma single_call_methods_forward_their_arguments
  (W : Type) (h : Aws.handler W) (self : Aws.AwsBackend) (w : W) :
  (forall (job : Job),
     Aws.trace h (Aws.predict_instance_type self job) w
     = [Aws.Event (Aws.base_jobs_predict_job_instance (Aws._compute self)
       job)])
  /\
  (forall (job : Job),
     Aws.trace h (Aws.create_job self job) w
     = [Aws.Event (Aws.base_jobs_create_job (Aws._storage self) job)])
  /\
  (forall (repo_id job_id : string),
     Aws.trace h (Aws.get_job self repo_id job_id) w
     = [Aws.Event (Aws.base_jobs_get_job (Aws._storage self) repo_id
       job_id)])
  /\
  (forall (repo_id run_name : string),
     Aws.trace h (Aws.list_jobs self repo_id run_name) w
     = [Aws.Event (Aws.base_jobs_list_jobs (Aws._storage self) repo_id
       run_name)])
  /\
  (forall (job : Job) (new_status : JobStatus),
     Aws.trace h (Aws.run_job self job new_status) w
     = [Aws.Event (Aws.base_jobs_run_job (Aws._storage self) (Aws._compute
       self) job new_status)])
  /\
  (forall (repo_id : string) (abort : bool) (job_id : string),
     Aws.trace h (Aws.stop_job self repo_id abort job_id) w
     = [Aws.Event (Aws.base_jobs_stop_job (Aws._storage self) (Aws._compute
       self) repo_id job_id abort)])
  /\
  (forall (repo_id : string) (run_name : option string),
     Aws.trace h (Aws.list_job_heads self repo_id run_name) w
     = [Aws.Event (Aws.base_jobs_list_job_heads (Aws._storage self) repo_id
       run_name)])
  /\
  (forall (repo_id job_id : string),
     Aws.trace h (Aws.delete_job_head self repo_id job_id) w
     = [Aws.Event (Aws.base_jobs_delete_job_head (Aws._storage self) repo_id
       job_id)])
  /\
  (forall (repo_id run_name : string) (start_time : Z) (end_time : option Z)
   (descending diagnose : bool),
     Aws.trace h (Aws.poll_logs self repo_id run_name start_time end_time
     (Some descending) (Some diagnose)) w
     = [Aws.Event (Aws.logs_poll_logs (Aws._storage self) (Aws._logs_client
       self) (Aws.bucket_name (Aws.backend_config self)) repo_id run_name
       start_time end_time descending diagnose)])
  /\
  (forall (repo_id run_name prefix : string) (recursive : bool),
     Aws.trace h (Aws.list_run_artifact_files self repo_id run_name prefix
     (Some recursive)) w
     = [Aws.Event (Aws.base_artifacts_list_run_artifact_files (Aws._storage
       self) repo_id run_name prefix recursive)])
  /\
  (forall (repo_id job_id artifact_name artifact_path local_path : string),
     Aws.trace h (Aws.upload_job_artifact_files self repo_id job_id
     artifact_name artifact_path local_path) w
     = [Aws.Event (Aws.base_artifacts_upload_job_artifact_files
       (Aws._storage self) repo_id job_id artifact_name artifact_path
       local_path)])
  /\
  (forall (repo_id : string),
     Aws.trace h (Aws.list_tag_heads self repo_id) w
     = [Aws.Event (Aws.base_tags_list_tag_heads (Aws._storage self)
       repo_id)])
  /\
  (forall (repo_id tag_name : string),
     Aws.trace h (Aws.get_tag_head self repo_id tag_name) w
     = [Aws.Event (Aws.base_tags_get_tag_head (Aws._storage self) repo_id
       tag_name)])
  /\
  (forall (repo_id tag_name run_name : string) (run_jobs : option (list
   Job)),
     Aws.trace h (Aws.add_tag_from_run self repo_id tag_name run_name
     run_jobs) w
     = [Aws.Event (Aws.base_tags_create_tag_from_run (Aws._storage self)
       repo_id tag_name run_name run_jobs)])
  /\
  (forall (repo : Repo) (hub_user_name tag_name : string) (local_dirs
   artifact_paths : list string),
     Aws.trace h (Aws.add_tag_from_local_dirs self repo hub_user_name tag_name
     local_dirs artifact_paths) w
     = [Aws.Event (Aws.base_tags_create_tag_from_local_dirs (Aws._storage
       self) repo hub_user_name tag_name local_dirs artifact_paths)])
  /\
  (forall (repo_id : string) (tag_head : TagHead),
     Aws.trace h (Aws.delete_tag_head self repo_id tag_head) w
     = [Aws.Event (Aws.base_tags_delete_tag (Aws._storage self) repo_id
       tag_head)])
  /\
  (forall (repo_spec : RepoSpec) (last_run_at : Z),
     Aws.trace h (Aws.update_repo_last_run_at self repo_spec last_run_at) w
     = [Aws.Event (Aws.base_repos_update_repo_last_run_at (Aws._storage
       self) repo_spec last_run_at)])
  /\
  (forall (repo_id : string),
     Aws.trace h (Aws.get_repo_credentials self repo_id) w
     = [Aws.Event (Aws.base_repos_get_repo_credentials (Aws._secrets_manager
       self) repo_id)])
  /\
  (forall (repo_id : string) (creds : RemoteRepoCredentials),
     Aws.trace h (Aws.save_repo_credentials self repo_id creds) w
     = [Aws.Event (Aws.base_repos_save_repo_credentials
       (Aws._secrets_manager self) repo_id creds)])
  /\
  (forall (repo_id : string),
     Aws.trace h (Aws.delete_repo self repo_id) w
     = [Aws.Event (Aws.base_repos_delete_repo (Aws._storage self) repo_id)])
  /\
  (forall (repo_id : string),
     Aws.trace h (Aws.list_secret_names self repo_id) w
     = [Aws.Event (Aws.base_secrets_list_secret_names (Aws._storage self)
       repo_id)])
  /\
  (forall (repo_id : string) (secret : Secret),
     Aws.trace h (Aws.add_secret self repo_id secret) w
     = [Aws.Event (Aws.base_secrets_add_secret (Aws._storage self)
       (Aws._secrets_manager self) repo_id secret)])
  /\
  (forall (repo_id : string) (secret : Secret),
     Aws.trace h (Aws.update_secret self repo_id secret) w
     = [Aws.Event (Aws.base_secrets_update_secret (Aws._storage self)
       (Aws._secrets_manager self) repo_id secret)])
  /\
  (forall (object_key : string),
     Aws.trace h (Aws.get_signed_download_url self object_key) w
     = [Aws.Event (Aws.storage_get_signed_download_url (Aws._storage self)
       object_key)])
  /\
  (forall (object_key : string),
     Aws.trace h (Aws.get_signed_upload_url self object_key) w
     = [Aws.Event (Aws.storage_get_signed_upload_url (Aws._storage self)
       object_key)])
  /\
  (forall (repo_id hub_user_name workflow_name : string),
     Aws.trace h (Aws.delete_workflow_cache self repo_id hub_user_name
     workflow_name) w
     = [Aws.Event (Aws.base_cache_delete_workflow_cache (Aws._storage self)
       repo_id hub_user_name workflow_name)])
  /\
  (Aws.trace h (Aws.list_repo_heads self) w
     = [Aws.Event (Aws.base_repos_list_repo_heads (Aws._storage self))]).
Proof.
  repeat (split; [intros; apply trace_perform | ]).
  apply trace_perform.
Qed.

(** [create_run] makes the log groups of the repository, then allocates
    the run. *)
Lemma create_run_calls (W : Type) (h : Aws.handler W)
  (self : Aws.AwsBackend) (repo_id : string) (w : W) :
  Aws.trace h (Aws.create_run self repo_id) w
  = Aws.Event (Aws.logs_create_log_groups_if_not_exist
                 (Aws._logs_client self)
                 (Aws.bucket_name (Aws.backend_config self)) repo_id)
    :: match h _ (Aws.logs_create_log_groups_if_not_exist
                    (Aws._logs_client self)
                    (Aws.bucket_name (Aws.backend_config self)) repo_id) w
       with
       | (inl _, _) => []
       | (inr _, _) =>
           [Aws.Event (Aws.base_runs_create_run (Aws._storage self))]
       end.
Proof.
  unfold Aws.create_run. rewrite trace_bind, run_perform, trace_perform.
  destruct (h _ _ w) as [[e | []] w']; [reflexivity | ].
  rewrite trace_perform. reflexivity.
Qed.

(** C2 (at a failing input). [get_secret("repo", "name")] and
    [delete_secret("repo", "name")] are not the delegations the
    specification describes: whatever the base components do, the one call
    each performs is given "repo", the [repo_id], as the secret name. *)
Theorem secret_methods_forward_repo_id_as_name :
  forall (W : Type) (h : Aws.handler W) (self : Aws.AwsBackend) (w : W),
    Aws.trace h (Aws.get_secret self "repo" "name") w =
      [Aws.Event (Aws.base_secrets_get_secret (Aws._secrets_manager self)
                    "repo" "repo")]
    /\ Aws.trace h (Aws.delete_secret self "repo" "name") w =
       [Aws.Event (Aws.base_secrets_delete_secret (Aws._storage self)
                     (Aws._secrets_manager self) "repo" "repo")]
    /\ Aws.get_secret self "repo" "name"
       <> Aws.get_secret_delegation self "repo" "name"
    /\ Aws.delete_secret self "repo" "name"
       <> Aws.delete_secret_delegation self "repo" "name".
Proof.
  intros W h self w.
  split; [apply trace_perform | ].
  split; [apply trace_perform | ].
  split; intros H.
  - apply (f_equal (fun p : Aws.prog (option Secret) =>
                      match p with
                      | Aws.Do c _ => Aws.secret_name_argument c
                      | Aws.Ret _ => None
                      end)) in H.
    discriminate H.
  - apply (f_equal (fun p : Aws.prog unit =>
                      match p with
                      | Aws.Do c _ => Aws.secret_name_argument c
                      | Aws.Ret _ => None
                      end)) in H.
    discriminate H.
Qed.

(** ** The bucket name of the AWS project configuration *)

(** Where [old] does not occur, [replace] changes nothing. *)
Lemma replace_from_absent (old new s : string) :
  Py.contains old s = false -> Py.replace_from old new 0 s = s.
Proof.
  induction s as [ | c s IH]; intros H; [reflexivity | ].
  cbn [Py.contains] in H. apply orb_false_iff in H as [Hp Hs].
  cbn [Py.replace_from]. rewrite Hp. f_equal. apply IH, Hs.
Qed.

(** A leading "s3://" is dropped, and the replacement goes on after it. *)
Lemma replace_scheme_prefix (s : string) :
  Py.replace "s3://" "" ("s3://" +:+ s) = Py.replace "s3://" "" s.
Proof.
  unfold Py.replace. cbv [String.append]. simpl.
  replace (String.prefix "" s) with true by (destruct s; reflexivity).
  reflexivity.
Qed.

(** A text that begins with [a] is [a] followed by the rest. *)
Lemma prefix_split (a b : string) :
  String.prefix a b = true -> exists q, b = a +:+ q.
Proof.
  revert b. induction a as [ | x a IH]; intros b H.
  - exists b. reflexivity.
  - destruct b as [ | y b]; [discriminate H | ].
    cbn in H. destruct (ascii_dec x y) as [-> | ]; [ | discriminate H].
    destruct (IH b H) as (q & ->). exists q. reflexivity.
Qed.

Lemma contains_app_r (old a b : string) :
  Py.contains old (a +:+ b) = false -> Py.contains old b = false.
Proof.
  induction a as [ | x a IH]; intros H; [exact H | ].
  cbn [String.append Py.contains] in H.
  apply orb_false_iff in H as [_ H]. exact (IH H).
Qed.

Lemma prefix_empty (s : string) : String.prefix "" s = true.
Proof. destruct s; reflexivity. Qed.

(** No "s3://" begins in a text without "s3://" that is followed by
    "s3://": the end of such a text and the beginning of "s3://" never
    make up "s3://". *)
Lemma scheme_not_across (p t : string) :
  p <> EmptyString ->
  Py.contains "s3://" p = false ->
  String.prefix "s3://" (p +:+ "s3://" +:+ t) = false.
Proof.
  intros Hne Hp. destruct p as [ | c1 p]; [congruence | ].
  cbn [Py.contains] in Hp. apply orb_false_iff in Hp as [Hp _].
  destruct p as [ | c2 [ | c3 [ | c4 [ | c5 p]]]];
    cbv [String.append String.prefix] in Hp |- *;
    repeat match goal with
    | |- context [ascii_dec ?a ?b] => destruct (ascii_dec a b); subst
    | H : context [ascii_dec ?a ?b] |- _ => destruct (ascii_dec a b); subst
    end;
    try reflexivity; try discriminate; try congruence.
  destruct p; discriminate Hp.
Qed.

Lemma replace_from_step (old new : string) (c : ascii) (s : string) :
  String.prefix old (String c s) = false ->
  Py.replace_from old new 0 (String c s)
  = String c (Py.replace_from old new 0 s).
Proof. intros H. cbn [Py.replace_from]. rewrite H. reflexivity. Qed.

(** The one pass of [replace] over a text without "s3://", then "s3://",
    then the rest, keeps the text, drops "s3://" and goes on with the
    rest. *)
Lemma replace_scheme_after (p t : string) :
  Py.contains "s3://" p = false ->
  Py.replace "s3://" "" (p +:+ "s3://" +:+ t)
  = p +:+ Py.replace "s3://" "" t.
Proof.
  intros Hp. induction p as [ | c p IH].
  - apply replace_scheme_prefix.
  - assert (Hrest : Py.contains "s3://" p = false).
    { cbn [Py.contains] in Hp. apply orb_false_iff in Hp as [_ Hp].
      exact Hp. }
    assert (Hc : String c p <> EmptyString) by discriminate.
    change (Py.replace_from "s3://" "" 0 (String c (p +:+ "s3://" +:+ t))
            = String c (p +:+ Py.replace "s3://" "" t)).
    rewrite replace_from_step.
    + f_equal. exact (IH Hrest).
    + exact (scheme_not_across (String c p) t Hc Hp).
Qed.

(** [replace] removes every "s3://" between pieces that have none. *)
Lemma replace_scheme_pieces (pieces : list string) :
  Forall (fun p => Py.contains "s3://" p = false) pieces ->
  Py.replace "s3://" "" (String.concat "s3://" pieces)
  = String.concat "" pieces.
Proof.
  induction 1 as [ | p pieces Hp _ IH]; [reflexivity | ].
  destruct pieces as [ | q pieces].
  - apply (replace_from_absent "s3://" "" p Hp).
  - change (String.concat "s3://" (p :: q :: pieces))
      with (p +:+ "s3://" +:+ String.concat "s3://" (q :: pieces)).
    change (String.concat "" (p :: q :: pieces))
      with (p +:+ "" +:+ String.concat "" (q :: pieces)).
    rewrite (replace_scheme_after _ _ Hp), IH. reflexivity.
Qed.

(** Every text is made of pieces without "s3://", with "s3://" between
    them. *)
Lemma scheme_pieces (s : string) :
  exists pieces,
    Forall (fun p => Py.contains "s3://" p = false) pieces
    /\ s = String.concat "s3://" pieces.
Proof.
  assert (H : exists p pieces,
            Forall (fun p => Py.contains "s3://" p = false) (p :: pieces)
            /\ s = String.concat "s3://" (p :: pieces)).
  { induction s as [ | c s (p & pieces & Hfree & ->)].
    - exists EmptyString, []. split; [ | reflexivity].
      constructor; [reflexivity | constructor].
    - apply Forall_cons in Hfree as [Hp Hpieces].
      destruct (Py.contains "s3://" (String c p)) eqn:Hcp.
      + cbn [Py.contains] in Hcp. rewrite Hp, orb_false_r in Hcp.
        apply prefix_split in Hcp as (q & Hq). injection Hq as -> ->.
        exists EmptyString, (q :: pieces). split.
        * constructor; [reflexivity | ]. constructor; [ | exact Hpieces].
          exact (contains_app_r "s3://" "3://" q Hp).
        * destruct pieces; reflexivity.
      + exists (String c p), pieces. split.
        * constructor; [exact Hcp | exact Hpieces].
        * destruct pieces; reflexivity. }
  destruct H as (p & pieces & H). exists (p :: pieces). exact H.
Qed.

Lemma aws_config_bucket_name
  (project_config : AWSConfigurator.AWSProjectConfigWithCreds) :
  (AWSConfigurator.create_config_auth_data_from_project_config
     project_config).1 !! "s3_bucket_name"
  = Some (Some (Py.replace "s3://" ""
                  (AWSConfigurator.pc_s3_bucket_name project_config))).
Proof.
  unfold AWSConfigurator.create_config_auth_data_from_project_config,
    AWSConfigurator.project_config_dict.
  cbn [fst AWSConfigurator.pc_s3_bucket_name
       AWSConfigurator.pc_region_name AWSConfigurator.pc_region_name_title
       AWSConfigurator.pc_ec2_subnet_id].
  rewrite lookup_insert_ne by discriminate.
  rewrite lookup_insert_ne by discriminate.
  rewrite lookup_insert_eq. reflexivity.
Qed.

(** C9, the claim as stated fails: for the bucket name "s3s3://://" the
    one pass of [replace] leaves "s3://", which the returned config
    holds. *)
Lemma aws_bucket_name_can_keep_scheme :
  (AWSConfigurator.create_config_auth_data_from_project_config
     (AWSConfigurator.mkAWSProjectConfigWithCreds
        "us-east-1" "us-east-1" "s3s3://://" None
        AWSConfigurator.DefaultCreds)).1 !! "s3_bucket_name"
  = Some (Some "s3://")
  /\ Py.contains "s3://" "s3://" = true.
Proof. split; vm_compute; reflexivity. Qed.

(** C9, amended.  Every bucket name is made of pieces without "s3://",
    with "s3://" between them, and however it is written so, the returned
    config holds as [s3_bucket_name] the pieces one after the other:
    every "s3://" of the given name is removed.  The stored name has
    therefore an "s3://" in it exactly when the pieces, put together,
    make up one. *)
Theorem aws_bucket_name_scheme_stripped :
  forall project_config : AWSConfigurator.AWSProjectConfigWithCreds,
    let name := AWSConfigurator.pc_s3_bucket_name project_config in
    let stored :=
      (AWSConfigurator.create_config_auth_data_from_project_config
         project_config).1 !! "s3_bucket_name" in
    (exists pieces : list string,
       Forall (fun p => Py.contains "s3://" p = false) pieces
       /\ name = String.concat "s3://" pieces)
    /\ (forall pieces : list string,
          Forall (fun p => Py.contains "s3://" p = false) pieces ->
          name = String.concat "s3://" pieces ->
          stored = Some (Some (String.concat "" pieces))
          /\ forall s : string,
               stored = Some (Some s) ->
               Py.contains "s3://" s
               = Py.contains "s3://" (String.concat "" pieces)).
Proof.
  intros project_config name stored. split; [apply scheme_pieces | ].
  intros pieces Hfree Hname. unfold stored.
  rewrite aws_config_bucket_name. fold name.
  rewrite Hname, (replace_scheme_pieces pieces Hfree).
  split; [reflexivity | ].
  intros s [= <-]. reflexivity.
Qed.

(** The amended C9 at the bucket name "as3://b", made of "a" and "b". *)
Lemma aws_bucket_name_scheme_stripped_witness :
  (AWSConfigurator.create_config_auth_data_from_project_config
     (AWSConfigurator.mkAWSProjectConfigWithCreds
        "us-east-1" "us-east-1" "as3://b" None
        AWSConfigurator.DefaultCreds)).1 !! "s3_bucket_name"
  = Some (Some "ab")
  /\ Py.contains "s3://" "ab" = false.
Proof.
  destruct (aws_bucket_name_scheme_stripped
              (AWSConfigurator.mkAWSProjectConfigWithCreds
                 "us-east-1" "us-east-1" "as3://b" None
                 AWSConfigurator.DefaultCreds))
    as [_ Hpieces].
  destruct (Hpieces ["a"; "b"]) as [Hstored _].
  - repeat constructor.
  - reflexivity.
  - split; [exact Hstored | reflexivity].
Defined.

(** ** The notebook provider *)

(** C10. [create_job_specs] returns one job spec; its [run_env] maps
    "TOKEN" to the generated token, and its [app_specs] hold an app named
    "notebook" on port 10000 whose [url_query_params] are
    [{"token": token}] with the same token.  When the provider runs with
    the OpenSSH server, this supposes that [OpenSSHExtension.patch_apps]
    (defined elsewhere) keeps the apps it is given. *)
Theorem notebook_token_matches_env :
  forall (helpers : Notebook.Helpers) (self : Notebook.NotebookProvider)
         (token : string),
    (Notebook.openssh_server self = true ->
     forall (apps : list Notebook.AppSpec) (m : option Z)
            (app : Notebook.AppSpec),
       app ∈ apps ->
       app ∈ Notebook.OpenSSHExtension_patch_apps helpers apps m) ->
    exists spec : Notebook.JobSpec,
      Notebook.create_job_specs helpers self token = [spec]
      /\ Notebook.run_env spec !! "TOKEN" = Some token
      /\ exists app : Notebook.AppSpec,
           app ∈ Notebook.app_specs spec
           /\ Notebook.app_name app = "notebook"
           /\ Notebook.port app = 10000
           /\ Notebook.url_query_params app = Some {[ "token" := token ]}.
Proof.
  intros helpers self token Hpatch.
  unfold Notebook.create_job_specs.
  eexists. split; [reflexivity | ].
  cbn [Notebook.run_env Notebook.app_specs].
  split; [apply lookup_insert_eq | ].
  exists (Notebook.mkAppSpec Notebook.notebook_port
            (Notebook.get_map_to_port helpers (Notebook.ports self)
               Notebook.notebook_port)
            "notebook" (Some {[ "token" := token ]})).
  split; [ | repeat split].
  destruct (Notebook.openssh_server self) eqn:Hssh.
  - apply Hpatch; [reflexivity | ].
    apply elem_of_app. right. apply list_elem_of_singleton. reflexivity.
  - apply elem_of_app. right. apply list_elem_of_singleton. reflexivity.
Qed.

(** C10 for a provider that runs with the OpenSSH server, whose extension
    adds its app after those it is given. *)
Lemma notebook_token_matches_env_witness :
  exists spec : Notebook.JobSpec,
    Notebook.create_job_specs Notebook.sample_helpers
      Notebook.sample_provider "0f8fad5bd9cb469fa16570867728950e" = [spec]
    /\ Notebook.run_env spec !! "TOKEN"
       = Some "0f8fad5bd9cb469fa16570867728950e"
    /\ exists app : Notebook.AppSpec,
         app ∈ Notebook.app_specs spec
         /\ Notebook.app_name app = "notebook"
         /\ Notebook.port app = 10000
         /\ Notebook.url_query_params app
            = Some {[ "token" := "0f8fad5bd9cb469fa16570867728950e" ]}.
Proof.
  apply (notebook_token_matches_env Notebook.sample_helpers
           Notebook.sample_provider "0f8fad5bd9cb469fa16570867728950e").
  intros _ apps m app Happ. simpl.
  apply elem_of_app. left. exact Happ.
Defined.

(** ** Configuration errors *)

Lemma aws_configure_project_errors (cloud : AWSConfigurator.Cloud)
  (config_data : AWSConfigurator.ConfigData) (e : Hub.BackendConfigError) :
  AWSConfigurator.configure_project cloud config_data
    = inl (Hub.RaiseBackendConfigError e) ->
  Hub.error_shape e ∈ AWSConfigurator.error_shapes.
Proof.
  unfold AWSConfigurator.configure_project, AWSConfigurator._get_hub_buckets,
    AWSConfigurator._get_hub_subnet, AWSConfigurator._validate_hub_bucket,
    AWSConfigurator._valid_credentials,
    AWSConfigurator._raise_invalid_credentials_error, AWSConfigurator.item,
    AWSConfigurator.client_call, AWSConfigurator.raise.
  unfold mbind, mret, AWSConfigurator.raised_bind, AWSConfigurator.raised_ret.
  intros H.
  repeat (case_match; simplify_eq; try discriminate);
    unfold Hub.error_shape, AWSConfigurator.error_shapes; cbn;
    repeat first [apply list_elem_of_here | apply list_elem_of_further].
Qed.

Section RaisesOnly.
Import GCPConfigurator.
Variable cloud : Cloud.
Variable P : Hub.Raised -> Prop.

Lemma raises_only_ret {A : Type} (a : A) : raises_only cloud P (mret a).
Proof. intros self e self' H. discriminate H. Qed.

Lemma raises_only_raise {A : Type} (e : Hub.Raised) :
  P e -> raises_only cloud P (@raise cloud A e).
Proof. intros He self e' self' [= <- _]. exact He. Qed.

Lemma raises_only_bind {A B : Type} (m : M cloud A) (f : A -> M cloud B) :
  raises_only cloud P m -> (forall a, raises_only cloud P (f a)) ->
  raises_only cloud P (m ≫= f).
Proof.
  intros Hm Hf self e self' H. unfold mbind, M_bind in H.
  destruct (m self) as [[e1 | a] s1] eqn:E.
  - injection H as <- <-. exact (Hm _ _ _ E).
  - exact (Hf a _ _ _ H).
Qed.

Lemma raises_only_try_except {A : Type} (body : M cloud A)
  (handler : Hub.Raised -> M cloud A) :
  (forall e, raises_only cloud P (handler e)) ->
  raises_only cloud P (try_except cloud body handler).
Proof.
  intros Hh self e self' H. unfold try_except in H.
  destruct (body self) as [[e1 | a] s1]; [ | discriminate H].
  exact (Hh _ _ _ _ H).
Qed.

Lemma raises_only_assign (c : Credentials cloud) (p : string) :
  raises_only cloud P (assign cloud c p).
Proof. intros self e self' H. discriminate H. Qed.

Hypothesis P_other : forall what : string, P (Hub.RaiseOther what).
Hypothesis P_key : forall key : string, P (Hub.RaiseKeyError key).

Lemma raises_only_external {A : Type} (r : string + A) :
  raises_only cloud P (external cloud r).
Proof.
  destruct r; [apply raises_only_raise, P_other | apply raises_only_ret].
Qed.

Lemma raises_only_self_credentials :
  raises_only cloud P (self_credentials cloud).
Proof.
  intros self e self' H. unfold self_credentials in H.
  destruct (credentials cloud self); [discriminate | ].
  injection H as <- _. apply P_other.
Qed.

Lemma raises_only_self_project_id :
  raises_only cloud P (self_project_id cloud).
Proof.
  intros self e self' H. unfold self_project_id in H.
  destruct (project_id cloud self); [discriminate | ].
  injection H as <- _. apply P_other.
Qed.

Lemma raises_only_item (d : gmap string string) (key : string) :
  raises_only cloud P (item cloud d key).
Proof.
  unfold item.
  destruct (d !! key); [apply raises_only_ret | apply raises_only_raise, P_key].
Qed.

End RaisesOnly.

(** One step of a proof that a method raises only allowed errors. *)
Ltac raises_step shapes :=
  first
    [ apply raises_only_ret
    | apply raises_only_self_credentials; exact (fun _ => I)
    | apply raises_only_self_project_id; exact (fun _ => I)
    | apply raises_only_external; exact (fun _ => I)
    | apply raises_only_item; exact (fun _ => I)
    | apply raises_only_assign
    | apply raises_only_try_except; intros ?
    | apply raises_only_bind; [ | intros ?]
    | apply raises_only_raise;
      first
        [ exact I
        | unfold Hub.error_shape, shapes; cbn;
          repeat first [apply list_elem_of_here | apply list_elem_of_further] ]
    | match goal with
      | |- GCPConfigurator.raises_only _ _ (match ?x with _ => _ end) =>
          destruct x
      end ].

Lemma gcp_configure_project_errors (cloud : GCPConfigurator.Cloud)
  (config_data : GCPConfigurator.ConfigData) :
  GCPConfigurator.raises_only cloud GCPConfigurator.error_ok
    (GCPConfigurator.configure_project cloud config_data).
Proof.
  unfold GCPConfigurator.configure_project,
    GCPConfigurator._get_hub_geographic_area, GCPConfigurator._get_hub_region,
    GCPConfigurator._get_hub_zone, GCPConfigurator._get_hub_buckets,
    GCPConfigurator._get_hub_vpc_subnet, GCPConfigurator._auth,
    GCPConfigurator._raise_invalid_credentials_error.
  unfold GCPConfigurator.error_ok.
  repeat raises_step GCPConfigurator.error_shapes.
Qed.

Lemma gcp_area_names :
  GCPConfigurator.sorted String.leb
    (GCPConfigurator.name <$> GCPConfigurator.GCP_LOCATIONS)
  = ["Asia"; "Australia"; "Europe"; "Middle East"; "North America";
     "South America"].
Proof. vm_compute. reflexivity. Qed.

(** C4, the claim as stated fails: the error of the AWS
    [configure_project] for the region "mars-1" and the error of the GCP
    configurator for the area "Mars" have an empty [fields] list. *)
Lemma invalid_region_and_area_errors_without_fields :
  (exists e : Hub.BackendConfigError,
     AWSConfigurator.configure_project AWSConfigurator.sample_cloud
       (AWSConfigurator.mkConfigData {[ "region_name" := "mars-1" ]} None)
     = inl (Hub.RaiseBackendConfigError e)
     /\ Hub.fields e = [])
  /\ (exists e : Hub.BackendConfigError,
        (GCPConfigurator._get_hub_geographic_area
           (GCPConfigurator.sample_cloud (inl 409)) (Some "Mars")
           (GCPConfigurator.mkSelf _ None None)).1
        = inl (Hub.RaiseBackendConfigError e)
        /\ Hub.fields e = []).
Proof.
  split.
  - exists (Hub.mkBackendConfigError "Invalid AWS region mars-1"
              "invalid_config" []).
    split; vm_compute; reflexivity.
  - exists (Hub.mkBackendConfigError "Invalid GCP area Mars"
              "invalid_config" []).
    split; vm_compute; reflexivity.
Qed.

(** C4, amended. A [BackendConfigError] carries the code it was given, or
    "invalid_config", and the field paths it was given, or none.  The error
    of the AWS [configure_project] for an invalid region and the error of
    the GCP configurator for an invalid area carry the code
    "invalid_config" and an empty [fields] list.  Every configuration error
    that the AWS or the GCP [configure_project] raises has one of the listed
    shapes: an empty [fields] list under "invalid_config", a field path under
    "invalid_credentials" and "invalid_bucket". *)
Theorem config_errors_code_and_optional_fields :
  (forall (message code : option string)
          (fields : option (list (list string))),
     Hub.code (Hub.BackendConfigError_init message code fields)
       = default "invalid_config" code
     /\ Hub.fields (Hub.BackendConfigError_init message code fields)
        = default [] fields)
  /\ (forall (cloud : AWSConfigurator.Cloud)
             (config_data : AWSConfigurator.ConfigData) (r : string),
        Aws.region_name (AWSConfigurator.deserialize cloud config_data)
          = Some r ->
        r ∉ AWSConfigurator.regions.*2 ->
        AWSConfigurator.configure_project cloud config_data
        = inl (Hub.RaiseBackendConfigError
                 (Hub.mkBackendConfigError ("Invalid AWS region " +:+ r)
                    "invalid_config" [])))
  /\ (forall (cloud : GCPConfigurator.Cloud) (a : string)
             (self : GCPConfigurator.Self cloud),
        a ∉ GCPConfigurator.name <$> GCPConfigurator.GCP_LOCATIONS ->
        GCPConfigurator._get_hub_geographic_area cloud (Some a) self
        = (inl (Hub.RaiseBackendConfigError
                  (Hub.mkBackendConfigError ("Invalid GCP area " +:+ a)
                     "invalid_config" [])), self))
  /\ (forall (cloud : AWSConfigurator.Cloud)
             (config_data : AWSConfigurator.ConfigData)
             (e : Hub.BackendConfigError),
        AWSConfigurator.configure_project cloud config_data
          = inl (Hub.RaiseBackendConfigError e) ->
        Hub.error_shape e ∈ AWSConfigurator.error_shapes)
  /\ (forall (cloud : GCPConfigurator.Cloud)
             (config_data : GCPConfigurator.ConfigData)
             (self self' : GCPConfigurator.Self cloud)
             (e : Hub.BackendConfigError),
        GCPConfigurator.configure_project cloud config_data self
          = (inl (Hub.RaiseBackendConfigError e), self') ->
        Hub.error_shape e ∈ GCPConfigurator.error_shapes).
Proof.
  split; [ | split; [ | split; [ | split]]].
  - intros message code fields. split; [reflexivity | ].
    destruct fields; reflexivity.
  - intros cloud config_data r Hr Hnot.
    unfold AWSConfigurator.configure_project. rewrite Hr.
    rewrite (bool_decide_eq_true_2 _ Hnot). reflexivity.
  - intros cloud a self Ha.
    unfold GCPConfigurator._get_hub_geographic_area.
    rewrite gcp_area_names. cbn [default].
    rewrite bool_decide_eq_true_2; [reflexivity | ].
    intros Hin. apply Ha. cbn. revert Hin.
    rewrite !elem_of_cons, !elem_of_nil. tauto.
  - exact aws_configure_project_errors.
  - intros cloud config_data self self' e H.
    exact (gcp_configure_project_errors cloud config_data self _ self' H).
Qed.

(** The amended C4 at the region "mars-1" and the area "Mars". *)
Lemma config_errors_code_and_optional_fields_witness :
  AWSConfigurator.configure_project AWSConfigurator.sample_cloud
    (AWSConfigurator.mkConfigData {[ "region_name" := "mars-1" ]} None)
  = inl (Hub.RaiseBackendConfigError
           (Hub.mkBackendConfigError "Invalid AWS region mars-1"
              "invalid_config" []))
  /\ GCPConfigurator._get_hub_geographic_area
       (GCPConfigurator.sample_cloud (inl 409)) (Some "Mars")
       (GCPConfigurator.mkSelf _ None None)
     = (inl (Hub.RaiseBackendConfigError
               (Hub.mkBackendConfigError "Invalid GCP area Mars"
                  "invalid_config" [])),
        GCPConfigurator.mkSelf _ None None)
  /\ Hub.error_shape
       (Hub.mkBackendConfigError "Invalid AWS region mars-1"
          "invalid_config" [])
     ∈ AWSConfigurator.error_shapes.
Proof.
  pose proof config_errors_code_and_optional_fields
    as (_ & Haws & Hgcp & Hall & _).
  assert (Hregion :
    AWSConfigurator.configure_project AWSConfigurator.sample_cloud
      (AWSConfigurator.mkConfigData {[ "region_name" := "mars-1" ]} None)
    = inl (Hub.RaiseBackendConfigError
             (Hub.mkBackendConfigError "Invalid AWS region mars-1"
                "invalid_config" []))).
  { apply (Haws AWSConfigurator.sample_cloud
             (AWSConfigurator.mkConfigData {[ "region_name" := "mars-1" ]}
                None) "mars-1").
    - vm_compute. reflexivity.
    - apply (bool_decide_unpack _). vm_compute. exact I. }
  split; [exact Hregion | split].
  - apply (Hgcp (GCPConfigurator.sample_cloud (inl 409)) "Mars").
    apply (bool_decide_unpack _). vm_compute. exact I.
  - exact (Hall _ _ _ Hregion).
Defined.

(** ** The service account of the GCP default credentials *)

Section ServiceAccount.
Import GCPConfigurator.
Variable cloud : Cloud.
Variables (c : Credentials cloud) (p : string).

(** How a sequence of two steps runs. *)
Lemma run_step {A B : Type} (m : M cloud A) (f : A -> M cloud B)
  (self self' : Self cloud) (a : A) :
  m self = (inr a, self') -> (m ≫= f) self = f a self'.
Proof. intros H. unfold mbind, M_bind. rewrite H. reflexivity. Qed.

Lemma auth_with_default_credentials (self0 : Self cloud) :
  auth_default cloud = Some (c, p) ->
  _auth cloud {[ "type" := "default" ]} self0
  = (inr tt, mkSelf cloud (Some c) (Some p)).
Proof.
  intros Hauth. unfold _auth.
  rewrite (run_step _ _ self0 self0 "default").
  - rewrite bool_decide_eq_false_2 by discriminate.
    rewrite Hauth. reflexivity.
  - unfold item. rewrite lookup_singleton_eq. reflexivity.
Qed.

Lemma get_or_create_with (name : string) :
  _get_or_create_service_account cloud name (mkSelf cloud (Some c) (Some p))
  = match service_accounts_create cloud c ("projects/" +:+ p) name name with
    | inr email => (inr email, mkSelf cloud (Some c) (Some p))
    | inl status_code =>
        if bool_decide (status_code = 409)
        then (inr (get_service_account_email cloud p name),
              mkSelf cloud (Some c) (Some p))
        else if bool_decide (status_code = 403)
        then (inl (Hub.RaiseBackendConfigError
                     (Hub.mkBackendConfigError
                        ("Not enough permissions. Default credentials "
                         +:+ "must have Service Account Admin role.")
                        "not_enough_permissions" [])),
              mkSelf cloud (Some c) (Some p))
        else (inl (Hub.RaiseHttpError status_code),
              mkSelf cloud (Some c) (Some p))
    end.
Proof.
  unfold _get_or_create_service_account.
  rewrite (run_step _ _ _ (mkSelf cloud (Some c) (Some p)) c);
    [ | reflexivity].
  rewrite (run_step _ _ _ (mkSelf cloud (Some c) (Some p)) p);
    [ | reflexivity].
  destruct (service_accounts_create cloud c ("projects/" +:+ p) name name)
    as [status_code | email]; [ | reflexivity].
  repeat case_bool_decide; reflexivity.
Qed.

Lemma grant_roles_with (email : string) (bs : list Binding) :
  get_iam_policy cloud c p = inr (mkPolicy (Some bs)) ->
  (forall policy : Policy, set_iam_policy cloud c p policy = inr tt) ->
  _grant_roles_to_service_account cloud email (mkSelf cloud (Some c) (Some p))
  = (inr tt, mkSelf cloud (Some c) (Some p)).
Proof.
  intros Hget Hset. unfold _grant_roles_to_service_account.
  rewrite (run_step _ _ _ (mkSelf cloud (Some c) (Some p)) c);
    [ | reflexivity].
  rewrite (run_step _ _ _ (mkSelf cloud (Some c) (Some p)) p);
    [ | reflexivity].
  rewrite Hget.
  rewrite (run_step _ _ _ (mkSelf cloud (Some c) (Some p))
             (mkPolicy (Some bs))); [ | reflexivity].
  unfold _add_roles_to_policy, _get_service_account_roles.
  cbn [bindings].
  erewrite run_step; [ | reflexivity].
  rewrite Hset. reflexivity.
Qed.

Lemma check_key_with (email : string) :
  create_service_account_key cloud c p email = inr tt ->
  _check_if_can_create_service_account_key cloud email
    (mkSelf cloud (Some c) (Some p))
  = (inr tt, mkSelf cloud (Some c) (Some p)).
Proof.
  intros Hkey. unfold _check_if_can_create_service_account_key.
  rewrite (run_step _ _ _ (mkSelf cloud (Some c) (Some p)) c);
    [ | reflexivity].
  rewrite (run_step _ _ _ (mkSelf cloud (Some c) (Some p)) p);
    [ | reflexivity].
  rewrite Hkey. reflexivity.
Qed.

End ServiceAccount.

(** C8. With the credentials [c] and the project [p] assigned: when the
    IAM call that creates the account fails with status 409,
    [_get_or_create_service_account] returns the email that
    [gcp_utils.get_service_account_email] gives for the project and the
    name, and raises nothing; when it fails with 403, the method raises a
    [BackendConfigError] of code "not_enough_permissions".  So
    [create_config_auth_data_from_project_config] with default credentials,
    run when the account of the bucket exists already (409), returns the
    config and the auth data with that email, provided the roles can be
    granted and a key can be created. *)
Theorem service_account_conflict_is_not_an_error :
  forall (cloud : GCPConfigurator.Cloud) (c : GCPConfigurator.Credentials cloud)
         (p name : string),
    let self := GCPConfigurator.mkSelf cloud (Some c) (Some p) in
    let create :=
      GCPConfigurator.service_accounts_create cloud c ("projects/" +:+ p)
        name name in
    let email := GCPConfigurator.get_service_account_email cloud p name in
    (create = inl 409 ->
     GCPConfigurator._get_or_create_service_account cloud name self
     = (inr email, self))
    /\ (create = inl 403 ->
        GCPConfigurator._get_or_create_service_account cloud name self
        = (inl (Hub.RaiseBackendConfigError
                  (Hub.mkBackendConfigError
                     ("Not enough permissions. Default credentials must have "
                         +:+ "Service Account Admin role.")
                     "not_enough_permissions" [])), self))
    /\ (forall (project_config : GCPConfigurator.GCPProjectConfigWithCreds)
               (bs : list GCPConfigurator.Binding)
               (self0 : GCPConfigurator.Self cloud),
          GCPConfigurator.pc_credentials project_config
            = GCPConfigurator.DefaultCreds ->
          name = GCPConfigurator.pc_bucket_name project_config +:+ "-sa" ->
          GCPConfigurator.auth_default cloud = Some (c, p) ->
          create = inl 409 ->
          GCPConfigurator.get_iam_policy cloud c p
            = inr (GCPConfigurator.mkPolicy (Some bs)) ->
          (forall policy : GCPConfigurator.Policy,
             GCPConfigurator.set_iam_policy cloud c p policy = inr tt) ->
          GCPConfigurator.create_service_account_key cloud c p email
            = inr tt ->
          GCPConfigurator.create_config_auth_data_from_project_config
            cloud project_config self0
          = (inr (GCPConfigurator.project_config_dict project_config,
                  <["service_account_email" := email]>
                    {[ "type" := "default" ]}),
             self)).
Proof.
  intros cloud c p name self create email. subst self create email.
  split; [ | split].
  - intros H409. rewrite get_or_create_with, H409. reflexivity.
  - intros H403. rewrite get_or_create_with, H403. reflexivity.
  - intros project_config bs self0 Hcreds Hname Hauth H409 Hget Hset Hkey.
    unfold GCPConfigurator.create_config_auth_data_from_project_config.
    rewrite Hcreds. cbn [GCPConfigurator.credentials_dict].
    rewrite (run_step _ _ _ _ _ _ (auth_with_default_credentials
                                     cloud c p self0 Hauth)).
    rewrite <- Hname.
    erewrite run_step;
      [ | rewrite get_or_create_with, H409; reflexivity].
    erewrite run_step; [ | exact (grant_roles_with cloud c p _ bs Hget Hset)].
    erewrite run_step; [ | exact (check_key_with cloud c p _ Hkey)].
    reflexivity.
Qed.

(** C8 in a project where the service account of the bucket "my-bucket"
    exists already. *)
Lemma service_account_conflict_is_not_an_error_witness :
  GCPConfigurator._get_or_create_service_account
    (GCPConfigurator.sample_cloud (inl 409)) "my-bucket-sa"
    (GCPConfigurator.mkSelf (GCPConfigurator.sample_cloud (inl 409))
       (Some "default-credentials") (Some "my-project"))
  = (inr "my-bucket-sa@my-project.iam.gserviceaccount.com",
     GCPConfigurator.mkSelf (GCPConfigurator.sample_cloud (inl 409))
       (Some "default-credentials") (Some "my-project"))
  /\ GCPConfigurator.create_config_auth_data_from_project_config
       (GCPConfigurator.sample_cloud (inl 409))
       (GCPConfigurator.mkGCPProjectConfigWithCreds
          GCPConfigurator.DefaultCreds "North America" "us-west1"
          "us-west1-b" "my-bucket" "default" "default")
       (GCPConfigurator.mkSelf (GCPConfigurator.sample_cloud (inl 409))
          None None)
     = (inr (GCPConfigurator.project_config_dict
               (GCPConfigurator.mkGCPProjectConfigWithCreds
                  GCPConfigurator.DefaultCreds "North America" "us-west1"
                  "us-west1-b" "my-bucket" "default" "default"),
             <["service_account_email" :=
                 "my-bucket-sa@my-project.iam.gserviceaccount.com"]>
               {[ "type" := "default" ]}),
        GCPConfigurator.mkSelf (GCPConfigurator.sample_cloud (inl 409))
          (Some "default-credentials") (Some "my-project")).
Proof.
  pose proof (service_account_conflict_is_not_an_error
                (GCPConfigurator.sample_cloud (inl 409))
                "default-credentials" "my-project" "my-bucket-sa")
    as (H409 & _ & Hrerun).
  split.
  - apply H409. reflexivity.
  - apply (Hrerun _ []); reflexivity.
Defined.

(** ** Run-level status *)

Section Precedence.
Import BaseModel.
Variable policy : JobStatus -> nat.

Lemma precedes_total (a b : JobStatus) :
  precedes policy a b = true \/ precedes policy b a = true.
Proof.
  unfold precedes.
  destruct (Nat.ltb_spec (tier a) (tier b)), (Nat.ltb_spec (tier b) (tier a));
    cbn; auto.
  replace (tier b =? tier a)%nat with true by (symmetry; apply Nat.eqb_eq; lia).
  replace (tier a =? tier b)%nat with true by (symmetry; apply Nat.eqb_eq; lia).
  cbn. destruct (Nat.leb_spec (policy a) (policy b)); [auto | right].
  apply Nat.leb_le. lia.
Qed.

(** [precedes] read as an order on the pairs (tier, rank). *)
Lemma precedes_spec (a b : JobStatus) :
  precedes policy a b = true <->
  (tier a < tier b \/ (tier a = tier b /\ policy a <= policy b))%nat.
Proof.
  unfold precedes.
  rewrite orb_true_iff, andb_true_iff, Nat.ltb_lt, Nat.eqb_eq, Nat.leb_le.
  reflexivity.
Qed.

Lemma precedes_refl (a : JobStatus) : precedes policy a a = true.
Proof. apply precedes_spec. lia. Qed.

Lemma precedes_trans (a b c : JobStatus) :
  precedes policy a b = true -> precedes policy b c = true ->
  precedes policy a c = true.
Proof. rewrite !precedes_spec. lia. Qed.

Lemma precedes_antisym (a b : JobStatus) :
  (forall x y : JobStatus, tier x = tier y -> policy x = policy y -> x = y) ->
  precedes policy a b = true -> precedes policy b a = true -> a = b.
Proof. intros Hinj. rewrite !precedes_spec. intros ? ?. apply Hinj; lia. Qed.

Lemma dominant_cases (a b : JobStatus) :
  (dominant policy a b = a /\ precedes policy a b = true)
  \/ (dominant policy a b = b /\ precedes policy b a = true).
Proof.
  unfold dominant. destruct (precedes policy a b) eqn:E; [auto | right].
  split; [reflexivity | ].
  destruct (precedes_total a b) as [H | H]; [congruence | exact H].
Qed.

(** The run-level status is a member's status, and it precedes every
    member's status. *)
Lemma aggregate_least (first : JobStatus) (rest : list JobStatus) :
  aggregate policy first rest ∈ first :: rest
  /\ forall s : JobStatus,
       s ∈ first :: rest ->
       precedes policy (aggregate policy first rest) s = true.
Proof.
  unfold aggregate. revert first.
  induction rest as [ | x rest IH]; intros first; cbn [fold_left].
  - split; [apply list_elem_of_here | ].
    intros s ->%list_elem_of_singleton. apply precedes_refl.
  - destruct (IH (dominant policy first x)) as [Hin Hle]. split.
    + apply elem_of_cons in Hin as [Hd | Hin].
      * rewrite Hd.
        destruct (dominant_cases first x) as [[-> _] | [-> _]];
          [apply list_elem_of_here
          | apply list_elem_of_further, list_elem_of_here].
      * do 2 apply list_elem_of_further. exact Hin.
    + intros s Hs.
      assert (Hd : precedes policy
                     (fold_left (dominant policy) rest
                        (dominant policy first x))
                     (dominant policy first x) = true)
        by (apply Hle, list_elem_of_here).
      apply elem_of_cons in Hs as [-> | Hs];
        [ | apply elem_of_cons in Hs as [-> | Hs]].
      * apply (precedes_trans _ _ _ Hd).
        destruct (dominant_cases first x) as [[-> _] | [-> H]];
          [apply precedes_refl | exact H].
      * apply (precedes_trans _ _ _ Hd).
        destruct (dominant_cases first x) as [[-> H] | [-> _]];
          [exact H | apply precedes_refl].
      * apply Hle, list_elem_of_further, Hs.
Qed.

End Precedence.

Section Runs.
Import BaseModel.
Variable policy : JobStatus -> nat.
Variables (alive : gset string) (include_request_heads : bool)
  (interrupted_job_new_status : JobStatus).

(** The run names are those of the job heads that were not seen
    before. *)
Lemma elem_of_run_names (name : string) (seen : list string)
  (job_heads : list JobHead) :
  name ∈ run_names seen job_heads <->
  (name ∉ seen) /\ exists jh, jh ∈ job_heads /\ run_name jh = name.
Proof.
  revert seen. induction job_heads as [ | jh rest IH]; intros seen;
    cbn [run_names].
  - rewrite elem_of_nil. split; [tauto | ].
    intros (_ & jh & []%elem_of_nil & _).
  - case_bool_decide as Hseen.
    + rewrite IH. split.
      * intros (Hname & jh' & Hin & Heq). split; [exact Hname | ].
        exists jh'. split; [apply list_elem_of_further, Hin | exact Heq].
      * intros (Hname & jh' & Hin & Heq). split; [exact Hname | ].
        apply elem_of_cons in Hin as [-> | Hin]; [congruence | ].
        exists jh'. split; [exact Hin | exact Heq].
    + rewrite elem_of_cons, IH. split.
      * intros [-> | (Hname & jh' & Hin & Heq)].
        -- split; [exact Hseen | ].
           exists jh. split; [apply list_elem_of_here | reflexivity].
        -- split; [intros H; apply Hname, list_elem_of_further, H | ].
           exists jh'. split; [apply list_elem_of_further, Hin | exact Heq].
      * intros (Hname & jh' & Hin & Heq).
        destruct (decide (name = run_name jh)) as [-> | Hne]; [auto | ].
        right. split.
        -- intros [? | ?]%elem_of_cons; [congruence | contradiction].
        -- apply elem_of_cons in Hin as [-> | Hin]; [congruence | ].
           exists jh'. split; [exact Hin | exact Heq].
Qed.

(** No run is named twice. *)
Lemma NoDup_run_names (seen : list string) (job_heads : list JobHead) :
  NoDup (run_names seen job_heads).
Proof.
  revert seen. induction job_heads as [ | jh rest IH]; intros seen;
    cbn [run_names]; [apply NoDup_nil_2 | ].
  case_bool_decide; [apply IH | ].
  apply NoDup_cons. split; [ | apply IH].
  intros [Hnot _]%elem_of_run_names. apply Hnot, list_elem_of_here.
Qed.

Lemma filter_name_NoDup (r : string) (names : list string) :
  NoDup names -> r ∈ names -> filter (fun n => n = r) names = [r].
Proof.
  induction 1 as [ | n names Hn _ IH]; [intros []%elem_of_nil | ].
  intros Hr. rewrite filter_cons.
  destruct (decide (n = r)) as [-> | Hne].
  - f_equal.
    destruct (filter (fun n => n = r) names) as [ | x l] eqn:Hfilter;
      [reflexivity | ].
    assert (Hx : x ∈ filter (fun n => n = r) names)
      by (rewrite Hfilter; apply list_elem_of_here).
    apply list_elem_of_filter in Hx as [-> Hx]. contradiction.
  - apply elem_of_cons in Hr as [-> | Hr]; [congruence | exact (IH Hr)].
Qed.

(** The run heads of one name among those made of a list of names. *)
Lemma filter_run_heads (f : string -> option RunHead) (r : string)
  (names : list string) :
  (forall name rh, f name = Some rh -> rh_run_name rh = name) ->
  filter (fun rh => rh_run_name rh = r) (omap f names)
  = omap f (filter (fun n => n = r) names).
Proof.
  intros Hf. induction names as [ | n names IH]; [reflexivity | ].
  rewrite (filter_cons (fun n => n = r) n).
  assert (Hcons : forall l, omap f (n :: l)
                    = match f n with
                      | Some rh => rh :: omap f l
                      | None => omap f l
                      end) by reflexivity.
  destruct (decide (n = r)) as [-> | Hne]; rewrite !Hcons.
  - destruct (f r) as [rh | ] eqn:Hn; [ | exact IH].
    rewrite filter_cons_True by (apply (Hf r rh Hn)).
    rewrite IH. reflexivity.
  - destruct (f n) as [rh | ] eqn:Hn; [ | exact IH].
    rewrite filter_cons_False by (rewrite (Hf n rh Hn); exact Hne).
    exact IH.
Qed.

Lemma run_head_name (name : string) (group : list JobHead) (rh : RunHead) :
  run_head policy alive include_request_heads interrupted_job_new_status
    name group = Some rh ->
  rh_run_name rh = name.
Proof.
  unfold run_head.
  destruct (_ <$> group); [discriminate | ]. intros [= <-]. reflexivity.
Qed.

(** Whatever the other runs of the listing, a run that has job heads in
    it has one run head, whose status is the aggregate of the effective
    statuses of its own job heads. *)
Lemma get_run_heads_of_run (r : string) (job_heads : list JobHead)
  (jh : JobHead) (rest : list JobHead) :
  filter (fun jh' => run_name jh' = r) job_heads = jh :: rest ->
  exists rh : RunHead,
    filter (fun rh' => rh_run_name rh' = r)
      (get_run_heads policy alive job_heads include_request_heads
         interrupted_job_new_status) = [rh]
    /\ rh_status rh
       = aggregate policy
           (status (effective alive include_request_heads
                      interrupted_job_new_status jh))
           (effective_statuses alive include_request_heads
              interrupted_job_new_status rest).
Proof.
  intros Hmembers. unfold get_run_heads.
  assert (Hr : r ∈ run_names [] job_heads).
  { apply elem_of_run_names. split; [apply not_elem_of_nil | ].
    exists jh.
    assert (Hjh : jh ∈ filter (fun jh' => run_name jh' = r) job_heads)
      by (rewrite Hmembers; apply list_elem_of_here).
    apply list_elem_of_filter in Hjh as [Heq Hin]. split; assumption. }
  eexists. split.
  - apply Permutation_singleton_r.
    rewrite merge_sort_Permutation.
    rewrite filter_run_heads by (intros name rh; apply run_head_name).
    rewrite (filter_name_NoDup r _ (NoDup_run_names [] job_heads) Hr).
    cbn [omap list_omap]. rewrite Hmembers.
    unfold run_head. cbn [fmap list_fmap]. reflexivity.
  - cbn [rh_status]. unfold effective_statuses.
    rewrite <- list_fmap_compose. reflexivity.
Qed.

Lemma reported_of_run (r : string) (job_heads : list JobHead) :
  filter (fun jh => run_name jh = r) job_heads <> [] ->
  exists s : JobStatus,
    rh_status <$>
      filter (fun rh => rh_run_name rh = r)
        (get_run_heads policy alive job_heads include_request_heads
           interrupted_job_new_status) = [s]
    /\ s ∈ effective_statuses alive include_request_heads
            interrupted_job_new_status
            (filter (fun jh => run_name jh = r) job_heads)
    /\ forall s' : JobStatus,
         s' ∈ effective_statuses alive include_request_heads
                interrupted_job_new_status
                (filter (fun jh => run_name jh = r) job_heads) ->
         precedes policy s s' = true.
Proof.
  intros Hne.
  destruct (filter (fun jh => run_name jh = r) job_heads)
    as [ | jh rest] eqn:Hmembers; [congruence | ].
  destruct (get_run_heads_of_run r job_heads jh rest Hmembers)
    as (rh & -> & Hs).
  exists (rh_status rh). split; [reflexivity | ].
  rewrite Hs. apply aggregate_least.
Qed.

End Runs.

(** C5. For every run [r] that has job heads in a listing, whatever the
    other runs listed with it, the reconciler makes one run head of [r],
    from the job heads of [r] alone.  When their statuses (as rewritten
    for the interrupted jobs) are RUNNING and DONE, the run reports
    RUNNING; FAILED and DONE, FAILED; all DONE, DONE.  The precedence is
    total, whatever the tie-break policy; and when the policy breaks every
    tie within a tier, the reported status does not depend on the order in
    which the job heads are listed.  This is what [list_run_heads]
    returns: the run heads that the reconciler makes of the listed job
    heads. *)
Theorem run_status_precedence :
  forall (policy : JobStatus -> nat) (alive : gset string)
         (include_request_heads : bool)
         (interrupted_job_new_status : JobStatus)
         (r : string) (job_heads : list JobHead),
    let members := filter (fun jh => run_name jh = r) job_heads in
    members <> [] ->
    let statuses :=
      BaseModel.effective_statuses alive include_request_heads
        interrupted_job_new_status members in
    let reported (jhs : list JobHead) :=
      rh_status <$>
        filter (fun rh => rh_run_name rh = r)
          (BaseModel.get_run_heads policy alive jhs include_request_heads
             interrupted_job_new_status) in
    (RUNNING ∈ statuses ->
     (forall s : JobStatus, s ∈ statuses -> s = RUNNING \/ s = DONE) ->
     reported job_heads = [RUNNING])
    /\ (FAILED ∈ statuses ->
        (forall s : JobStatus, s ∈ statuses -> s = FAILED \/ s = DONE) ->
        reported job_heads = [FAILED])
    /\ ((forall s : JobStatus, s ∈ statuses -> s = DONE) ->
        reported job_heads = [DONE])
    /\ (forall a b : JobStatus,
          BaseModel.precedes policy a b = true
          \/ BaseModel.precedes policy b a = true)
    /\ ((forall x y : JobStatus,
           BaseModel.tier x = BaseModel.tier y -> policy x = policy y ->
           x = y) ->
        forall job_heads' : list JobHead,
          job_heads' ≡ₚ job_heads ->
          reported job_heads' = reported job_heads)
    /\ (forall (other : Aws.handler BaseModel.World) (self : Aws.AwsBackend)
               (repo_id : string) (run_name : option string)
               (w : BaseModel.World),
          Aws.run (BaseModel.base policy other)
            (Aws.list_run_heads self repo_id run_name None None) w
          = (inr (BaseModel.get_run_heads policy (BaseModel.alive w)
                    (BaseModel.list_job_heads
                       (Aws.storage_bucket_name (Aws._storage self))
                       repo_id run_name w)
                    true FAILED), w)).
Proof.
  intros policy alive irh new r job_heads members Hne statuses reported.
  destruct (reported_of_run policy alive irh new r job_heads Hne)
    as (s & Hs & Hin & Hleast).
  fold members in Hin, Hleast. fold statuses in Hin, Hleast.
  fold (reported job_heads) in Hs.
  split; [ | split; [ | split; [ | split; [ | split]]]].
  - intros Hrun Honly. rewrite Hs. f_equal.
    destruct (Honly s Hin) as [-> | ->]; [reflexivity | ].
    specialize (Hleast RUNNING Hrun). discriminate Hleast.
  - intros Hfail Honly. rewrite Hs. f_equal.
    destruct (Honly s Hin) as [-> | ->]; [reflexivity | ].
    specialize (Hleast FAILED Hfail). discriminate Hleast.
  - intros Honly. rewrite Hs. f_equal. exact (Honly s Hin).
  - apply precedes_total.
  - intros Hinj job_heads' Hperm.
    assert (Hmembers : filter (fun jh => run_name jh = r) job_heads'
                       ≡ₚ members)
      by (unfold members; rewrite Hperm; reflexivity).
    assert (Hne' : filter (fun jh => run_name jh = r) job_heads' <> []).
    { intros Hnil. rewrite Hnil in Hmembers.
      apply Permutation_nil_l in Hmembers. congruence. }
    destruct (reported_of_run policy alive irh new r job_heads' Hne')
      as (s' & Hs' & Hin' & Hleast').
    fold (reported job_heads') in Hs'. rewrite Hs, Hs'. f_equal.
    assert (Hst : BaseModel.effective_statuses alive irh new
                    (filter (fun jh => run_name jh = r) job_heads')
                  ≡ₚ statuses)
      by (unfold statuses, BaseModel.effective_statuses; rewrite Hmembers;
          reflexivity).
    apply (precedes_antisym policy _ _ Hinj).
    + apply Hleast'. rewrite Hst. exact Hin.
    + apply Hleast. rewrite <- Hst. exact Hin'.
  - intros other self repo_id run_name w. reflexivity.
Qed.

(** C5 for the run "run" of a running job, whose instance is alive, and
    a job that is done, listed with a failed job of another run between
    them. *)
Lemma run_status_precedence_witness :
  rh_status <$>
    filter (fun rh => rh_run_name rh = "run")
      (BaseModel.get_run_heads BaseModel.declaration_order {[ "job-1" ]}
         [ mkJobHead "job-1" "run" RUNNING 10;
           mkJobHead "job-9" "other" FAILED 5;
           mkJobHead "job-2" "run" DONE 11 ]
         true FAILED)
  = [RUNNING].
Proof.
  pose proof (run_status_precedence BaseModel.declaration_order {[ "job-1" ]}
                true FAILED "run"
                [ mkJobHead "job-1" "run" RUNNING 10;
                  mkJobHead "job-9" "other" FAILED 5;
                  mkJobHead "job-2" "run" DONE 11 ]) as H.
  cbv zeta in H.
  assert (Hmembers :
    filter (fun jh => run_name jh = "run")
      [ mkJobHead "job-1" "run" RUNNING 10;
        mkJobHead "job-9" "other" FAILED 5;
        mkJobHead "job-2" "run" DONE 11 ]
    = [ mkJobHead "job-1" "run" RUNNING 10;
        mkJobHead "job-2" "run" DONE 11 ]) by reflexivity.
  rewrite Hmembers in H.
  destruct H as (Hrunning & _); [discriminate | ].
  apply Hrunning.
  - vm_compute. apply list_elem_of_here.
  - intros s Hs. vm_compute in Hs.
    apply elem_of_cons in Hs as [-> | Hs]; [left; reflexivity | ].
    apply list_elem_of_singleton in Hs as ->. right. reflexivity.
Defined.

(** ** Log polling *)

#[local] Instance earlier_trans : Transitive BaseModel.earlier.
Proof. intros a b c. unfold BaseModel.earlier. lia. Qed.
#[local] Instance earlier_total : Total BaseModel.earlier.
Proof. intros a b. unfold BaseModel.earlier. lia. Qed.
#[local] Instance not_earlier_trans : Transitive BaseModel.not_earlier.
Proof. intros a b c. unfold BaseModel.not_earlier. lia. Qed.
#[local] Instance not_earlier_total : Total BaseModel.not_earlier.
Proof. intros a b. unfold BaseModel.not_earlier. lia. Qed.

Section Logs.
Import BaseModel.

Variable w : World.
Hypothesis page_positive : (0 < page_size w)%nat.

Variables (group : LogGroup) (start_time : Z) (end_time : option Z).

Local Abbreviation matching :=
  (BaseModel.matching w group start_time end_time).

Lemma query_at (off : nat) :
  query w group start_time end_time (Some off)
  = (take (page_size w) (drop off matching),
     if (off + page_size w <? length matching)%nat
     then Some (off + page_size w)%nat else None).
Proof. reflexivity. Qed.

(** With fuel for every page, following the tokens from an offset yields
    every matching event from that offset on. *)
Lemma follow_from (fuel off : nat) :
  (length matching - off <= fuel * page_size w)%nat ->
  follow fuel (query w group start_time end_time) (Some off)
  = drop off matching.
Proof.
  revert off. induction fuel as [ | fuel IH]; intros off Hfuel.
  - cbn [follow]. symmetry. apply drop_ge. lia.
  - cbn [follow]. rewrite query_at.
    destruct (Nat.ltb_spec (off + page_size w) (length matching))
      as [Hlt | Hge].
    + rewrite IH by lia.
      rewrite <- (take_drop (page_size w) (drop off matching)) at 2.
      rewrite drop_drop. reflexivity.
    + apply take_ge. rewrite length_drop. lia.
Qed.

Lemma follow_all :
  follow (S (length (log_records w))) (query w group start_time end_time) None
  = matching.
Proof.
  assert (Hlen : (length matching <= length (log_records w))%nat).
  { unfold BaseModel.matching, stream_events.
    etransitivity; [apply length_filter | ].
    generalize (log_records w). intros l.
    induction l as [ | [g e] l IH]; cbn; [lia | ].
    destruct (decide (g = group)); cbn; lia. }
  change (follow (S (length (log_records w)))
            (query w group start_time end_time) None)
    with (follow (S (length (log_records w)))
            (query w group start_time end_time) (Some 0%nat)).
  rewrite follow_from; [reflexivity | nia].
Qed.

(** Without diagnostics, [poll_logs] yields the matching events of the
    run's stream, sorted. *)
Lemma poll_logs_sorted_matching (bucket_name : option string)
  (repo_id run_name : string) (descending : bool) :
  group = mkLogGroup bucket_name repo_id run_name false ->
  poll_logs w bucket_name repo_id run_name start_time end_time
    descending false
  = if descending then merge_sort not_earlier matching
    else merge_sort earlier matching.
Proof.
  intros Hgroup. unfold poll_logs. rewrite <- Hgroup.
  rewrite follow_all, app_nil_r. reflexivity.
Qed.

End Logs.

Lemma in_range_spec (start_time : Z) (end_time : option Z) (e : LogEvent) :
  BaseModel.in_range start_time end_time e = true <->
  start_time <= timestamp e
  /\ match end_time with
     | Some t => timestamp e < t
     | None => True
     end.
Proof.
  unfold BaseModel.in_range. rewrite andb_true_iff, Z.leb_le.
  destruct end_time; [rewrite Z.ltb_lt | ]; intuition.
Qed.

(** A list sorted by time stamp and made of the members of a list with
    distinct time stamps, sorted too, is that list. *)
Lemma sorted_by_timestamp_unique (R : relation LogEvent)
  `{!Transitive R} (l target : list LogEvent) :
  (forall a b : LogEvent, R a b -> R b a -> timestamp a = timestamp b) ->
  (forall a b : LogEvent,
     a ∈ target -> b ∈ target -> timestamp a = timestamp b -> a = b) ->
  Sorted R l -> Sorted R target -> l ≡ₚ target -> l = target.
Proof.
  intros Hts Hdistinct Hl Htarget Hperm.
  apply (Sorted_unique_strong R); try assumption.
  intros x1 x2 Hx1 Hx2 H12 H21.
  apply Hdistinct; [rewrite <- Hperm; exact Hx1 | exact Hx2 | ].
  apply Hts; assumption.
Qed.

Section ThreeEvents.
Import BaseModel.
Variables (e1 e2 e3 : LogEvent).
Hypothesis before12 : timestamp e1 < timestamp e2.
Hypothesis before23 : timestamp e2 < timestamp e3.

Lemma three_distinct (a b : LogEvent) :
  a ∈ [e1; e2; e3] -> b ∈ [e1; e2; e3] ->
  timestamp a = timestamp b -> a = b.
Proof.
  rewrite !elem_of_cons, !elem_of_nil.
  intros [-> | [-> | [-> | []]]] [-> | [-> | [-> | []]]] H;
    first [reflexivity | exfalso; lia].
Qed.

Lemma three_from_first :
  filter (fun e => in_range (timestamp e1) None e = true) [e1; e2; e3]
  = [e1; e2; e3].
Proof.
  rewrite !filter_cons_True by (apply in_range_spec; cbn; lia).
  reflexivity.
Qed.

Lemma three_from_second :
  filter (fun e => in_range (timestamp e2) None e = true) [e1; e2; e3]
  = [e2; e3].
Proof.
  rewrite filter_cons_False
    by (rewrite in_range_spec; cbn; lia).
  rewrite !filter_cons_True by (apply in_range_spec; cbn; lia).
  reflexivity.
Qed.

End ThreeEvents.

(** C6. When the stream of the run holds three events of time stamps
    [t1 < t2 < t3] (put in in any order, in pages of any positive size),
    [poll_logs] from [t1] yields them as [e1; e2; e3], with [descending]
    as [e3; e2; e1], and from [t2] it yields [e2; e3] only.  With an
    [end_time], what it yields are the events of the stream with
    [start_time <= timestamp < end_time], in time-stamp order.  Polling
    leaves the store and the sink as they were. *)
Theorem poll_logs_three_events :
  forall (policy : JobStatus -> nat) (other : Aws.handler BaseModel.World)
         (self : Aws.AwsBackend) (repo_id run_name : string)
         (w : BaseModel.World) (e1 e2 e3 : LogEvent),
    (0 < BaseModel.page_size w)%nat ->
    timestamp e1 < timestamp e2 ->
    timestamp e2 < timestamp e3 ->
    BaseModel.stream_events w
      (BaseModel.mkLogGroup (Aws.bucket_name (Aws.backend_config self))
         repo_id run_name false)
    ≡ₚ [e1; e2; e3] ->
    let poll (start_time : Z) (end_time : option Z)
             (descending : option bool) :=
      Aws.run (BaseModel.base policy other)
        (Aws.poll_logs self repo_id run_name start_time end_time
           descending None) w in
    poll (timestamp e1) None (Some false) = (inr [e1; e2; e3], w)
    /\ poll (timestamp e1) None None = (inr [e1; e2; e3], w)
    /\ poll (timestamp e1) None (Some true) = (inr [e3; e2; e1], w)
    /\ poll (timestamp e2) None None = (inr [e2; e3], w)
    /\ forall (start_time end_time : Z) (descending : option bool),
         exists events : list LogEvent,
           poll start_time (Some end_time) descending = (inr events, w)
           /\ (forall e : LogEvent,
                 e ∈ events <->
                 e ∈ [e1; e2; e3]
                 /\ start_time <= timestamp e /\ timestamp e < end_time)
           /\ Sorted (if default false descending
                      then BaseModel.not_earlier else BaseModel.earlier)
                events.
Proof.
  intros policy other self repo_id run_name w e1 e2 e3 Hpage H12 H23 Hstream
    poll.
  set (group := BaseModel.mkLogGroup (Aws.bucket_name (Aws.backend_config self))
                  repo_id run_name false) in *.
  assert (Hpoll : forall start_time end_time descending,
            poll start_time end_time descending
            = (inr (if default false descending
                    then merge_sort BaseModel.not_earlier
                           (BaseModel.matching w group start_time end_time)
                    else merge_sort BaseModel.earlier
                           (BaseModel.matching w group start_time end_time)),
               w)).
  { intros start_time end_time descending.
    rewrite <- (poll_logs_sorted_matching w Hpage group start_time end_time
                  (Aws.bucket_name (Aws.backend_config self)) repo_id run_name
                  (default false descending) eq_refl).
    reflexivity. }
  assert (Hmatch : forall start_time end_time,
            BaseModel.matching w group start_time end_time
            ≡ₚ filter
                 (fun e => BaseModel.in_range start_time end_time e = true)
                 [e1; e2; e3]).
  { intros start_time end_time. unfold BaseModel.matching.
    rewrite Hstream. reflexivity. }
  assert (Hts1 : forall a b, BaseModel.earlier a b -> BaseModel.earlier b a ->
                             timestamp a = timestamp b)
    by (unfold BaseModel.earlier; intros; lia).
  assert (Hts2 : forall a b, BaseModel.not_earlier a b ->
                             BaseModel.not_earlier b a ->
                             timestamp a = timestamp b)
    by (unfold BaseModel.not_earlier; intros; lia).
  pose proof (three_distinct e1 e2 e3 H12 H23) as Hdistinct.
  assert (Hascending :
            merge_sort BaseModel.earlier
              (BaseModel.matching w group (timestamp e1) None)
            = [e1; e2; e3]).
  { apply (sorted_by_timestamp_unique BaseModel.earlier _ _ Hts1 Hdistinct).
    - apply Sorted_merge_sort, _.
    - repeat constructor; unfold BaseModel.earlier; lia.
    - rewrite merge_sort_Permutation, Hmatch.
      rewrite (three_from_first e1 e2 e3 H12 H23). reflexivity. }
  assert (Hdescending :
            merge_sort BaseModel.not_earlier
              (BaseModel.matching w group (timestamp e1) None)
            = [e3; e2; e1]).
  { apply (sorted_by_timestamp_unique BaseModel.not_earlier _ _ Hts2).
    - intros a b Ha Hb. apply Hdistinct.
      + revert Ha. rewrite !elem_of_cons, !elem_of_nil. tauto.
      + revert Hb. rewrite !elem_of_cons, !elem_of_nil. tauto.
    - apply Sorted_merge_sort, _.
    - repeat constructor; unfold BaseModel.not_earlier; lia.
    - rewrite merge_sort_Permutation, Hmatch.
      rewrite (three_from_first e1 e2 e3 H12 H23).
      change [e3; e2; e1] with (reverse [e1; e2; e3]).
      symmetry. apply reverse_Permutation. }
  assert (Hsecond :
            merge_sort BaseModel.earlier
              (BaseModel.matching w group (timestamp e2) None)
            = [e2; e3]).
  { apply (sorted_by_timestamp_unique BaseModel.earlier _ _ Hts1).
    - intros a b Ha Hb. apply Hdistinct.
      + apply list_elem_of_further, Ha.
      + apply list_elem_of_further, Hb.
    - apply Sorted_merge_sort, _.
    - repeat constructor; unfold BaseModel.earlier; lia.
    - rewrite merge_sort_Permutation, Hmatch.
      rewrite (three_from_second e1 e2 e3 H12 H23). reflexivity. }
  split; [rewrite Hpoll; cbn [default]; rewrite Hascending; reflexivity | ].
  split; [rewrite Hpoll; cbn [default]; rewrite Hascending; reflexivity | ].
  split; [rewrite Hpoll; cbn [default]; rewrite Hdescending; reflexivity | ].
  split; [rewrite Hpoll; cbn [default]; rewrite Hsecond; reflexivity | ].
  intros start_time end_time descending.
  eexists. split; [apply Hpoll | ]. split.
    + intros e.
      assert (Hin : e ∈ BaseModel.matching w group start_time (Some end_time)
                    <-> e ∈ [e1; e2; e3]
                        /\ start_time <= timestamp e /\ timestamp e < end_time).
      { rewrite Hmatch, list_elem_of_filter, in_range_spec. tauto. }
      destruct (default false descending);
        rewrite merge_sort_Permutation; exact Hin.
    + destruct (default false descending); apply Sorted_merge_sort, _.
Qed.

(** C6 for three events put in out of order and read in pages of two. *)
Lemma poll_logs_three_events_witness :
  let self :=
    Aws.__init__
      (Aws.mkAWSConfig (Some "us-east-1") (Some "bucket") None None) in
  let poll (start_time : Z) (descending : option bool) :=
    Aws.run (BaseModel.base BaseModel.declaration_order BaseModel.unmodelled)
      (Aws.poll_logs self "repo" "run" start_time None descending None)
      BaseModel.sample_world in
  poll 10 (Some false)
  = (inr [ mkLogEvent 10 "job-1" "first"; mkLogEvent 20 "job-1" "second";
           mkLogEvent 30 "job-1" "third" ], BaseModel.sample_world)
  /\ poll 10 (Some true)
     = (inr [ mkLogEvent 30 "job-1" "third"; mkLogEvent 20 "job-1" "second";
              mkLogEvent 10 "job-1" "first" ], BaseModel.sample_world)
  /\ poll 20 None
     = (inr [ mkLogEvent 20 "job-1" "second"; mkLogEvent 30 "job-1" "third" ],
        BaseModel.sample_world).
Proof.
  intros self poll.
  pose proof (poll_logs_three_events BaseModel.declaration_order
                BaseModel.unmodelled self "repo" "run" BaseModel.sample_world
                (mkLogEvent 10 "job-1" "first")
                (mkLogEvent 20 "job-1" "second")
                (mkLogEvent 30 "job-1" "third")) as H.
  destruct H as (Hasc & _ & Hdesc & Hsecond & _).
  - cbn. lia.
  - cbn. lia.
  - cbn. lia.
  - vm_compute BaseModel.stream_events.
    symmetry.
    apply (Permutation_cons_append
             [ mkLogEvent 20 "job-1" "second"; mkLogEvent 30 "job-1" "third" ]
             (mkLogEvent 10 "job-1" "first")).
  - split; [exact Hasc | split; [exact Hdesc | exact Hsecond]].
Defined.

(** * Further properties of the code *)

(** ** The facade: delegation and composition *)

(** X1.  Each of these methods of [AwsBackend] performs one call of a base
    function and nothing else, gives it every argument of the caller in
    the position of its name ([stop_job] takes [abort] before [job_id] and
    passes it after), and ends as the call ends: its result is returned
    and its exception is raised on. *)
Theorem single_call_methods_delegate
  (W : Type) (h : Aws.handler W) (self : Aws.AwsBackend) (w : W) :
  (forall (job : Job),
     Aws.delegates_to h w (Aws.predict_instance_type self job)
       (Aws.base_jobs_predict_job_instance (Aws._compute self) job))
  /\
  (forall (job : Job),
     Aws.delegates_to h w (Aws.create_job self job)
       (Aws.base_jobs_create_job (Aws._storage self) job))
  /\
  (forall (repo_id job_id : string),
     Aws.delegates_to h w (Aws.get_job self repo_id job_id)
       (Aws.base_jobs_get_job (Aws._storage self) repo_id job_id))
  /\
  (forall (repo_id run_name : string),
     Aws.delegates_to h w (Aws.list_jobs self repo_id run_name)
       (Aws.base_jobs_list_jobs (Aws._storage self) repo_id run_name))
  /\
  (forall (job : Job) (new_status : JobStatus),
     Aws.delegates_to h w (Aws.run_job self job new_status)
       (Aws.base_jobs_run_job (Aws._storage self) (Aws._compute self) job
         new_status))
  /\
  (forall (repo_id : string) (abort : bool) (job_id : string),
     Aws.delegates_to h w (Aws.stop_job self repo_id abort job_id)
       (Aws.base_jobs_stop_job (Aws._storage self) (Aws._compute self)
         repo_id job_id abort))
  /\
  (forall (repo_id : string) (run_name : option string),
     Aws.delegates_to h w (Aws.list_job_heads self repo_id run_name)
       (Aws.base_jobs_list_job_heads (Aws._storage self) repo_id run_name))
  /\
  (forall (repo_id job_id : string),
     Aws.delegates_to h w (Aws.delete_job_head self repo_id job_id)
       (Aws.base_jobs_delete_job_head (Aws._storage self) repo_id job_id))
  /\
  (forall (repo_id run_name : string) (start_time : Z) (end_time : option Z)
   (descending diagnose : bool),
     Aws.delegates_to h w
       (Aws.poll_logs self repo_id run_name start_time end_time
         (Some descending) (Some diagnose))
       (Aws.logs_poll_logs (Aws._storage self) (Aws._logs_client self)
         (Aws.bucket_name (Aws.backend_config self)) repo_id run_name
         start_time end_time descending diagnose))
  /\
  (forall (repo_id run_name prefix : string) (recursive : bool),
     Aws.delegates_to h w
       (Aws.list_run_artifact_files self repo_id run_name prefix
         (Some recursive))
       (Aws.base_artifacts_list_run_artifact_files (Aws._storage self)
         repo_id run_name prefix recursive))
  /\
  (forall (repo_id job_id artifact_name artifact_path local_path : string),
     Aws.delegates_to h w
       (Aws.upload_job_artifact_files self repo_id job_id artifact_name
         artifact_path local_path)
       (Aws.base_artifacts_upload_job_artifact_files (Aws._storage self)
         repo_id job_id artifact_name artifact_path local_path))
  /\
  (forall (repo_id : string),
     Aws.delegates_to h w (Aws.list_tag_heads self repo_id)
       (Aws.base_tags_list_tag_heads (Aws._storage self) repo_id))
  /\
  (forall (repo_id tag_name : string),
     Aws.delegates_to h w (Aws.get_tag_head self repo_id tag_name)
       (Aws.base_tags_get_tag_head (Aws._storage self) repo_id tag_name))
  /\
  (forall (repo_id tag_name run_name : string) (run_jobs : option (list
   Job)),
     Aws.delegates_to h w
       (Aws.add_tag_from_run self repo_id tag_name run_name run_jobs)
       (Aws.base_tags_create_tag_from_run (Aws._storage self) repo_id
         tag_name run_name run_jobs))
  /\
  (forall (repo : Repo) (hub_user_name tag_name : string) (local_dirs
   artifact_paths : list string),
     Aws.delegates_to h w
       (Aws.add_tag_from_local_dirs self repo hub_user_name tag_name
         local_dirs artifact_paths)
       (Aws.base_tags_create_tag_from_local_dirs (Aws._storage self) repo
         hub_user_name tag_name local_dirs artifact_paths))
  /\
  (forall (repo_id : string) (tag_head : TagHead),
     Aws.delegates_to h w (Aws.delete_tag_head self repo_id tag_head)
       (Aws.base_tags_delete_tag (Aws._storage self) repo_id tag_head))
  /\
  (forall (repo_spec : RepoSpec) (last_run_at : Z),
     Aws.delegates_to h w
       (Aws.update_repo_last_run_at self repo_spec last_run_at)
       (Aws.base_repos_update_repo_last_run_at (Aws._storage self) repo_spec
         last_run_at))
  /\
  (forall (repo_id : string),
     Aws.delegates_to h w (Aws.get_repo_credentials self repo_id)
       (Aws.base_repos_get_repo_credentials (Aws._secrets_manager self)
         repo_id))
  /\
  (forall (repo_id : string) (creds : RemoteRepoCredentials),
     Aws.delegates_to h w (Aws.save_repo_credentials self repo_id creds)
       (Aws.base_repos_save_repo_credentials (Aws._secrets_manager self)
         repo_id creds))
  /\
  (forall (repo_id : string),
     Aws.delegates_to h w (Aws.delete_repo self repo_id)
       (Aws.base_repos_delete_repo (Aws._storage self) repo_id))
  /\
  (forall (repo_id : string),
     Aws.delegates_to h w (Aws.list_secret_names self repo_id)
       (Aws.base_secrets_list_secret_names (Aws._storage self) repo_id))
  /\
  (forall (repo_id : string) (secret : Secret),
     Aws.delegates_to h w (Aws.add_secret self repo_id secret)
       (Aws.base_secrets_add_secret (Aws._storage self)
         (Aws._secrets_manager self) repo_id secret))
  /\
  (forall (repo_id : string) (secret : Secret),
     Aws.delegates_to h w (Aws.update_secret self repo_id secret)
       (Aws.base_secrets_update_secret (Aws._storage self)
         (Aws._secrets_manager self) repo_id secret))
  /\
  (forall (object_key : string),
     Aws.delegates_to h w (Aws.get_signed_download_url self object_key)
       (Aws.storage_get_signed_download_url (Aws._storage self) object_key))
  /\
  (forall (object_key : string),
     Aws.delegates_to h w (Aws.get_signed_upload_url self object_key)
       (Aws.storage_get_signed_upload_url (Aws._storage self) object_key))
  /\
  (forall (repo_id hub_user_name workflow_name : string),
     Aws.delegates_to h w
       (Aws.delete_workflow_cache self repo_id hub_user_name workflow_name)
       (Aws.base_cache_delete_workflow_cache (Aws._storage self) repo_id
         hub_user_name workflow_name))
  /\
  Aws.delegates_to h w (Aws.list_repo_heads self)
    (Aws.base_repos_list_repo_heads (Aws._storage self)).
Proof.
  repeat (split;
          [intros; split; [apply run_perform | apply trace_perform] | ]).
  split; [apply run_perform | apply trace_perform].
Qed.

(** X2.  [create_run] first makes sure the log groups of the repository exist,
    for the bucket of the backend and with a client for the logs service;
    only when that call returns does it allocate the run, whose name it
    returns.  When the first call raises, its exception is raised on and
    no run is allocated. *)
Theorem create_run_makes_log_groups_first
  (W : Type) (h : Aws.handler W) (self : Aws.AwsBackend)
  (repo_id : string) (w : W) :
  let log_groups :=
    Aws.logs_create_log_groups_if_not_exist
      (Aws.mkClient (Aws._session self) "logs")
      (Aws.bucket_name (Aws.backend_config self)) repo_id in
  let create := Aws.base_runs_create_run (Aws._storage self) in
  match h _ log_groups w with
  | (inl e, w') =>
      Aws.run h (Aws.create_run self repo_id) w = (inl e, w')
      /\ Aws.trace h (Aws.create_run self repo_id) w = [Aws.Event log_groups]
  | (inr _, w') =>
      Aws.run h (Aws.create_run self repo_id) w = h _ create w'
      /\ Aws.trace h (Aws.create_run self repo_id) w
         = [Aws.Event log_groups; Aws.Event create]
  end.
Proof.
  intros log_groups create. unfold Aws.create_run.
  rewrite run_bind, trace_bind, run_perform, trace_perform.
  change (Aws.logs_create_log_groups_if_not_exist (Aws._logs_client self)
            (Aws.bucket_name (Aws.backend_config self)) repo_id)
    with log_groups.
  destruct (h _ log_groups w) as [[e | []] w']; [split; reflexivity | ].
  rewrite run_perform, trace_perform. split; reflexivity.
Qed.

(** ** The AWS configurator *)

Section AwsConfiguratorFacts.
Import AWSConfigurator.
Variable cloud : Cloud.

Ltac unfold_configure :=
  unfold configure_project, _get_hub_buckets, _get_hub_subnet,
    _validate_hub_bucket, _valid_credentials, Session_init,
    _raise_invalid_credentials_error, item, client_call, raise;
  unfold mbind, mret, raised_bind, raised_ret.

(** The two statuses that [_validate_hub_bucket] turns into a
    configuration error. *)
Ltac split_codes :=
  repeat match goal with
  | H : bool_decide (_ \/ _) = false |- _ =>
      apply bool_decide_eq_false in H; apply Decidable.not_or in H;
      destruct H
  | H : bool_decide _ = true |- _ => apply bool_decide_eq_true in H
  | H : bool_decide _ = false |- _ => apply bool_decide_eq_false in H
  end.

(** X3.  [_validate_hub_bucket] accepts a bucket exactly when the service
    knows it and the lower-cased region it reports is the configured one.
    What it raises otherwise is the error [invalid_bucket] on the field
    [s3_bucket_name], or, for a service error whose code is neither 404
    nor 403, that very error, or the exception of the client that is not
    a [ClientError]. *)
Theorem validate_hub_bucket_outcomes (session : Session)
  (region : option string) (bucket_name : string) :
  (_validate_hub_bucket cloud session region bucket_name = inr tt <->
   exists bucket_region,
     head_bucket cloud session bucket_name = inr bucket_region
     /\ region = Some (Py.lower bucket_region))
  /\ (forall r,
        _validate_hub_bucket cloud session region bucket_name = inl r ->
        (exists e, r = Hub.RaiseBackendConfigError e
                   /\ Hub.error_shape e
                      = ("invalid_bucket", [["s3_bucket_name"]]))
        \/ (exists e, r = Hub.RaiseClientError e
                      /\ head_bucket cloud session bucket_name
                         = inl (Hub.BotoClientError e)
                      /\ Hub.error_code e <> Some "404"
                      /\ Hub.error_code e <> Some "403")
        \/ (exists what, r = Hub.RaiseOther what
                         /\ head_bucket cloud session bucket_name
                            = inl (Hub.BotoOtherError what))).
Proof.
  unfold _validate_hub_bucket, raise. split; [split | ].
  - destruct (head_bucket cloud session bucket_name) as [[e | what] | br];
      repeat case_bool_decide; try discriminate.
    intros _. exists br. split; [reflexivity | ].
    destruct (decide (Some (Py.lower br) = region)); [done | contradiction].
  - intros (br & -> & ->). rewrite bool_decide_eq_false_2; [done | ].
    intros H. apply H. reflexivity.
  - intros r.
    destruct (head_bucket cloud session bucket_name) as [[e | what] | br];
      repeat case_bool_decide; intros [= <-].
    + left. eexists. split; reflexivity.
    + right. left. exists e. repeat split; tauto.
    + right. right. exists what. split; reflexivity.
    + left. eexists. split; reflexivity.
Qed.

(** X4.  A configuration that names a bucket but no region is never accepted
    once credentials are given: no reported bucket region equals [None]. *)
Theorem bucket_without_region_is_rejected (config_data : ConfigData)
  (credentials_data : gmap string string) (bucket : string) :
  Aws.region_name (deserialize cloud config_data) = None ->
  Aws.bucket_name (deserialize cloud config_data) = Some bucket ->
  config_credentials config_data = Some credentials_data ->
  forall project_values,
    configure_project cloud config_data <> inr project_values.
Proof.
  intros Hregion Hbucket Hcreds project_values. unfold_configure.
  rewrite Hregion, Hbucket, Hcreds. intros H.
  repeat (case_match; simplify_eq; try discriminate).
Qed.

(** X5.  Without credentials in the request, [configure_project] checks
    the region, asks STS who calls, in a session without keys whose region
    is the one of the environment or else the configured one, and builds
    no region, bucket or subnet element.  It returns whether STS answered
    or refused with a [ClientError]; it raises the configuration error of
    a region that is not in the table, or whatever else than a
    [ClientError] the STS client raises. *)
Theorem configure_without_credentials (config_data : ConfigData) :
  config_credentials config_data = None ->
  let config := deserialize cloud config_data in
  let session :=
    mkSession
      (match default_region_name cloud with
       | Some r => Some r
       | None => Aws.region_name config
       end) None None in
  match configure_project cloud config_data with
  | inr project_values =>
      Hub.pv_region_name project_values = None
      /\ Hub.pv_s3_bucket_name project_values = None
      /\ Hub.pv_ec2_subnet_id project_values = None
      /\ ((Hub.default_credentials project_values = true
           /\ get_caller_identity cloud session = inr tt)
          \/ (Hub.default_credentials project_values = false
              /\ exists e, get_caller_identity cloud session
                           = inl (Hub.BotoClientError e)))
  | inl r =>
      (exists region,
         Aws.region_name config = Some region
         /\ (region ∉ regions.*2)
         /\ r = Hub.RaiseBackendConfigError
                  (Hub.mkBackendConfigError
                     ("Invalid AWS region " +:+ region)
                     "invalid_config" []))
      \/ (exists what,
            get_caller_identity cloud session
            = inl (Hub.BotoOtherError what)
            /\ r = Hub.RaiseOther what)
  end.
Proof.
  intros Hcreds. cbv zeta. unfold_configure. rewrite Hcreds.
  destruct (Aws.region_name (deserialize cloud config_data)) as [r | ];
    [case_bool_decide | ]; cbn.
  - left. exists r. auto.
  - destruct (default_region_name cloud); cbn;
      destruct (get_caller_identity cloud _) as [[e | what] | []]; cbn;
      eauto 8.
  - destruct (default_region_name cloud); cbn;
      destruct (get_caller_identity cloud _) as [[e | what] | []]; cbn;
      eauto 8.
Qed.


(** X7.  What [configure_project] offers when it is given credentials and
    succeeds.  For access-key credentials the selected region is the
    configured one, or the one of the environment when none is
    configured; otherwise it is the one of the environment, or the
    configured one when the environment has none.  The regions offered
    are those of the table.  The selected bucket and subnet are the
    configured ones, every bucket offered carries the configured region,
    whatever its own, and every subnet is its own label. *)
Theorem configure_with_credentials_selects (config_data : ConfigData)
  (credentials_data : gmap string string)
  (project_values : Hub.AWSProjectValues) :
  config_credentials config_data = Some credentials_data ->
  configure_project cloud config_data = inr project_values ->
  let config := deserialize cloud config_data in
  exists region_name s3_bucket_name ec2_subnet_id,
    Hub.pv_region_name project_values = Some region_name
    /\ Hub.pv_s3_bucket_name project_values = Some s3_bucket_name
    /\ Hub.pv_ec2_subnet_id project_values = Some ec2_subnet_id
    /\ Hub.selected region_name
       = (if bool_decide (credentials_data !! "type" = Some "access_key")
          then match Aws.region_name config with
               | Some r => Some r
               | None => default_region_name cloud
               end
          else match default_region_name cloud with
               | Some r => Some r
               | None => Aws.region_name config
               end)
    /\ Hub.values region_name
       = (fun r => Hub.mkProjectElementValue r.2 r.1) <$> regions
    /\ Hub.bucket_selected s3_bucket_name = Aws.bucket_name config
    /\ (forall v, v ∈ Hub.bucket_values s3_bucket_name ->
          Hub.bucket_value_region v = Aws.region_name config)
    /\ Hub.selected ec2_subnet_id = Aws.subnet_id config
    /\ (forall v, v ∈ Hub.values ec2_subnet_id ->
          Hub.pev_label v = Hub.pev_value v).
Proof.
  intros Hcreds H. cbv zeta. revert H. unfold_configure. rewrite Hcreds.
  intros H.
  repeat (case_match; simplify_eq; try discriminate).
  all: do 3 eexists.
  all: do 3 (split; [reflexivity | ]).
  all: cbn in *.
  all: split_codes.
  all: split; [congruence | ].
  all: split; [reflexivity | ].
  all: split; [reflexivity | ].
  all: split;
    [ intros v [b [-> _]]%list_elem_of_fmap; reflexivity | ].
  all: split; [reflexivity | ].
  all: intros v [b [-> _]]%list_elem_of_fmap; reflexivity.
Qed.

End AwsConfiguratorFacts.

(** [validate_hub_bucket_outcomes] at a bucket whose region is reported
    in upper case. *)
Lemma validate_hub_bucket_outcomes_witness :
  AWSConfigurator._validate_hub_bucket
    (AWSConfigurator.mkCloud
       (AWSConfigurator.deserialize AWSConfigurator.sample_cloud) None
       (fun _ => inr tt) (fun _ => inr []) (fun _ _ => inr "EU-West-1")
       (fun _ => inr []) (fun _ => ""))
    (Aws.mkSession None None None) (Some "eu-west-1") "my-bucket"
  = inr tt.
Proof.
  apply validate_hub_bucket_outcomes. exists "EU-West-1".
  split; reflexivity.
Defined.

(** [bucket_without_region_is_rejected] at a request that names the
    bucket "my-bucket" and the default credentials. *)
Lemma bucket_without_region_is_rejected_witness :
  match AWSConfigurator.configure_project AWSConfigurator.sample_cloud
          (AWSConfigurator.mkConfigData
             {[ "s3_bucket_name" := "my-bucket" ]}
             (Some {[ "type" := "default" ]})) with
  | inl _ => True
  | inr _ => False
  end.
Proof.
  pose proof (bucket_without_region_is_rejected AWSConfigurator.sample_cloud
                (AWSConfigurator.mkConfigData
                   {[ "s3_bucket_name" := "my-bucket" ]}
                   (Some {[ "type" := "default" ]}))
                {[ "type" := "default" ]} "my-bucket"
                eq_refl eq_refl eq_refl) as H.
  destruct (AWSConfigurator.configure_project _ _) as [e | project_values].
  - exact I.
  - exact (H project_values eq_refl).
Defined.

(** [configure_without_credentials] at a request that only names a
    region, on a host where the STS client finds no credentials. *)
Lemma configure_without_credentials_witness :
  AWSConfigurator.configure_project
    (AWSConfigurator.mkCloud
       (AWSConfigurator.deserialize AWSConfigurator.sample_cloud) None
       (fun _ => inl (Hub.BotoOtherError "NoCredentialsError"))
       (fun _ => inr []) (fun _ _ => inr "eu-west-1")
       (fun _ => inr []) (fun _ => ""))
    (AWSConfigurator.mkConfigData {[ "region_name" := "eu-west-1" ]} None)
  = inl (Hub.RaiseOther "NoCredentialsError").
Proof.
  pose proof (configure_without_credentials
                (AWSConfigurator.mkCloud
                   (AWSConfigurator.deserialize AWSConfigurator.sample_cloud)
                   None
                   (fun _ => inl (Hub.BotoOtherError "NoCredentialsError"))
                   (fun _ => inr []) (fun _ _ => inr "eu-west-1")
                   (fun _ => inr []) (fun _ => ""))
                (AWSConfigurator.mkConfigData
                   {[ "region_name" := "eu-west-1" ]} None) eq_refl) as H.
  cbv zeta in H.
  destruct (AWSConfigurator.configure_project _ _)
    as [r | project_values].
  - destruct H as [(region & [= <-] & Hnot & _) | (what & [= <-] & ->)];
      [ | reflexivity].
    exfalso. apply Hnot.
    repeat first [apply list_elem_of_here | apply list_elem_of_further].
  - destruct H as (_ & _ & _ & [[_ H] | [_ [e H]]]); discriminate H.
Defined.

(** [configure_with_credentials_selects] at a request with access-key
    credentials and no region, where the environment gives the region
    "eu-west-1". *)
Lemma configure_with_credentials_selects_witness :
  exists project_values region_name,
    AWSConfigurator.configure_project
      (AWSConfigurator.mkCloud
         (AWSConfigurator.deserialize AWSConfigurator.sample_cloud)
         (Some "eu-west-1")
         (fun _ => inr tt) (fun _ => inr []) (fun _ _ => inr "eu-west-1")
         (fun _ => inr []) (fun _ => ""))
      (AWSConfigurator.mkConfigData ∅
         (Some {[ "type" := "access_key"; "access_key" := "AKIA";
                  "secret_key" := "secret" ]}))
    = inr project_values
    /\ Hub.pv_region_name project_values = Some region_name
    /\ Hub.selected region_name = Some "eu-west-1".
Proof.
  eexists.
  assert (Hrun :
    AWSConfigurator.configure_project
      (AWSConfigurator.mkCloud
         (AWSConfigurator.deserialize AWSConfigurator.sample_cloud)
         (Some "eu-west-1")
         (fun _ => inr tt) (fun _ => inr []) (fun _ _ => inr "eu-west-1")
         (fun _ => inr []) (fun _ => ""))
      (AWSConfigurator.mkConfigData ∅
         (Some {[ "type" := "access_key"; "access_key" := "AKIA";
                  "secret_key" := "secret" ]}))
    = inr _) by (vm_compute; reflexivity).
  destruct (configure_with_credentials_selects
              (AWSConfigurator.mkCloud
                 (AWSConfigurator.deserialize AWSConfigurator.sample_cloud)
                 (Some "eu-west-1")
                 (fun _ => inr tt) (fun _ => inr [])
                 (fun _ _ => inr "eu-west-1")
                 (fun _ => inr []) (fun _ => ""))
              (AWSConfigurator.mkConfigData ∅
                 (Some {[ "type" := "access_key"; "access_key" := "AKIA";
                          "secret_key" := "secret" ]}))
              _ _ eq_refl Hrun)
    as (region_name & _ & _ & Hregion & _ & _ & Hselected & _).
  exists region_name. split; [exact Hrun | split; [exact Hregion | ]].
  rewrite Hselected. reflexivity.
Defined.

(** ** The stored configuration of an AWS project *)

(** X8.  What [create_config_auth_data_from_project_config] writes,
    [get_project_config_from_project] reads back, provided the parser of
    the credentials reads back what their [dict] gives: the region, the
    subnet and the credentials are the ones given, the bucket name is the
    stripped one, and the region title is lost, the region name taking its
    place. *)
Theorem aws_project_config_round_trip
  (parse_obj : gmap string string
               -> Hub.Raised + AWSConfigurator.AWSProjectCreds)
  (project_config : AWSConfigurator.AWSProjectConfigWithCreds) :
  parse_obj (AWSConfigurator.credentials_dict
               (AWSConfigurator.pc_credentials project_config))
  = inr (AWSConfigurator.pc_credentials project_config) ->
  let data :=
    AWSConfigurator.create_config_auth_data_from_project_config
      project_config in
  let project := AWSConfigurator.mkProject data.1 data.2 in
  let region := AWSConfigurator.pc_region_name project_config in
  let bucket :=
    Py.replace "s3://" ""
      (AWSConfigurator.pc_s3_bucket_name project_config) in
  let subnet := AWSConfigurator.pc_ec2_subnet_id project_config in
  AWSConfigurator.get_project_config_from_project parse_obj project true
  = inr (AWSConfigurator.WithCreds
           (AWSConfigurator.mkAWSProjectConfigWithCreds region region bucket
              subnet (AWSConfigurator.pc_credentials project_config)))
  /\ AWSConfigurator.get_project_config_from_project parse_obj project false
     = inr (AWSConfigurator.WithoutCreds
              (AWSConfigurator.mkAWSProjectConfig region region bucket
                 subnet)).
Proof.
  intros Hparse. cbv zeta.
  unfold AWSConfigurator.get_project_config_from_project,
    AWSConfigurator.create_config_auth_data_from_project_config,
    AWSConfigurator.json_item, AWSConfigurator.project_config_dict.
  cbn [fst snd AWSConfigurator.config AWSConfigurator.auth
       AWSConfigurator.pc_region_name AWSConfigurator.pc_region_name_title
       AWSConfigurator.pc_s3_bucket_name AWSConfigurator.pc_ec2_subnet_id
       AWSConfigurator.pc_credentials].
  rewrite Hparse.
  split; reflexivity.
Qed.

(** [aws_project_config_round_trip] at a project in "eu-west-1" whose
    bucket is given as "s3://my-bucket" and whose region title is
    "Europe, Ireland". *)
Lemma aws_project_config_round_trip_witness :
  let data :=
    AWSConfigurator.create_config_auth_data_from_project_config
      (AWSConfigurator.mkAWSProjectConfigWithCreds "eu-west-1"
         "Europe, Ireland" "s3://my-bucket" None
         (AWSConfigurator.AccessKeyCreds "AKIA" "secret")) in
  AWSConfigurator.get_project_config_from_project
    AWSConfigurator.sample_parse_obj
    (AWSConfigurator.mkProject data.1 data.2) true
  = inr (AWSConfigurator.WithCreds
           (AWSConfigurator.mkAWSProjectConfigWithCreds "eu-west-1"
              "eu-west-1" "my-bucket" None
              (AWSConfigurator.AccessKeyCreds "AKIA" "secret"))).
Proof.
  apply (aws_project_config_round_trip AWSConfigurator.sample_parse_obj
           (AWSConfigurator.mkAWSProjectConfigWithCreds "eu-west-1"
              "Europe, Ireland" "s3://my-bucket" None
              (AWSConfigurator.AccessKeyCreds "AKIA" "secret"))).
  reflexivity.
Defined.

(** ** The GCP configurator: what is offered and selected *)

Lemma string_compare_trans (a b c : string) :
  String.compare a b <> Gt -> String.compare b c <> Gt ->
  String.compare a c <> Gt.
Proof.
  revert b c. induction a as [ | x a IH]; intros [ | y b] [ | z c];
    cbn; try congruence.
  unfold Ascii.compare.
  destruct (N.compare_spec (N_of_ascii x) (N_of_ascii y));
    destruct (N.compare_spec (N_of_ascii y) (N_of_ascii z));
    destruct (N.compare_spec (N_of_ascii x) (N_of_ascii z));
    try congruence; try lia; eauto.
Qed.

Lemma string_leb_trans (a b c : string) :
  String.leb a b = true -> String.leb b c = true -> String.leb a c = true.
Proof.
  unfold String.leb. pose proof (string_compare_trans a b c) as H.
  destruct (String.compare a b), (String.compare b c), (String.compare a c);
    try congruence; intros; exfalso; apply H; congruence.
Qed.

Section SortedFacts.
Import GCPConfigurator.
Context {A : Type} (le : A -> A -> bool).

Lemma insert_sorted_Permutation (x : A) (l : list A) :
  insert_sorted le x l ≡ₚ x :: l.
Proof.
  induction l as [ | y l IH]; cbn; [reflexivity | ].
  destruct (le x y); [reflexivity | ].
  rewrite IH. apply Permutation_swap.
Qed.

Lemma sorted_Permutation (l : list A) : sorted le l ≡ₚ l.
Proof.
  induction l as [ | x l IH]; cbn; [reflexivity | ].
  rewrite insert_sorted_Permutation, IH. reflexivity.
Qed.

Lemma elem_of_sorted (x : A) (l : list A) : x ∈ sorted le l <-> x ∈ l.
Proof. rewrite sorted_Permutation. reflexivity. Qed.

Lemma sorted_nil_inv (l : list A) : sorted le l = [] -> l = [].
Proof.
  intros H. apply Permutation_nil_r. rewrite <- H.
  symmetry. apply sorted_Permutation.
Qed.

Hypothesis le_total : forall a b, le a b = true \/ le b a = true.
Hypothesis le_trans :
  forall a b c, le a b = true -> le b c = true -> le a c = true.

Lemma insert_sorted_head (x : A) (l : list A) :
  (forall h t, l = h :: t -> forall y, y ∈ l -> le h y = true) ->
  forall h t, insert_sorted le x l = h :: t ->
  forall y, y ∈ x :: l -> le h y = true.
Proof.
  intros Hl h t. destruct l as [ | z l]; cbn.
  - intros [= <- <-] y ->%list_elem_of_singleton.
    destruct (le_total x x); assumption.
  - specialize (Hl z l eq_refl).
    destruct (le x z) eqn:Hxz; intros [= <- <-] y Hy.
    + apply elem_of_cons in Hy as [-> | Hy].
      * destruct (le_total x x); assumption.
      * apply (le_trans _ z); [exact Hxz | exact (Hl y Hy)].
    + apply elem_of_cons in Hy as [-> | Hy]; [ | exact (Hl y Hy)].
      destruct (le_total z x) as [H | H]; [exact H | congruence].
Qed.

(** The first element of a sorted list is a least one. *)
Lemma sorted_head (l : list A) (h : A) (t : list A) :
  sorted le l = h :: t -> forall y, y ∈ l -> le h y = true.
Proof.
  revert h t. induction l as [ | x l IH]; cbn; [discriminate | ].
  intros h t Hs y Hy.
  apply (insert_sorted_head x (sorted le l)) with (t := t);
    [ | exact Hs | ].
  - intros h' t' H y' Hy'. apply (IH h' t' H).
    apply elem_of_sorted. exact Hy'.
  - apply elem_of_cons in Hy as [-> | Hy];
      [apply list_elem_of_here | apply list_elem_of_further].
    apply elem_of_sorted. exact Hy.
Qed.

End SortedFacts.

Section PreferredFirst.
Import GCPConfigurator.
Variable preferred : string.

Lemma preferred_first_total (a b : string) :
  preferred_first preferred a b = true
  \/ preferred_first preferred b a = true.
Proof.
  unfold preferred_first.
  repeat case_bool_decide; cbn; auto using String.leb_total.
Qed.

Lemma preferred_first_trans (a b c : string) :
  preferred_first preferred a b = true ->
  preferred_first preferred b c = true ->
  preferred_first preferred a c = true.
Proof.
  unfold preferred_first.
  repeat case_bool_decide; cbn; subst;
    try congruence; eauto using string_leb_trans.
Qed.

(** The list sorted by the key [(name != preferred, name)] begins with
    the preferred name when it holds it, and with its least name
    otherwise. *)
Lemma preferred_first_head (l : list string) (h : string)
  (t : list string) :
  sorted (preferred_first preferred) l = h :: t ->
  h ∈ l
  /\ (preferred ∈ l -> h = preferred)
  /\ (preferred ∉ l -> forall y, y ∈ l -> String.leb h y = true).
Proof.
  intros H.
  pose proof (sorted_head _ preferred_first_total preferred_first_trans
                l h t H) as Hleast.
  assert (Hh : h ∈ l).
  { apply (elem_of_sorted (preferred_first preferred)). rewrite H.
    apply list_elem_of_here. }
  split; [exact Hh | split].
  - intros Hp. specialize (Hleast preferred Hp).
    unfold preferred_first in Hleast.
    rewrite (bool_decide_eq_true_2 (preferred = preferred)) in Hleast
      by reflexivity.
    case_bool_decide; [assumption | discriminate].
  - intros Hp y Hy. specialize (Hleast y Hy).
    unfold preferred_first in Hleast.
    rewrite (bool_decide_eq_false_2 (h = preferred)) in Hleast
      by (intros ->; contradiction).
    rewrite (bool_decide_eq_false_2 (y = preferred)) in Hleast
      by (intros ->; contradiction).
    exact Hleast.
Qed.

End PreferredFirst.

Section GcpSelection.
Import GCPConfigurator.
Variable cloud : Cloud.

Lemma regions_by_name_lookup (regions : list Region) (n : string) :
  n ∈ region_name <$> regions ->
  exists r, regions_by_name regions !! n = Some r
            /\ r ∈ regions /\ region_name r = n.
Proof.
  intros Hn. unfold regions_by_name.
  destruct (list_to_map
              ((fun r => (region_name r, r)) <$> reverse regions) !! n)
    as [r | ] eqn:E.
  - exists r. split; [reflexivity | ].
    apply elem_of_list_to_map_2 in E.
    apply list_elem_of_fmap in E as (r' & [= -> ->] & Hr').
    split; [ | reflexivity]. apply elem_of_reverse. exact Hr'.
  - exfalso. apply not_elem_of_list_to_map in E. apply E.
    rewrite <- list_fmap_compose.
    apply list_elem_of_fmap in Hn as (r & -> & Hr).
    apply list_elem_of_fmap. exists r. split; [reflexivity | ].
    apply elem_of_reverse. exact Hr.
Qed.

(** X9.  [_get_hub_region] without a region asked for.  The regions offered
    are those of the location that the service lists.  The selected one is
    the default region of the location when it is offered, and the first
    in the order of the strings otherwise; the regions returned by name
    hold it.  When no region of the location is listed, the method raises
    an IndexError. *)
Theorem get_hub_region_without_default (location : Location)
  (self : Self cloud) (c : Credentials cloud) (p : string)
  (regions : list Region) :
  credentials cloud self = Some c ->
  project_id cloud self = Some p ->
  regions_list cloud c p = inr regions ->
  let names :=
    filter (fun n => n ∈ location_regions location)
      (region_name <$> regions) in
  match _get_hub_region cloud location None self with
  | (inl e, _) => names = [] /\ e = Hub.RaiseIndexError
  | (inr (element, by_name), _) =>
      exists n,
        Hub.selected element = Some n
        /\ n ∈ names
        /\ (default_region location ∈ names -> n = default_region location)
        /\ (default_region location ∉ names ->
            forall m, m ∈ names -> String.leb n m = true)
        /\ Hub.pev_value <$> Hub.values element ≡ₚ names
        /\ exists r, by_name !! n = Some r
                     /\ r ∈ regions /\ region_name r = n
  end.
Proof.
  intros Hc Hp Hregions names.
  unfold _get_hub_region, mbind, M_bind, self_credentials, self_project_id.
  rewrite Hc, Hp, Hregions. cbn. fold names.
  destruct (sorted (preferred_first (default_region location)) names)
    as [ | n t] eqn:Hsorted; cbn.
  - split; [ | reflexivity]. exact (sorted_nil_inv _ _ Hsorted).
  - destruct (preferred_first_head _ _ _ _ Hsorted)
      as (Hn & Hpreferred & Hleast).
    rewrite bool_decide_eq_false_2
      by (intros H; apply H; apply list_elem_of_here).
    cbn. exists n. split; [reflexivity | ].
    split; [exact Hn | ]. split; [exact Hpreferred | ].
    split; [exact Hleast | ]. split.
    + cbn. rewrite <- list_fmap_compose, list_fmap_id, <- Hsorted.
      apply sorted_Permutation.
    + apply regions_by_name_lookup.
      apply list_elem_of_filter in Hn as [_ Hn]. exact Hn.
Qed.

(** X10.  [_get_hub_zone] without a zone asked for: the zones offered are
    those of the region, the selected one is the default zone of the
    location when the region has it, and the first in the order of the
    strings otherwise.  For a region without zones, the method raises an
    IndexError. *)
Theorem get_hub_zone_without_default (location : Location)
  (region : Region) (self : Self cloud) :
  let names := get_resource_name cloud <$> zones region in
  match _get_hub_zone cloud location (Some region) None self with
  | (inl e, _) => names = [] /\ e = Hub.RaiseIndexError
  | (inr element, _) =>
      exists n,
        Hub.selected element = Some n
        /\ n ∈ names
        /\ (default_zone location ∈ names -> n = default_zone location)
        /\ (default_zone location ∉ names ->
            forall m, m ∈ names -> String.leb n m = true)
        /\ Hub.pev_value <$> Hub.values element ≡ₚ names
  end.
Proof.
  intros names. unfold _get_hub_zone, mbind, M_bind. cbn. fold names.
  destruct (sorted (preferred_first (default_zone location)) names)
    as [ | n t] eqn:Hsorted; cbn.
  - split; [ | reflexivity]. exact (sorted_nil_inv _ _ Hsorted).
  - destruct (preferred_first_head _ _ _ _ Hsorted)
      as (Hn & Hpreferred & Hleast).
    rewrite bool_decide_eq_false_2
      by (intros H; apply H; apply list_elem_of_here).
    cbn. exists n. split; [reflexivity | ].
    split; [exact Hn | ]. split; [exact Hpreferred | ].
    split; [exact Hleast | ].
    cbn. rewrite <- list_fmap_compose, list_fmap_id, <- Hsorted.
      apply sorted_Permutation.
Qed.

End GcpSelection.

Section NoPreferenceFirst.
Import GCPConfigurator.

Lemma insert_no_preference (l : list (string * string)) :
  insert_sorted no_preference_first no_preference_vpc_subnet l
  = no_preference_vpc_subnet :: l.
Proof. destruct l; reflexivity. Qed.

Lemma insert_other (x : string * string) (l1 l2 : list (string * string)) :
  x <> no_preference_vpc_subnet ->
  Forall (fun y => y = no_preference_vpc_subnet) l1 ->
  Forall (fun y => y <> no_preference_vpc_subnet) l2 ->
  insert_sorted no_preference_first x (l1 ++ l2)%list
  = (l1 ++ x :: l2)%list.
Proof.
  intros Hx H1 H2. induction H1 as [ | y l1 -> _ IH]; cbn.
  - destruct H2 as [ | y l2 Hy _]; [reflexivity | ].
    cbn. unfold no_preference_first.
    rewrite (bool_decide_eq_false_2 (y = _)) by exact Hy.
    rewrite orb_true_r. reflexivity.
  - unfold no_preference_first at 1.
    rewrite (bool_decide_eq_false_2 (x = _)) by exact Hx.
    rewrite (bool_decide_eq_true_2 (no_preference_vpc_subnet = _))
      by reflexivity.
    cbn. rewrite IH. reflexivity.
Qed.

(** Sorting by the key [t != no_preference_vpc_subnet] puts the pairs of
    no preference first and keeps the others in their order. *)
Lemma sorted_no_preference_first (l : list (string * string)) :
  sorted no_preference_first l
  = (filter (fun t => t = no_preference_vpc_subnet) l
     ++ filter (fun t => t <> no_preference_vpc_subnet) l)%list.
Proof.
  induction l as [ | x l IH]; [reflexivity | ].
  cbn [sorted foldr]. fold (sorted no_preference_first l). rewrite IH.
  rewrite !filter_cons.
  destruct (decide (x = no_preference_vpc_subnet)) as [-> | Hx].
  - rewrite decide_False by (intros H; apply H; reflexivity).
    apply insert_no_preference.
  - rewrite decide_True by exact Hx.
    apply insert_other; [exact Hx | | ].
    + apply Forall_forall. intros y [Hy _]%list_elem_of_filter. exact Hy.
    + apply Forall_forall. intros y [Hy _]%list_elem_of_filter. exact Hy.
Qed.

End NoPreferenceFirst.

Section GcpSubnets.
Import GCPConfigurator.
Variable cloud : Cloud.

(** X11.  [_get_hub_vpc_subnet].  The pairs considered are the subnets of the
    listed networks that lie in the region.  The pair asked for, where
    "default" stands for what is not given, must be one of them, or the
    method raises a configuration error.  The values offered are these
    pairs, those of no preference first and the others in the order of the
    listing, and the selected label is the label of an offered value for
    the pair asked for. *)
Theorem get_hub_vpc_subnet_offers (region default_vpc default_subnet :
  option string) (self : Self cloud) (c : Credentials cloud) (p : string)
  (networks : list Network) :
  credentials cloud self = Some c ->
  project_id cloud self = Some p ->
  networks_list cloud c p = inr networks ->
  let pairs : list (string * string) :=
    network ← networks;
    subnet ← subnetworks network;
    if bool_decide (Some (get_subnet_region cloud subnet) ≠ region) then []
    else [(network_name network, get_subnet_name cloud subnet)] in
  let asked := (default "default" default_vpc,
                default "default" default_subnet) in
  match _get_hub_vpc_subnet cloud region default_vpc default_subnet self with
  | (inr element, _) =>
      asked ∈ pairs
      /\ (fun v => (vpc v, subnet v)) <$> vpc_values element
         = (filter (fun t => t = no_preference_vpc_subnet) pairs
            ++ filter (fun t => t <> no_preference_vpc_subnet) pairs)%list
      /\ exists v, v ∈ vpc_values element
                   /\ (vpc v, subnet v) = asked
                   /\ vpc_label v = vpc_selected element
  | (inl e, _) =>
      (asked ∉ pairs)
      /\ exists error, e = Hub.RaiseBackendConfigError error
                       /\ Hub.error_shape error = ("invalid_config", [])
  end.
Proof.
  intros Hc Hp Hnetworks pairs asked.
  unfold _get_hub_vpc_subnet, mbind at 1 2 3, M_bind, self_credentials,
    self_project_id.
  rewrite Hc, Hp, Hnetworks. cbn [external mret M_ret].
  fold pairs. fold asked.
  case_bool_decide as Hasked; cbn [raise mret M_ret].
  - split; [exact Hasked | ]. eexists. split; reflexivity.
  - split; [exact Hasked | ].
    cbn [vpc_values vpc_selected]. split.
    + rewrite <- list_fmap_compose, <- sorted_no_preference_first.
      erewrite list_fmap_ext; [apply list_fmap_id | ].
      intros i [v s] _. reflexivity.
    + eexists (mkGCPVPCSubnetProjectElementValue asked.1 asked.2 _).
      split; [ | split; [reflexivity | ] ].
      * apply list_elem_of_fmap. exists asked. split; [reflexivity | ].
        apply elem_of_sorted. exact Hasked.
      * cbn. unfold no_preference_vpc_subnet.
        repeat case_bool_decide; simplify_eq; try reflexivity.
        -- exfalso. match goal with H : _ ≠ _ |- _ => apply H end.
           f_equal; assumption.
        -- exfalso. match goal with H : _ ≠ _ |- _ => apply H end.
           f_equal; assumption.
Qed.

End GcpSubnets.

Section GcpBuckets.
Import GCPConfigurator.
Variable cloud : Cloud.

(** X12.  [_get_hub_buckets].  The buckets offered are the listed ones whose
    location, in lower case, is the region; the selected one is the one
    asked for, if any, and it is then among those offered.  A bucket asked
    for that is not listed in the region gives the configuration error
    [invalid_bucket] on the field [bucket_name]. *)
Theorem get_hub_buckets_offers (region default_bucket : option string)
  (self : Self cloud) (c : Credentials cloud) (buckets : list GcsBucket) :
  credentials cloud self = Some c ->
  storage_list_buckets cloud c = inr buckets ->
  let in_region :=
    filter (fun b => Some (Py.lower (gcs_location b)) = region) buckets in
  match _get_hub_buckets cloud region default_bucket self with
  | (inr element, _) =>
      Hub.selected element = default_bucket
      /\ Hub.pev_value <$> Hub.values element = gcs_name <$> in_region
      /\ (forall b, default_bucket = Some b ->
            b ∈ Hub.pev_value <$> Hub.values element)
  | (inl e, _) =>
      exists b error,
        default_bucket = Some b
        /\ (b ∉ gcs_name <$> in_region)
        /\ e = Hub.RaiseBackendConfigError error
        /\ Hub.error_shape error = ("invalid_bucket", [["bucket_name"]])
  end.
Proof.
  intros Hc Hbuckets in_region.
  unfold _get_hub_buckets, mbind, M_bind, self_credentials.
  rewrite Hc, Hbuckets. cbn. fold in_region.
  assert (Hvalues :
    Hub.pev_value <$>
      ((fun n => Hub.mkProjectElementValue n n) <$> (gcs_name <$> in_region))
    = gcs_name <$> in_region).
  { rewrite <- (list_fmap_compose _ Hub.pev_value). apply list_fmap_id. }
  destruct default_bucket as [b | ]; cbn.
  - case_bool_decide as Hb; cbn.
    + exists b. eexists. repeat split. exact Hb.
    + split; [reflexivity | ]. split; [exact Hvalues | ].
      intros b' [= <-]. rewrite Hvalues. exact Hb.
  - split; [reflexivity | ]. split; [exact Hvalues | ]. discriminate.
Qed.

End GcpBuckets.

(** [get_hub_buckets_offers] where the bucket asked for lies in another
    region than "us-west1". *)
Lemma get_hub_buckets_offers_witness :
  exists error self',
    GCPConfigurator._get_hub_buckets GCPConfigurator.sample_bucket_cloud
      (Some "us-west1") (Some "my-bucket")
      (GCPConfigurator.mkSelf GCPConfigurator.sample_bucket_cloud
         (Some "default-credentials") (Some "my-project"))
    = (inl (Hub.RaiseBackendConfigError error), self')
    /\ Hub.error_shape error = ("invalid_bucket", [["bucket_name"]]).
Proof.
  pose proof (get_hub_buckets_offers GCPConfigurator.sample_bucket_cloud
                (Some "us-west1") (Some "my-bucket")
                (GCPConfigurator.mkSelf GCPConfigurator.sample_bucket_cloud
                   (Some "default-credentials") (Some "my-project"))
                "default-credentials"
                [GCPConfigurator.mkGcsBucket "my-bucket" "EUROPE-WEST4"]
                eq_refl eq_refl) as H.
  cbv zeta in H.
  destruct (GCPConfigurator._get_hub_buckets _ _ _ _)
    as [[e | element] self'].
  - destruct H as (b & error & _ & _ & -> & Hshape).
    exists error, self'. split; [reflexivity | exact Hshape].
  - destruct H as (_ & Hvalues & Hasked). exfalso.
    specialize (Hasked "my-bucket" eq_refl). rewrite Hvalues in Hasked.
    vm_compute in Hasked. apply elem_of_nil in Hasked. exact Hasked.
Defined.

Section GcpConfigureFailures.
Import GCPConfigurator.
Variable cloud : Cloud.

Lemma bind_inl {A B : Type} (m : M cloud A) (f : A -> M cloud B)
  (self self' : Self cloud) (e : Hub.Raised) :
  (m ≫= f) self = (inl e, self') ->
  m self = (inl e, self')
  \/ exists a s, m self = (inr a, s) /\ f a s = (inl e, self').
Proof.
  unfold mbind, M_bind. destruct (m self) as [[e1 | a] s].
  - intros [= <- <-]. left. reflexivity.
  - intros H. right. exists a, s. split; [reflexivity | exact H].
Qed.

Lemma bind_inr {A B : Type} (m : M cloud A) (f : A -> M cloud B)
  (self self' : Self cloud) (b : B) :
  (m ≫= f) self = (inr b, self') ->
  exists a s, m self = (inr a, s) /\ f a s = (inr b, self').
Proof.
  unfold mbind, M_bind. destruct (m self) as [[e1 | a] s].
  - discriminate.
  - intros H. exists a, s. split; [reflexivity | exact H].
Qed.

(** Both attributes of [self] are assigned. *)
Lemma auth_assigns (credentials_data : gmap string string)
  (self self' : Self cloud) :
  _auth cloud credentials_data self = (inr tt, self') ->
  exists c p, self' = mkSelf cloud (Some c) (Some p).
Proof.
  unfold _auth, item. intros H.
  apply bind_inr in H as (type & s & Htype & H).
  case_bool_decide.
  - apply bind_inr in H as (data & s1 & _ & H).
    apply bind_inr in H as (cp & s2 & _ & H).
    injection H as <-. eauto.
  - destruct (auth_default cloud) as [cp | ]; [ | discriminate].
    injection H as <-. eauto.
Qed.

Lemma geographic_area_outcome (default_area : option string)
  (self : Self cloud) :
  exists r,
    _get_hub_geographic_area cloud default_area self = (r, self)
    /\ match r with
       | inl e => configuration_failure e
       | inr element =>
           exists location,
             _get_location (Hub.selected element) = Some location
       end.
Proof.
  unfold _get_hub_geographic_area. case_bool_decide as Harea.
  - eexists. split; [reflexivity | exact I].
  - eexists. split; [reflexivity | ]. cbn.
    change (sorted String.leb (name <$> GCP_LOCATIONS))
      with ["Asia"; "Australia"; "Europe"; "Middle East"; "North America";
            "South America"] in Harea.
    rewrite !elem_of_cons, elem_of_nil in Harea.
    destruct Harea as [-> | [-> | [-> | [-> | [-> | [-> | []]]]]]];
      eexists; reflexivity.
Qed.

Lemma hub_region_outcome (location : Location)
  (default_region_arg : option string) (self : Self cloud)
  (c : Credentials cloud) (p : string) (regions : list Region) :
  credentials cloud self = Some c ->
  project_id cloud self = Some p ->
  regions_list cloud c p = inr regions ->
  exists r,
    _get_hub_region cloud location default_region_arg self = (r, self)
    /\ match r with
       | inl e => configuration_failure e
       | inr (element, by_name) =>
           exists n region,
             Hub.selected element = Some n /\ by_name !! n = Some region
       end.
Proof.
  intros Hc Hp Hregions.
  unfold _get_hub_region, mbind, M_bind, self_credentials, self_project_id.
  rewrite Hc, Hp, Hregions. cbn.
  set (names := sorted _ _).
  assert (Hlookup : forall n, n ∈ names ->
            exists region, regions_by_name regions !! n = Some region).
  { intros n Hn. apply elem_of_sorted in Hn.
    apply list_elem_of_filter in Hn as [_ Hn].
    destruct (regions_by_name_lookup regions n Hn) as (r & Hr & _).
    exists r. exact Hr. }
  destruct default_region_arg as [d | ]; cbn.
  - case_bool_decide as Hd.
    + eexists. split; [reflexivity | exact I].
    + destruct (Hlookup d Hd) as (r & Hr).
      eexists. split; [reflexivity | ]. exists d, r. split; [reflexivity | ].
      exact Hr.
  - destruct names as [ | n t] eqn:Hnames; cbn.
    + eexists. split; [reflexivity | exact I].
    + rewrite bool_decide_eq_false_2
        by (intros H; apply H; apply list_elem_of_here).
      destruct (Hlookup n) as (r & Hr); [apply list_elem_of_here | ].
      eexists. split; [reflexivity | ]. exists n, r. split; [reflexivity | ].
      exact Hr.
Qed.

Lemma hub_zone_outcome (location : Location) (region : Region)
  (default_zone_arg : option string) (self : Self cloud) :
  exists r,
    _get_hub_zone cloud location (Some region) default_zone_arg self
    = (r, self)
    /\ match r with
       | inl e => configuration_failure e
       | inr _ => True
       end.
Proof.
  unfold _get_hub_zone, mbind, M_bind. cbn.
  set (names := sorted _ _).
  destruct default_zone_arg as [d | ]; cbn.
  - case_bool_decide; eexists; (split; [reflexivity | exact I]).
  - destruct names as [ | n t]; cbn.
    + eexists. split; [reflexivity | exact I].
    + case_bool_decide; eexists; (split; [reflexivity | exact I]).
Qed.

Lemma hub_buckets_outcome (region default_bucket : option string)
  (self : Self cloud) (c : Credentials cloud) (buckets : list GcsBucket) :
  credentials cloud self = Some c ->
  storage_list_buckets cloud c = inr buckets ->
  exists r,
    _get_hub_buckets cloud region default_bucket self = (r, self)
    /\ match r with
       | inl e => configuration_failure e
       | inr _ => True
       end.
Proof.
  intros Hc Hbuckets.
  unfold _get_hub_buckets, mbind, M_bind, self_credentials.
  rewrite Hc, Hbuckets. cbn.
  destruct default_bucket as [b | ]; cbn.
  - case_bool_decide; eexists; (split; [reflexivity | exact I]).
  - eexists. split; [reflexivity | exact I].
Qed.

Lemma hub_vpc_subnet_outcome (region default_vpc default_subnet :
  option string) (self : Self cloud) (c : Credentials cloud) (p : string)
  (networks : list Network) :
  credentials cloud self = Some c ->
  project_id cloud self = Some p ->
  networks_list cloud c p = inr networks ->
  exists r,
    _get_hub_vpc_subnet cloud region default_vpc default_subnet self
    = (r, self)
    /\ match r with
       | inl e => configuration_failure e
       | inr _ => True
       end.
Proof.
  intros Hc Hp Hnetworks.
  unfold _get_hub_vpc_subnet, mbind at 1 2 3, M_bind, self_credentials,
    self_project_id.
  rewrite Hc, Hp, Hnetworks. cbn [external mret M_ret].
  case_bool_decide; eexists; (split; [reflexivity | exact I]).
Qed.

(** X13.  When the services that list regions, buckets and networks answer,
    [configure_project] raises only a configuration error, the KeyError of
    credentials without a ["type"], or the IndexError of an area or a
    region with nothing to offer: the attributes of [self] are assigned
    whenever they are read, the location of the selected area is found,
    and the selected region is among those listed. *)
Theorem gcp_configure_project_failures (config_data : ConfigData)
  (self self' : Self cloud) (e : Hub.Raised) :
  (forall c p, exists regions, regions_list cloud c p = inr regions) ->
  (forall c, exists buckets, storage_list_buckets cloud c = inr buckets) ->
  (forall c p, exists networks, networks_list cloud c p = inr networks) ->
  configure_project cloud config_data self = (inl e, self') ->
  configuration_failure e.
Proof.
  intros Hregions Hbuckets Hnetworks H. unfold configure_project in H.
  apply bind_inl in H as [H | (dc & s1 & H1 & H)].
  { destruct (auth_default cloud); discriminate H. }
  assert (Hdc : dc = true ->
            exists c p, s1 = mkSelf cloud (Some c) (Some p)).
  { destruct (auth_default cloud) as [cp | ].
    - injection H1 as <- <-. eauto.
    - injection H1 as <- <-. discriminate. }
  destruct (config_credentials config_data) as [credentials_data | ];
    [ | discriminate H].
  apply bind_inl in H as [H | (type & s2 & H2 & H)].
  { unfold item in H. destruct (credentials_data !! "type");
      [discriminate H | ]. injection H as <- _. reflexivity. }
  assert (s2 = s1) as ->.
  { unfold item in H2. destruct (credentials_data !! "type");
      [ | discriminate H2]. injection H2 as _ <-. reflexivity. }
  apply bind_inl in H as [H | ([] & s3 & H3 & H)].
  { case_bool_decide.
    - unfold try_except in H.
      destruct (_ ≫= _) as [[e1 | a] s] in H;
        [injection H as <- _; exact I | discriminate H].
    - destruct (negb dc); [injection H as <- _; exact I | discriminate H]. }
  assert (Hassigned : exists c p, s3 = mkSelf cloud (Some c) (Some p)).
  { case_bool_decide.
    - unfold try_except in H3.
      destruct (_ ≫= _) as [[e1 | a] s] eqn:Hbody in H3;
        [discriminate H3 | ].
      injection H3 as _ <-.
      apply bind_inr in Hbody as ([] & sa & Hauth & Hbody).
      apply auth_assigns in Hauth as (c & p & ->).
      apply bind_inr in Hbody as (c' & sb & Hcred & Hbody).
      injection Hcred as _ <-.
      destruct (storage_list_buckets_one cloud c') in Hbody;
        [discriminate Hbody | ].
      injection Hbody as _ <-. eauto.
    - destruct dc; [ | discriminate H3]. injection H3 as <-. auto. }
  destruct Hassigned as (c & p & ->). clear H3 Hdc H1 H2.
  set (s := mkSelf cloud (Some c) (Some p)) in *.
  destruct (Hregions c p) as (regions & Hr).
  destruct (Hbuckets c) as (buckets & Hb).
  destruct (Hnetworks c p) as (networks & Hn).
  apply bind_inl in H as [H | (area & s4 & H4 & H)].
  { destruct (geographic_area_outcome (config_items config_data !! "area") s)
      as (r & Heq & Hout).
    rewrite Heq in H. injection H as -> _. exact Hout. }
  destruct (geographic_area_outcome (config_items config_data !! "area") s)
    as (r & Heq & Hout).
  rewrite Heq in H4. injection H4 as -> <-.
  destruct Hout as (location & Hlocation). rewrite Hlocation in H.
  clear Heq.
  apply bind_inl in H as [H | (location' & s5 & H5 & H)];
    [discriminate H | ].
  injection H5 as <- <-.
  destruct (hub_region_outcome location (config_items config_data !! "region")
              s c p regions eq_refl eq_refl Hr) as (r & Heq & Hout).
  apply bind_inl in H as [H | ([region by_name] & s6 & H6 & H)].
  { rewrite Heq in H. injection H as -> _. exact Hout. }
  rewrite Heq in H6. injection H6 as -> <-.
  destruct Hout as (n & found & Hselected & Hfound). clear Heq.
  cbn [fst snd] in H. rewrite Hselected in H. cbn [mbind option_bind] in H.
  rewrite Hfound in H.
  destruct (hub_zone_outcome location found
              (config_items config_data !! "zone") s) as (r & Heq & Hout).
  apply bind_inl in H as [H | (zone & s7 & H7 & H)].
  { rewrite Heq in H. injection H as -> _. exact Hout. }
  rewrite Heq in H7. injection H7 as -> <-. clear Heq Hout.
  destruct (hub_buckets_outcome (Some n)
              (config_items config_data !! "bucket_name") s c buckets
              eq_refl Hb) as (r & Heq & Hout).
  apply bind_inl in H as [H | (bucket & s8 & H8 & H)].
  { rewrite Heq in H. injection H as -> _. exact Hout. }
  rewrite Heq in H8. injection H8 as -> <-. clear Heq Hout.
  destruct (hub_vpc_subnet_outcome (Some n)
              (config_items config_data !! "vpc")
              (config_items config_data !! "subnet") s c p networks
              eq_refl eq_refl Hn) as (r & Heq & Hout).
  apply bind_inl in H as [H | (vpc_subnet & s9 & H9 & H)].
  { rewrite Heq in H. injection H as -> _. exact Hout. }
  discriminate H.
Qed.

End GcpConfigureFailures.

(** ** The GCP configurator: the service account *)

Section GcpServiceAccount.
Import GCPConfigurator.
Variable cloud : Cloud.






End GcpServiceAccount.

(** ** The stored configuration of a GCP project *)

Section GcpProjectConfig.
Import GCPConfigurator.
Variable cloud : Cloud.

Lemma create_config_data (project_config : GCPProjectConfigWithCreds)
  (self self' : Self cloud)
  (data : gmap string string * gmap string string) :
  create_config_auth_data_from_project_config cloud project_config self
  = (inr data, self') ->
  data.1 = project_config_dict project_config.
Proof.
  unfold create_config_auth_data_from_project_config.
  destruct (pc_credentials project_config).
  - intros [= <- _]. reflexivity.
  - intros H.
    apply bind_inr in H as (? & ? & _ & H).
    apply bind_inr in H as (? & ? & _ & H).
    apply bind_inr in H as (? & ? & _ & H).
    apply bind_inr in H as (? & ? & _ & H).
    injection H as <- _. reflexivity.
Qed.

(** X16.  What [create_config_auth_data_from_project_config] returns,
    [get_project_config_from_project] reads back: when the parser of the
    credentials makes [credentials] of the second dict, the project
    configuration read with the credentials holds them and the area,
    region, zone, bucket, VPC and subnet that were given, and the one read
    without the credentials holds the same six. *)
Theorem gcp_project_config_round_trip
  (parse_obj : gmap string string -> Hub.Raised + GCPProjectCreds)
  (project_config : GCPProjectConfigWithCreds) (self self' : Self cloud)
  (data : gmap string string * gmap string string)
  (credentials : GCPProjectCreds) :
  create_config_auth_data_from_project_config cloud project_config self
  = (inr data, self') ->
  parse_obj data.2 = inr credentials ->
  let project := mkProject (Some <$> data.1) data.2 in
  get_project_config_from_project parse_obj project true
  = inr (WithCreds
           (mkGCPProjectConfigWithCreds credentials
              (pc_area project_config) (pc_region project_config)
              (pc_zone project_config) (pc_bucket_name project_config)
              (pc_vpc project_config) (pc_subnet project_config)))
  /\ get_project_config_from_project parse_obj project false
     = inr (WithoutCreds
              (mkGCPProjectConfig
                 (pc_area project_config) (pc_region project_config)
                 (pc_zone project_config) (pc_bucket_name project_config)
                 (pc_vpc project_config) (pc_subnet project_config))).
Proof.
  intros Hcreate Hparse. cbv zeta.
  rewrite (create_config_data _ _ _ _ Hcreate).
  unfold get_project_config_from_project, json_item, project_config_dict.
  cbn [config auth]. rewrite !lookup_fmap, Hparse.
  split; reflexivity.
Qed.

End GcpProjectConfig.

(** ** Examples for the GCP configurator *)

(** [get_hub_region_without_default] where the service lists the region
    "us-west1" only. *)
Lemma get_hub_region_without_default_witness :
  exists element by_name self',
    GCPConfigurator._get_hub_region (GCPConfigurator.sample_cloud (inl 409))
      GCPConfigurator.sample_location None
      (GCPConfigurator.mkSelf (GCPConfigurator.sample_cloud (inl 409))
         (Some "default-credentials") (Some "my-project"))
    = (inr (element, by_name), self')
    /\ Hub.selected element = Some "us-west1".
Proof.
  pose proof (get_hub_region_without_default
                (GCPConfigurator.sample_cloud (inl 409))
                GCPConfigurator.sample_location
                (GCPConfigurator.mkSelf
                   (GCPConfigurator.sample_cloud (inl 409))
                   (Some "default-credentials") (Some "my-project"))
                "default-credentials" "my-project"
                [GCPConfigurator.mkRegion "us-west1" ["us-west1-b"]]
                eq_refl eq_refl eq_refl) as H.
  cbv zeta in H.
  destruct (GCPConfigurator._get_hub_region _ _ _ _)
    as [[e | [element by_name]] self'].
  - destruct H as [H _]. vm_compute in H. discriminate H.
  - destruct H as (n & Hselected & _ & Hpreferred & _).
    exists element, by_name, self'. split; [reflexivity | ].
    rewrite Hselected. f_equal. apply Hpreferred.
    apply (bool_decide_unpack _). vm_compute. exact I.
Defined.

(** [get_hub_vpc_subnet_offers] where the only network is "default", with
    the subnet "default" in the region "us-west1". *)
Lemma get_hub_vpc_subnet_offers_witness :
  exists element self',
    GCPConfigurator._get_hub_vpc_subnet
      (GCPConfigurator.sample_cloud (inl 409)) (Some "us-west1") None None
      (GCPConfigurator.mkSelf (GCPConfigurator.sample_cloud (inl 409))
         (Some "default-credentials") (Some "my-project"))
    = (inr element, self')
    /\ (fun v => (GCPConfigurator.vpc v, GCPConfigurator.subnet v))
       <$> GCPConfigurator.vpc_values element
       = [("default", "default")].
Proof.
  pose proof (get_hub_vpc_subnet_offers
                (GCPConfigurator.sample_cloud (inl 409))
                (Some "us-west1") None None
                (GCPConfigurator.mkSelf
                   (GCPConfigurator.sample_cloud (inl 409))
                   (Some "default-credentials") (Some "my-project"))
                "default-credentials" "my-project"
                [GCPConfigurator.mkNetwork "default" ["default"]]
                eq_refl eq_refl eq_refl) as H.
  cbv zeta in H.
  destruct (GCPConfigurator._get_hub_vpc_subnet _ _ _ _ _)
    as [[e | element] self'].
  - destruct H as [H _]. exfalso. apply H.
    apply (bool_decide_unpack _). vm_compute. exact I.
  - destruct H as (_ & Hvalues & _).
    exists element, self'. split; [reflexivity | ].
    rewrite Hvalues. vm_compute. reflexivity.
Defined.

(** [gcp_configure_project_failures] at a request for the area "Europe",
    of which the service lists no region. *)
Lemma gcp_configure_project_failures_witness :
  GCPConfigurator.configure_project (GCPConfigurator.sample_cloud (inl 409))
    (GCPConfigurator.mkConfigData {[ "area" := "Europe" ]}
       (Some {[ "type" := "default" ]}))
    (GCPConfigurator.mkSelf (GCPConfigurator.sample_cloud (inl 409))
       None None)
  = (inl Hub.RaiseIndexError,
     GCPConfigurator.mkSelf (GCPConfigurator.sample_cloud (inl 409))
       (Some "default-credentials") (Some "my-project"))
  /\ GCPConfigurator.configuration_failure Hub.RaiseIndexError.
Proof.
  assert (Hrun :
    GCPConfigurator.configure_project
      (GCPConfigurator.sample_cloud (inl 409))
      (GCPConfigurator.mkConfigData {[ "area" := "Europe" ]}
         (Some {[ "type" := "default" ]}))
      (GCPConfigurator.mkSelf (GCPConfigurator.sample_cloud (inl 409))
         None None)
    = (inl Hub.RaiseIndexError,
       GCPConfigurator.mkSelf (GCPConfigurator.sample_cloud (inl 409))
         (Some "default-credentials") (Some "my-project")))
    by (vm_compute; reflexivity).
  split; [exact Hrun | ].
  apply (gcp_configure_project_failures
           (GCPConfigurator.sample_cloud (inl 409)) _ _ _ _
           (fun _ _ => ex_intro _ _ eq_refl)
           (fun _ => ex_intro _ _ eq_refl)
           (fun _ _ => ex_intro _ _ eq_refl) Hrun).
Defined.


(** [gcp_project_config_round_trip] at a project with the credentials of
    a service account. *)
Lemma gcp_project_config_round_trip_witness :
  GCPConfigurator.get_project_config_from_project
    GCPConfigurator.sample_parse_obj
    (GCPConfigurator.mkProject
       (Some <$>
          GCPConfigurator.project_config_dict
            (GCPConfigurator.mkGCPProjectConfigWithCreds
               (GCPConfigurator.ServiceAccountCreds "{}") "North America"
               "us-west1" "us-west1-b" "my-bucket" "default" "default"))
       {[ "type" := "service_account"; "data" := "{}" ]})
    true
  = inr (GCPConfigurator.WithCreds
           (GCPConfigurator.mkGCPProjectConfigWithCreds
              (GCPConfigurator.ServiceAccountCreds "{}") "North America"
              "us-west1" "us-west1-b" "my-bucket" "default" "default")).
Proof.
  apply (gcp_project_config_round_trip
           (GCPConfigurator.sample_cloud (inl 409))
           GCPConfigurator.sample_parse_obj
           (GCPConfigurator.mkGCPProjectConfigWithCreds
              (GCPConfigurator.ServiceAccountCreds "{}") "North America"
              "us-west1" "us-west1-b" "my-bucket" "default" "default")
           (GCPConfigurator.mkSelf (GCPConfigurator.sample_cloud (inl 409))
              None None)
           (GCPConfigurator.mkSelf (GCPConfigurator.sample_cloud (inl 409))
              None None)
           (_, _) (GCPConfigurator.ServiceAccountCreds "{}")
           eq_refl eq_refl).
Defined.

(** ** The GCP configurator: the geographic area *)

Section GcpArea.
Import GCPConfigurator.
Variable cloud : Cloud.

(** X18.  [_get_hub_geographic_area].  The areas offered are the six of
    [GCP_LOCATIONS] in the order of the strings, each its own label; the
    selected one is the area asked for, "North America" when none is, and
    [_get_location] finds the location of that name, so that the
    [location] of [configure_project] is never [None].  An area that is
    not one of the six gives a configuration error with the default code
    and no field; [self] is left as it is. *)
Theorem get_hub_geographic_area_offers (default_area : option string)
  (self : Self cloud) :
  let asked := default "North America" default_area in
  match _get_hub_geographic_area cloud default_area self with
  | (inr element, self') =>
      self' = self
      /\ Hub.selected element = Some asked
      /\ Hub.values element
         = (fun n => Hub.mkProjectElementValue n n)
           <$> ["Asia"; "Australia"; "Europe"; "Middle East";
                "North America"; "South America"]
      /\ exists location,
           _get_location (Hub.selected element) = Some location
           /\ name location = asked
  | (inl e, self') =>
      self' = self
      /\ (asked ∉ name <$> GCP_LOCATIONS)
      /\ e = Hub.RaiseBackendConfigError
               (Hub.mkBackendConfigError ("Invalid GCP area " +:+ asked)
                  "invalid_config" [])
  end.
Proof.
  intros asked. unfold _get_hub_geographic_area.
  change (default DEFAULT_GEOGRAPHIC_AREA default_area) with asked.
  change (sorted String.leb (name <$> GCP_LOCATIONS))
    with ["Asia"; "Australia"; "Europe"; "Middle East"; "North America";
          "South America"].
  case_bool_decide as Harea.
  - split; [reflexivity | ]. split; [ | reflexivity].
    intros H. apply Harea. cbn in H.
    rewrite !elem_of_cons, elem_of_nil in *. tauto.
  - split; [reflexivity | ]. split; [reflexivity | ].
    split; [reflexivity | ]. cbn [Hub.selected element_of].
    rewrite !elem_of_cons, elem_of_nil in Harea.
    destruct Harea as [-> | [-> | [-> | [-> | [-> | [-> | []]]]]]];
      eexists; split; reflexivity.
Qed.

End GcpArea.

(** ** The backend configuration of a stored GCP project *)

Section GcpBackendConfig.
Import GCPConfigurator.
Variable cloud : Cloud.
Variable GCPConfig : Type.
Variable deserialize : BackendData -> Hub.Raised + GCPConfig.

(** X19.  The two dicts that [create_config_auth_data_from_project_config]
    returns are enough for [get_backend_config_from_hub_config_data]: on
    whatever configurator it runs, it raises what [_auth] raises on the
    second dict, and otherwise hands to [GCPConfig.deserialize] the
    backend "gcp", that dict as credentials, the project of the
    credentials just authenticated, and the region, zone, bucket, VPC and
    subnet of the project configuration; no key is missing. *)
Theorem backend_config_of_created_project
  (project_config : GCPProjectConfigWithCreds) (self self' : Self cloud)
  (data : gmap string string * gmap string string)
  (project_name : string) (self0 : Self cloud) :
  create_config_auth_data_from_project_config cloud project_config self
  = (inr data, self') ->
  let configured :=
    get_backend_config_from_hub_config_data cloud GCPConfig deserialize
      project_name (Some <$> data.1) data.2 self0 in
  match _auth cloud data.2 self0 with
  | (inl e, self1) => configured = (inl e, self1)
  | (inr _, self1) =>
      exists project,
        project_id cloud self1 = Some project
        /\ configured
           = (deserialize
                (mkBackendData "gcp" data.2 project
                   (Some (pc_region project_config))
                   (Some (pc_zone project_config))
                   (Some (pc_bucket_name project_config))
                   (Some (pc_vpc project_config))
                   (Some (pc_subnet project_config))),
              self1)
  end.
Proof.
  intros Hcreate configured. subst configured.
  rewrite (create_config_data _ _ _ _ _ Hcreate).
  unfold get_backend_config_from_hub_config_data.
  unfold mbind, M_bind.
  destruct (_auth cloud data.2 self0) as [[e | []] self1] eqn:Hauth;
    [reflexivity | ].
  apply auth_assigns in Hauth as (c & p & ->).
  exists p. split; [reflexivity | ].
  unfold self_project_id, config_item, project_config_dict.
  cbn [project_id]. rewrite !lookup_fmap. reflexivity.
Qed.

End GcpBackendConfig.

(** [backend_config_of_created_project] at a project with the credentials
    of a service account, the configuration being read as the data
    itself. *)
Lemma backend_config_of_created_project_witness :
  (GCPConfigurator.get_backend_config_from_hub_config_data
     (GCPConfigurator.sample_cloud (inl 409)) GCPConfigurator.BackendData
     inr "main"
     (Some <$>
        GCPConfigurator.project_config_dict
          (GCPConfigurator.mkGCPProjectConfigWithCreds
             (GCPConfigurator.ServiceAccountCreds "{}") "North America"
             "us-west1" "us-west1-b" "my-bucket" "default" "default"))
     {[ "type" := "service_account"; "data" := "{}" ]}
     (GCPConfigurator.mkSelf (GCPConfigurator.sample_cloud (inl 409))
        None None)).1
  = inr (GCPConfigurator.mkBackendData "gcp"
           {[ "type" := "service_account"; "data" := "{}" ]} "my-project"
           (Some "us-west1") (Some "us-west1-b") (Some "my-bucket")
           (Some "default") (Some "default")).
Proof.
  pose proof (backend_config_of_created_project
                (GCPConfigurator.sample_cloud (inl 409))
                GCPConfigurator.BackendData inr
                (GCPConfigurator.mkGCPProjectConfigWithCreds
                   (GCPConfigurator.ServiceAccountCreds "{}") "North America"
                   "us-west1" "us-west1-b" "my-bucket" "default" "default")
                (GCPConfigurator.mkSelf
                   (GCPConfigurator.sample_cloud (inl 409)) None None)
                (GCPConfigurator.mkSelf
                   (GCPConfigurator.sample_cloud (inl 409)) None None)
                (_, _) "main"
                (GCPConfigurator.mkSelf
                   (GCPConfigurator.sample_cloud (inl 409)) None None)
                eq_refl) as H.
  cbv zeta in H. cbn [fst snd GCPConfigurator.pc_credentials
                      GCPConfigurator.credentials_dict] in H.
  destruct (GCPConfigurator._auth _ _ _) as [[e | []] self1] eqn:Hauth.
  - vm_compute in Hauth. discriminate Hauth.
  - destruct H as (project & Hproject & ->).
    injection Hauth as <-. injection Hproject as <-. reflexivity.
Defined.

(** ** The notebook provider: the apps *)

Lemma pretty_N_go_nonempty (x : N) (s : string) :
  s <> EmptyString -> pretty_N_go x s <> EmptyString.
Proof.
  revert s. induction (N.lt_wf_0 x) as [x _ IH]. intros s Hs.
  destruct (decide (x = 0)%N) as [-> | Hx].
  - rewrite pretty_N_go_0. exact Hs.
  - rewrite pretty_N_go_step by lia.
    apply IH; [ | discriminate].
    apply N.div_lt; lia.
Qed.

Lemma pretty_nat_nonempty (n : nat) : pretty n <> EmptyString.
Proof.
  unfold pretty, pretty_nat, pretty, pretty_N.
  destruct (decide (N.of_nat n = 0)%N); [discriminate | ].
  destruct (decide (N.of_nat n = 0)%N) as [ | Hn] in |- *; [contradiction | ].
  rewrite pretty_N_go_step by lia.
  apply pretty_N_go_nonempty. discriminate.
Qed.

Section NotebookApps.
Import Notebook.
Variable helpers : Helpers.
Variable self : NotebookProvider.

Lemma port_app_names (l : list PortMapping) :
  app_name <$>
    imap (fun i pm =>
            mkAppSpec (pm_port pm) (pm_map_to_port pm)
              ("notebook" +:+ pretty (S i)) None) l
  = (fun i => "notebook" +:+ pretty (S i)) <$> seq 0 (length l).
Proof.
  apply list_eq. intros i.
  rewrite !list_lookup_fmap, list_lookup_imap.
  destruct (l !! i) as [pm | ] eqn:Hi; cbn.
  - rewrite lookup_seq_lt by (eapply lookup_lt_Some; exact Hi).
    reflexivity.
  - rewrite lookup_seq_ge by (apply lookup_ge_None; exact Hi).
    reflexivity.
Qed.

(** X17.  The apps of the job spec, before the OpenSSH extension sees them:
    one for each port that is not reserved, in the order of the ports,
    named "notebook1", "notebook2", ..., then the app "notebook" of the
    notebook itself, the only one with query parameters.  No two of them
    have the same name. *)
Theorem notebook_apps_named_apart (token : string) :
  let mappings := filter_reserved_ports helpers (ports self) in
  exists apps job,
    create_job_specs helpers self token = [job]
    /\ app_specs job
       = (if openssh_server self
          then OpenSSHExtension_patch_apps helpers apps
                 (get_map_to_port helpers (ports self)
                    (OpenSSHExtension_port helpers))
          else apps)
    /\ length apps = S (length mappings)
    /\ NoDup (app_name <$> apps)
    /\ (forall i pm, mappings !! i = Some pm ->
          apps !! i
          = Some (mkAppSpec (pm_port pm) (pm_map_to_port pm)
                    ("notebook" +:+ pretty (S i)) None))
    /\ apps !! length mappings
       = Some (mkAppSpec notebook_port
                 (get_map_to_port helpers (ports self) notebook_port)
                 "notebook" (Some {[ "token" := token ]})).
Proof.
  intros mappings. unfold create_job_specs. fold mappings.
  eexists. eexists. split; [reflexivity | ].
  cbn [app_specs]. split; [reflexivity | ].
  split; [ | split; [ | split] ].
  - rewrite length_app, length_imap. cbn. lia.
  - rewrite fmap_app, port_app_names. cbn [fmap list_fmap app_name].
    apply NoDup_app. split; [ | split].
    + apply NoDup_fmap_2; [ | apply NoDup_seq].
      intros i j Hij. apply String.app_inj in Hij.
      apply pretty_nat_inj in Hij. lia.
    + intros name [i [-> _]]%list_elem_of_fmap
        Hname%list_elem_of_singleton.
      apply (pretty_nat_nonempty (S i)).
      apply (String.app_inj "notebook"). exact Hname.
    + apply NoDup_singleton.
  - intros i pm Hi. rewrite lookup_app_l
      by (rewrite length_imap; eapply lookup_lt_Some; exact Hi).
    rewrite list_lookup_imap, Hi. reflexivity.
  - rewrite lookup_app_r by (rewrite length_imap; lia).
    rewrite length_imap, Nat.sub_diag. reflexivity.
Qed.

End NotebookApps.
